(** * The AfreecaTV extractors of yt-dlp (yt_dlp/extractor/afreecatv.py)

    A shallow embedding of the extractors of the module: the VOD resolver
    [AfreecaTVIE._real_extract] with [parse_video_key] and [_perform_login],
    the live resolver [AfreecaTVLiveIE._real_extract] and the user listing
    [AfreecaTVUserIE].

    - JSON payloads and the info dicts the extractors return are Python
      values ([Py.value]); a dict is an association list in insertion order.
      JSON numbers are Python ints (no floats), strings are sequences of
      one-byte characters.  The character classes of the patterns
      ([\d], [\w]) are Python's on ASCII text.
    - A Python exception is a value of [Py.exn]; fallible code returns
      [Py.result].  [Py.ExtractorError] stands for the errors that the
      [raise] statements of this module build.
    - The helpers of [yt_dlp.utils] and of [InfoExtractor] are not part of
      this file of the repository: they are the fields of the class [Host].
      A helper that can raise returns an [option]; its exception is opaque
      to the extractor and shows as [Py.HostError], whatever its class in
      the framework (the framework's own error for a failed download
      included).
    - The network is an oracle [network] that answers a request knowing the
      requests issued before it; the extractors run in a state-and-exception
      monad [M] whose state records, in order, the requests the module
      issues through [_download_json] and the warnings it reports through
      [self.report_warning].  What the framework downloads or reports
      inside a helper (the manifest behind [_extract_m3u8_formats], the
      warning of a download with [fatal=False]) is outside this state. *)

From Stdlib Require Import String Ascii List ZArith Lia Bool DecimalString.
Import ListNotations.
Open Scope string_scope.

(** ** Python values *)

Set Warnings "-register-all".

Module Py.

Inductive value : Type :=
| VNone
| VBool (b : bool)
| VInt (z : Z)
| VStr (s : string)
| VList (items : list value)
| VDict (kv : list (string * value)).

Inductive exn : Type :=
| ExtractorError (msg : string) (expected : bool)
| KeyError (key : string)
| IndexError
| TypeError
| ValueError
| AttributeError
| HostError (what : string).

Inductive result (A : Type) : Type :=
| Ok (a : A)
| Raise (e : exn).

Arguments Ok {A} a.
Arguments Raise {A} e.

Definition dict := list (string * value).

(** [bool(v)] *)
Definition truthy (v : value) : bool :=
  match v with
  | VNone => false
  | VBool b => b
  | VInt z => negb (z =? 0)%Z
  | VStr s => negb (s =? "")
  | VList [] => false
  | VList (_ :: _) => true
  | VDict [] => false
  | VDict (_ :: _) => true
  end.

(** [a or b] *)
Definition py_or (a b : value) : value := if truthy a then a else b.

(** [v == 'lit'] for a string literal *)
Definition str_eq (v : value) (lit : string) : bool :=
  match v with
  | VStr s => s =? lit
  | _ => false
  end.

(** [v is None] *)
Definition is_none (v : value) : bool :=
  match v with
  | VNone => true
  | _ => false
  end.

Fixpoint lookup (k : string) (d : dict) : option value :=
  match d with
  | [] => None
  | (k', v) :: d' => if k' =? k then Some v else lookup k d'
  end.

(** [d[k] = v] on a dict: an existing key keeps its place *)
Fixpoint dict_set (k : string) (v : value) (d : dict) : dict :=
  match d with
  | [] => [(k, v)]
  | (k', v') :: d' => if k' =? k then (k, v) :: d' else (k', v') :: dict_set k v d'
  end.

(** [d.update(new)] *)
Definition dict_update (d new : dict) : dict :=
  fold_left (fun acc p => dict_set (fst p) (snd p) acc) new d.

(** [o[k]] for a string key *)
Definition getitem (o : value) (k : string) : result value :=
  match o with
  | VDict d =>
      match lookup k d with
      | Some v => Ok v
      | None => Raise (KeyError k)
      end
  | _ => Raise TypeError
  end.

Fixpoint last_char (s : string) : option ascii :=
  match s with
  | EmptyString => None
  | String c EmptyString => Some c
  | String _ r => last_char r
  end.

(** [o[-1]] *)
Definition getitem_last (o : value) : result value :=
  match o with
  | VList l =>
      match rev l with
      | [] => Raise IndexError
      | v :: _ => Ok v
      end
  | VStr s =>
      match last_char s with
      | None => Raise IndexError
      | Some c => Ok (VStr (String c EmptyString))
      end
  | VDict _ => Raise (KeyError "-1")
  | _ => Raise TypeError
  end.

(** [o.get(k)] and [o.get(k, default)] *)
Definition get_default (o : value) (k : string) (default : value) : result value :=
  match o with
  | VDict d =>
      match lookup k d with
      | Some v => Ok v
      | None => Ok default
      end
  | _ => Raise AttributeError
  end.

Definition get (o : value) (k : string) : result value := get_default o k VNone.

(** [len(o)] *)
Definition py_len (o : value) : result nat :=
  match o with
  | VList l => Ok (List.length l)
  | VStr s => Ok (String.length s)
  | VDict d => Ok (List.length d)
  | _ => Raise TypeError
  end.

Fixpoint chars (s : string) : list value :=
  match s with
  | EmptyString => []
  | String c r => VStr (String c EmptyString) :: chars r
  end.

(** the items [for x in o] runs over *)
Definition py_iter (o : value) : result (list value) :=
  match o with
  | VList l => Ok l
  | VStr s => Ok (chars s)
  | VDict d => Ok (map (fun p => VStr (fst p)) d)
  | _ => Raise TypeError
  end.

(** decimal rendering of an int, as [str] and [%d] print it *)
Definition dec (z : Z) : string := NilZero.string_of_int (Z.to_int z).

(** [str.isspace] on one-byte characters: the controls 9 to 13 and 28 to
    31, the space, NEL (133) and the no-break space (160) *)
Definition is_space (c : ascii) : bool :=
  let n := nat_of_ascii c in
  (Nat.leb 9 n && Nat.leb n 13) || (Nat.leb 28 n && Nat.leb n 32)
  || Nat.eqb n 133 || Nat.eqb n 160.

Fixpoint lstrip (s : string) : string :=
  match s with
  | EmptyString => EmptyString
  | String c r => if is_space c then lstrip r else s
  end.

Fixpoint rstrip (s : string) : string :=
  match s with
  | EmptyString => EmptyString
  | String c r =>
      match rstrip r with
      | EmptyString => if is_space c then EmptyString else String c EmptyString
      | r' => String c r'
      end
  end.

(** [s.strip()] *)
Definition strip (s : string) : string := rstrip (lstrip s).

(** [s.split(sep)] for a non-empty separator: [split_go] returns the piece
    that starts at the current position and the pieces after it; [skip]
    counts the characters of a matched separator still to be dropped. *)
Fixpoint split_go (sep : string) (skip : nat) (s : string) : string * list string :=
  match s with
  | EmptyString => (EmptyString, [])
  | String c r =>
      match skip with
      | S k => split_go sep k r
      | O =>
          if prefix sep s
          then let (p, ps) := split_go sep (String.length sep - 1) r in
               (EmptyString, p :: ps)
          else let (p, ps) := split_go sep 0 r in
               (String c p, ps)
      end
  end.

Definition split (sep s : string) : list string :=
  let (p, ps) := split_go sep 0 s in p :: ps.

(** [a, b = parts] *)
Definition unpack2 (parts : list string) : result (string * string) :=
  match parts with
  | [a; b] => Ok (a, b)
  | _ => Raise ValueError
  end.

End Py.

Import Py.

(** ** Requests, the host framework and the monad *)

Record request : Type := mkRequest {
  rq_url : string;
  rq_headers : dict;
  rq_data : option dict;   (* the form [urlencode_postdata] encodes *)
  rq_query : dict
}.

(** What the extractor takes from its surroundings: Python's quoting of a
    str inside [repr], the helpers of [yt_dlp.utils] and [InfoExtractor],
    the options of the run ([self.get_param]) and the network. *)
Class Host : Type := {
  (* [repr(s)] of a str, as it shows inside the [str] of a list or dict *)
  repr_str : string -> string;
  (* [self._match_id(url)] *)
  match_id : string -> string;
  (* [self._match_valid_url(url).group('id', 'bno')] of the live extractor *)
  match_valid_url_live : string -> string * option string;
  (* [traverse_obj(obj, (key, {int}))] *)
  traverse_obj_int : value -> string -> option Z;
  (* [traverse_obj(obj, path)] for a path of keys *)
  traverse_obj : value -> list string -> value;
  url_or_none : value -> option string;
  determine_ext : string -> string;
  (* [self._search_regex(pattern, v, name, default=None)] when [v] is no str *)
  search_regex_nonstr : value -> option (option string);
  unified_strdate : option string -> option string;
  (* [date_from_str(d).year] *)
  date_from_str_year : string -> option Z;
  int_or_none : value -> option Z;
  (* [self._extract_m3u8_formats(url, video_id, 'mp4', ..., note=note)]: the
     formats it returns; the download of the manifest is the framework's and
     is not among the requests of the state *)
  extract_m3u8_formats : string -> string -> option string -> option (list value);
  (* [qualities(ids)(id)] *)
  qualities : list string -> string -> Z;
  update_url_query : value -> dict -> option string;
  unified_timestamp : value -> option Z;
  (* [self.get_param('ignore_no_formats')], as a truth value *)
  ignore_no_formats : bool;
  (* [self.get_param('videopassword')] *)
  videopassword : option string;
  (* the answer to a request, given the requests issued before it; [None]
     when the transfer or the parsing of the body fails *)
  network : list request -> request -> option value
}.

(** the outcome of a call into the host: [None] is an exception of its own *)
Definition host_call {A : Type} (what : string) (o : option A) : result A :=
  match o with
  | Some a => Ok a
  | None => Raise (HostError what)
  end.

Class Monad (m : Type -> Type) : Type := {
  ret : forall {A}, A -> m A;
  bind : forall {A B}, m A -> (A -> m B) -> m B
}.

Declare Scope monad_scope.
Delimit Scope monad_scope with monad.
Notation "x <- c ;; k" := (bind c (fun x => k))
  (at level 61, c at next level, right associativity) : monad_scope.
Notation "' p <- c ;; k" := (bind c (fun x => match x with p => k end))
  (at level 61, p pattern, c at next level, right associativity) : monad_scope.
Notation "c ;;; k" := (bind c (fun _ => k))
  (at level 61, right associativity) : monad_scope.
Open Scope monad_scope.

#[global] Instance result_monad : Monad result := {
  ret := fun A a => Ok a;
  bind := fun A B c k => match c with Ok a => k a | Raise e => Raise e end
}.

(** The state of a run: the requests issued through [_download_json] and
    the warnings reported through [self.report_warning]. *)
Record world : Type := mkWorld {
  issued : list request;
  warnings : list string
}.

Definition M (A : Type) : Type := world -> result A * world.

#[global] Instance M_monad : Monad M := {
  ret := fun A a w => (Ok a, w);
  bind := fun A B c k w =>
    match c w with
    | (Ok a, w1) => k a w1
    | (Raise e, w1) => (Raise e, w1)
    end
}.

Definition raise {A : Type} (e : exn) : M A := fun w => (Raise e, w).

Definition lift {A : Type} (r : result A) : M A := fun w => (r, w).

(** [self.report_warning(msg)] *)
Definition report_warning (msg : string) : M unit :=
  fun w => (Ok tt, mkWorld (issued w) (warnings w ++ [msg])).

Definition init : world := mkWorld [] [].

Section Runtime.
Context {H : Host}.

(** [repr(v)] and [str(v)] *)
Fixpoint py_repr (v : value) : string :=
  match v with
  | VNone => "None"
  | VBool true => "True"
  | VBool false => "False"
  | VInt z => dec z
  | VStr s => repr_str s
  | VList l => "[" ++ String.concat ", " (map py_repr l) ++ "]"
  | VDict d =>
      "{" ++ String.concat ", "
               (map (fun p => match p with
                              | (k, x) => repr_str k ++ ": " ++ py_repr x
                              end) d) ++ "}"
  end.

Definition py_str (v : value) : string :=
  match v with
  | VStr s => s
  | _ => py_repr v
  end.

(** [self._download_json(...)]: with [fatal=True], the default, a failure
    propagates as the framework's exception, a [HostError] here; with
    [fatal=False] it yields a falsy value, [False] (the warning the
    framework prints then is not one of the module's). *)
Definition _download_json (rq : request) (fatal : bool) : M value :=
  fun w =>
    (match network (issued w) rq with
     | Some v => Ok v
     | None => if fatal then Raise (HostError "_download_json") else Ok (VBool false)
     end,
     mkWorld (issued w ++ [rq]) (warnings w)).

End Runtime.

(** ** AfreecaTVIE: the VOD resolver *)

Module AfreecaTVIE.

Definition IE_NAME : string := "afreecatv".

Definition VIEW_URL : string := "https://api.m.afreecatv.com/station/video/a/view".

Definition partial_adult_warning : string :=
  "In accordance with local laws and regulations, underage users are restricted from watching adult content. "
  ++ "Only content suitable for all ages will be downloaded. "
  ++ "Provide account credentials if you wish to download restricted content.".

Definition adult_error : string :=
  "Only users older than 19 are able to watch this video. Provide account credentials to download this content.".

(** ['%s said: %s' % (self.IE_NAME, error)] *)
Definition said (error : string) : string := IE_NAME ++ " said: " ++ error.

Definition vod_gone : exn := ExtractorError "The VOD does not exist" true.

Definition unable_to_download : exn := ExtractorError "Unable to download video info" false.

Definition video_missing (video_id : string) : exn :=
  ExtractorError ("Video " ++ video_id ++ " does not exist") true.

(** The one request of the loop: the URL, the [Referer] header and the form
    [{'nTitleNo': video_id, 'nApiLevel': 10}]. *)
Definition view_request (url video_id : string) : request :=
  mkRequest VIEW_URL [("Referer", VStr url)]
    (Some [("nTitleNo", VStr video_id); ("nApiLevel", VInt 10)]) [].

(** The dict [query] of the loop body.  The source builds it after the
    download and passes it to nothing. *)
Definition build_query (video_id : string) (station_no bbs_no : value)
  (partial_view adult_view : bool) : dict :=
  let query := [("nTitleNo", VStr video_id); ("nStationNo", station_no);
                ("nBbsNo", bbs_no)] in
  let query := if partial_view
               then dict_set "partialView" (VStr "SKIP_ADULT") query else query in
  if adult_view then dict_set "adultView" (VStr "ADULT_VIEW") query else query.

(** [upload date]: the pattern [^(\d{8})_] on a str *)
Definition is_digit (c : ascii) : bool :=
  let n := nat_of_ascii c in Nat.leb 48 n && Nat.leb n 57.

Fixpoint take_digits (n : nat) (s : string) : option (string * string) :=
  match n with
  | O => Some (EmptyString, s)
  | S n' =>
      match s with
      | EmptyString => None
      | String c r =>
          if is_digit c
          then match take_digits n' r with
               | Some (d, rest) => Some (String c d, rest)
               | None => None
               end
          else None
      end
  end.

Definition match_upload_date (key : string) : option string :=
  match take_digits 8 key with
  | Some (d, String "_" _) => Some d
  | _ => None
  end.

(** [o == z] for the int-or-None that [traverse_obj] returns *)
Definition opt_int_eq (o : option Z) (z : Z) : bool :=
  match o with
  | Some x => (x =? z)%Z
  | None => false
  end.

Definition of_opt_str (o : option string) : value :=
  match o with
  | Some s => VStr s
  | None => VNone
  end.

Definition of_opt_int (o : option Z) : value :=
  match o with
  | Some z => VInt z
  | None => VNone
  end.

Section WithHost.
Context {H : Host}.

(** [self._search_regex(r'^(\d{8})_', key, 'upload date', default=None)] *)
Definition search_upload_date (key : value) : result (option string) :=
  match key with
  | VStr s => Ok (match_upload_date s)
  | _ => host_call "_search_regex" (search_regex_nonstr key)
  end.

(** The date of a part: [unified_strdate] of the match, dropped when the
    year of [date_from_str] is below 2000 or at least 2100. *)
Definition part_upload_date (key : value) : result (option string) :=
  m <- search_upload_date key ;;
  match unified_strdate m with
  | None => Ok None
  | Some upload_date =>
      year <- host_call "date_from_str" (date_from_str_year upload_date) ;;
      if ((year <? 2000) || (year >=? 2100))%Z then Ok None else Ok (Some upload_date)
  end.

(** The formats of a part: the manifest expander for an [m3u8] URL, one
    ['http'] format otherwise. *)
Definition part_formats (video_id : string) (file_num : nat) (file_url : string)
  : result (list value) :=
  if determine_ext file_url =? "m3u8"
  then host_call "_extract_m3u8_formats"
         (extract_m3u8_formats file_url video_id
            (Some ("Downloading part " ++ dec (Z.of_nat file_num) ++ " m3u8 information")))
  else Ok [VDict [("url", VStr file_url); ("format_id", VStr "http")]].

(** [file_info = common_entry.copy()] and [file_info.update({...})] *)
Definition make_file_info (common_entry : dict) (format_id title : value) (one : bool)
  (file_num : nat) (upload_date : option string) (file_duration : option Z)
  (formats : list value) : value :=
  VDict (dict_update common_entry
           [("id", format_id);
            ("title", if one then title
                      else VStr (py_str title ++ " (part "
                                 ++ dec (Z.of_nat file_num) ++ ")"));
            ("upload_date", of_opt_str upload_date);
            ("duration", of_opt_int file_duration);
            ("formats", VList formats)]).

(** One turn of [for file_num, file_element in enumerate(file_elements, start=1)]:
    [None] is a [continue], [Some file_info] is what [entries.append] gets. *)
Definition file_entry (video_id : string) (title : value) (common_entry : dict)
  (one : bool) (file_num : nat) (file_element : value) : result (option value) :=
  f <- getitem file_element "file" ;;
  match url_or_none f with
  | None => Ok None
  | Some EmptyString => Ok None
  | Some file_url =>
      key <- getitem file_element "file_info_key" ;;
      upload_date <- part_upload_date key ;;
      d <- getitem file_element "duration" ;;
      let file_duration := int_or_none d in
      let format_id :=
        if truthy key then key
        else VStr (video_id ++ "_" ++ dec (Z.of_nat file_num)) in
      formats <- part_formats video_id file_num file_url ;;
      if negb (truthy (VList formats)) && negb ignore_no_formats then Ok None
      else Ok (Some (make_file_info common_entry format_id title one file_num
                       upload_date file_duration formats))
  end.

Fixpoint file_entries (video_id : string) (title : value) (common_entry : dict)
  (one : bool) (file_num : nat) (file_elements : list value) : result (list value) :=
  match file_elements with
  | [] => Ok []
  | file_element :: rest =>
      e <- file_entry video_id title common_entry one file_num file_element ;;
      entries <- file_entries video_id title common_entry one (S file_num) rest ;;
      Ok (match e with
          | Some file_info => file_info :: entries
          | None => entries
          end)
  end.

(** [for _ in range(2): ... else: raise]: [n] is the number of turns left,
    the result is [data] at the [break]. *)
Fixpoint negotiate (url video_id : string) (n : nat) (partial_view adult_view : bool)
  : M value :=
  match n with
  | O => raise unable_to_download
  | S n' =>
      response <- _download_json (view_request url video_id) true ;;
      data <- lift (getitem response "data") ;;
      if opt_int_eq (traverse_obj_int data "code") (-6221) then raise vod_gone
      else
        station_no <- lift (getitem data "station_no") ;;
        bbs_no <- lift (getitem data "bbs_no") ;;
        let query := build_query video_id station_no bbs_no partial_view adult_view in
        flag <- lift (getitem data "flag") ;;
        if truthy flag && str_eq flag "SUCCEED" then ret data
        else if str_eq flag "PARTIAL_ADULT" then
          report_warning partial_adult_warning ;;;
          negotiate url video_id n' true adult_view
        else if str_eq flag "ADULT" then
          if negb adult_view then negotiate url video_id n' partial_view true
          else raise (ExtractorError (said adult_error) true)
        else raise (ExtractorError (said (py_str flag)) true)
  end.

(** The part of [_real_extract] after the loop. *)
Definition build_record (video_id : string) (data : value) : result value :=
  files <- getitem data "files" ;;
  video_element <- getitem_last files ;;
  if is_none video_element then Raise (video_missing video_id)
  else
    let video_url := strip (py_str video_element) in
    title <- getitem data "title" ;;
    uploader <- getitem data "writer_nick" ;;
    uploader_id <- getitem data "bj_id" ;;
    duration <- getitem data "total_file_duration" ;;
    thumbnail <- getitem data "thumb" ;;
    let common_entry :=
      [("uploader", uploader); ("uploader_id", uploader_id); ("thumbnail", thumbnail)] in
    let info :=
      dict_update common_entry
        [("id", VStr video_id); ("title", title); ("duration", duration)] in
    if negb (video_url =? "") then
      file_elements <- getitem data "files" ;;
      n <- py_len file_elements ;;
      let one := Nat.eqb n 1 in
      items <- py_iter file_elements ;;
      entries <- file_entries video_id title common_entry one 1 items ;;
      Ok (VDict (dict_update info
                   [("_type", VStr "multi_video"); ("entries", VList entries)]))
    else
      let info :=
        [("id", VStr video_id); ("title", title); ("uploader", uploader);
         ("uploader_id", uploader_id); ("duration", duration);
         ("thumbnail", thumbnail)] in
      if determine_ext video_url =? "m3u8" then
        formats <- host_call "_extract_m3u8_formats"
                     (extract_m3u8_formats video_url video_id None) ;;
        Ok (VDict (dict_set "formats" (VList formats) info))
      else
        ' (app, playpath) <- unpack2 (split "mp4:" video_url) ;;
        Ok (VDict (dict_update info
                     [("url", VStr app); ("ext", VStr "flv");
                      ("play_path", VStr ("mp4:" ++ playpath));
                      ("rtmp_live", VBool true)])).

Definition _real_extract (url : string) : M value :=
  let video_id := match_id url in
  data <- negotiate url video_id 2 false false ;;
  lift (build_record video_id data).

End WithHost.

End AfreecaTVIE.

(** ** AfreecaTVLiveIE: the live resolver *)

Module AfreecaTVLiveIE.

Definition _LIVE_API_URL : string :=
  "https://live.afreecatv.com/afreeca/player_live_api.php".

Definition _QUALITIES : list string := ["sd"; "hd"; "hd2k"; "original"].

Definition DEFAULT_STREAM_BASE : string := "https://livestream-manager.afreecatv.com".

Definition STATION_STATUS_URL : string :=
  "https://st.afreecatv.com/api/get_station_status.php".

Definition password_required : exn :=
  ExtractorError
    "This livestream is protected by a password, use the --video-password option" true.

(** the channel lookup: the form [{'bid': broadcaster_id}] *)
Definition channel_request (broadcaster_id : string) : request :=
  mkRequest _LIVE_API_URL [] (Some [("bid", VStr broadcaster_id)]) [].

(** the access-token request of one quality tier *)
Definition aid_request (broadcast_no : value) (password : option string)
  (quality_str : string) : request :=
  let params := [("bno", broadcast_no); ("stream_type", VStr "common");
                 ("type", VStr "aid"); ("quality", VStr quality_str)] in
  let params := match password with
                | Some p => dict_set "pwd" (VStr p) params
                | None => params
                end in
  mkRequest _LIVE_API_URL [] (Some params) [].

Definition station_request (broadcaster_id : value) : request :=
  mkRequest STATION_STATUS_URL [] None [("szBjId", broadcaster_id)].

Section WithHost.
Context {H : Host}.

Definition not_live (broadcaster_id : value) : exn :=
  ExtractorError
    ("Unable to extract broadcast number (" ++ py_str broadcaster_id
     ++ " may not be live)") true.

(** the CDN-assignment request of one quality tier *)
Definition assign_request (stream_base_url cdn broadcast_no : value)
  (quality_str : string) : request :=
  mkRequest (py_str stream_base_url ++ "/broad_stream_assign.html") [] None
    [("return_type", cdn);
     ("broad_key", VStr (py_str broadcast_no ++ "-common-" ++ quality_str ++ "-hls"))].

(** [for quality_str in self._QUALITIES], with [formats] as accumulator *)
Fixpoint quality_loop (channel_info broadcast_no : value) (password : option string)
  (tiers : list string) (formats : list value) : M (list value) :=
  match tiers with
  | [] => ret formats
  | quality_str :: rest =>
      aid_response <- _download_json
                        (aid_request broadcast_no password quality_str) false ;;
      let aid := traverse_obj aid_response ["CHANNEL"; "AID"] in
      if negb (truthy aid) then quality_loop channel_info broadcast_no password rest formats
      else
        rmd <- lift (get channel_info "RMD") ;;
        let stream_base_url := py_or rmd (VStr DEFAULT_STREAM_BASE) in
        cdn <- lift (get_default channel_info "CDN" (VStr "gcp_cdn")) ;;
        assigned <- _download_json
                      (assign_request stream_base_url cdn broadcast_no quality_str)
                      false ;;
        let stream_info := py_or assigned (VDict []) in
        view_url <- lift (get stream_info "view_url") ;;
        if truthy view_url then
          view_url' <- lift (getitem stream_info "view_url") ;;
          u <- lift (host_call "update_url_query"
                             (update_url_query view_url' [("aid", aid)])) ;;
          quality_loop channel_info broadcast_no password rest
            (formats ++ [VDict [("format_id", VStr quality_str);
                                ("url", VStr u);
                                ("ext", VStr "mp4");
                                ("protocol", VStr "m3u8");
                                ("quality", VInt (qualities _QUALITIES quality_str))]])
        else quality_loop channel_info broadcast_no password rest formats
  end.

(** [a.get(ka) or b.get(kb)]: the right operand is evaluated only when the
    left one is falsy. *)
Definition get_or_get (a : value) (ka : string) (b : value) (kb : string)
  : result value :=
  x <- get a ka ;;
  if truthy x then Ok x else get b kb.

(** From the quality loop to the returned dict. *)
Definition resolve_streams (channel_info broadcaster_id broadcast_no : value)
  (password : option string) : M value :=
  formats <- quality_loop channel_info broadcast_no password _QUALITIES [] ;;
  fetched <- _download_json (station_request broadcaster_id) false ;;
  let station_info := py_or fetched (VDict []) in
  title <- lift (get_or_get channel_info "TITLE" station_info "station_title") ;;
  uploader <- lift (get_or_get channel_info "BJNICK" station_info "station_name") ;;
  broad_start <- lift (get station_info "broad_start") ;;
  ret (VDict [("id", broadcast_no);
              ("title", title);
              ("uploader", uploader);
              ("uploader_id", broadcaster_id);
              ("timestamp", AfreecaTVIE.of_opt_int (unified_timestamp broad_start));
              ("formats", VList formats);
              ("is_live", VBool true)]).

Definition _real_extract (url : string) : M value :=
  let (url_id, url_bno) := match_valid_url_live url in
  let password := videopassword in
  fetched <- _download_json (channel_request url_id) false ;;
  let info := py_or fetched (VDict []) in
  channel <- lift (get info "CHANNEL") ;;
  let channel_info := py_or channel (VDict []) in
  bjid <- lift (get channel_info "BJID") ;;
  let broadcaster_id := py_or bjid (VStr url_id) in
  bno <- lift (get channel_info "BNO") ;;
  let broadcast_no := py_or bno (AfreecaTVIE.of_opt_str url_bno) in
  password_protected <- lift (get channel_info "BPWD") ;;
  if negb (truthy broadcast_no) then raise (not_live broadcaster_id)
  else if str_eq password_protected "Y"
          && (match password with None => true | Some _ => false end)
  then raise password_required
  else resolve_streams channel_info broadcaster_id broadcast_no password.

End WithHost.

End AfreecaTVLiveIE.

(** ** The failure classes of the specification

    The source raises [ExtractorError] everywhere; the specification
    (sections 4.1, 4.2 and 7) names the failures.  [classify] reads the
    class off the message each [raise] of the source builds. *)

Inductive failure : Type :=
| NotFound
| Restricted
| Unresolvable
| NotLive
| PasswordRequired.

Definition classify (e : exn) : option failure :=
  match e with
  | ExtractorError msg _ =>
      if msg =? "The VOD does not exist" then Some NotFound
      else if msg =? AfreecaTVIE.said AfreecaTVIE.adult_error then Some Restricted
      else if msg =? "Unable to download video info" then Some Unresolvable
      else if prefix (AfreecaTVIE.said "") msg then Some Unresolvable
      else if prefix "Unable to extract broadcast number (" msg then Some NotLive
      else if msg =? "This livestream is protected by a password, use the --video-password option"
      then Some PasswordRequired
      else None
  | _ => None
  end.

(** ** Observations on a run, used to state the properties *)

Module Obs.

Section WithHost.
Context {H : Host}.

(** What one turn of the VOD loop reads from an answer of the network, up to
    the flag: the [data] and the [flag], or the exception raised on the way
    (a failed download, a missing field, the sentinel [-6221]). *)
Definition read_answer (answer : option value) : result (value * value) :=
  response <- host_call "_download_json" answer ;;
  data <- getitem response "data" ;;
  if AfreecaTVIE.opt_int_eq (traverse_obj_int data "code") (-6221) then Raise AfreecaTVIE.vod_gone
  else
    _ <- getitem data "station_no" ;;
    _ <- getitem data "bbs_no" ;;
    flag <- getitem data "flag" ;;
    Ok (data, flag).

(** the flag of an answer that the loop reads without raising *)
Definition answer_flag (answer : option value) : option value :=
  match read_answer answer with
  | Ok (_, flag) => Some flag
  | Raise _ => None
  end.

(** the flag of an answer is the str [lit] *)
Definition flag_is (answer : option value) (lit : string) : bool :=
  match answer_flag answer with
  | Some flag => str_eq flag lit
  | None => false
  end.

(** the view-info request of a resolution *)
Definition vod_request (url : string) : request :=
  AfreecaTVIE.view_request url (match_id url).

(** the state after one more request *)
Definition sent (w : world) (rq : request) : world :=
  mkWorld (issued w ++ [rq]) (warnings w).

Definition warned (w : world) (msg : string) : world :=
  mkWorld (issued w) (warnings w ++ [msg]).

(** the URL of a file element when [url_or_none] accepts it *)
Definition file_url_of (file_element : value) : option string :=
  match getitem file_element "file" with
  | Ok f =>
      match url_or_none f with
      | Some EmptyString => None
      | other => other
      end
  | Raise _ => None
  end.

(** a file element with a valid URL whose formats come out empty *)
Definition zero_formats (video_id : string) (file_num : nat) (file_element : value)
  : bool :=
  match file_url_of file_element with
  | Some file_url =>
      match AfreecaTVIE.part_formats video_id file_num file_url with
      | Ok [] => true
      | _ => false
      end
  | None => false
  end.

(** does the loop over the files append an entry for this element *)
Definition kept (video_id : string) (file_num : nat) (file_element : value) : bool :=
  match file_url_of file_element with
  | Some _ => negb (zero_formats video_id file_num file_element) || ignore_no_formats
  | None => false
  end.

(** the elements the loop keeps, with their 1-based positions *)
Fixpoint kept_files (video_id : string) (file_num : nat) (file_elements : list value)
  : list (nat * value) :=
  match file_elements with
  | [] => []
  | file_element :: rest =>
      if kept video_id file_num file_element
      then (file_num, file_element) :: kept_files video_id (S file_num) rest
      else kept_files video_id (S file_num) rest
  end.

Fixpoint count_from (p : nat -> value -> bool) (file_num : nat)
  (file_elements : list value) : nat :=
  match file_elements with
  | [] => 0
  | file_element :: rest =>
      (if p file_num file_element then 1 else 0) + count_from p (S file_num) rest
  end.

(** the synthetic identifier of the part at a position *)
Definition part_id (video_id : string) (file_num : nat) (key : value) : value :=
  if truthy key then key else VStr (video_id ++ "_" ++ dec (Z.of_nat file_num)).

(** an element without a valid URL *)
Definition no_url (file_num : nat) (file_element : value) : bool :=
  match file_url_of file_element with
  | Some _ => false
  | None => true
  end.

(** [entry] is the entry of the element [snd p] at position [fst p]: its
    identifier is the key of the element, or the video id, an underscore and
    the position when the key is empty *)
Definition entry_of (video_id : string) (p : nat * value) (entry : value) : Prop :=
  exists key,
    getitem (snd p) "file_info_key" = Ok key /\
    getitem entry "id" = Ok (part_id video_id (fst p) key).

(** the channel answer of the live resolver, after [or {}] *)
Definition channel_info_of (answer : option value) : result value :=
  let fetched := match answer with Some v => v | None => VBool false end in
  channel <- get (py_or fetched (VDict [])) "CHANNEL" ;;
  Ok (py_or channel (VDict [])).

(** a field of the channel info, read with [.get] *)
Definition channel_field (answer : option value) (k : string) : result value :=
  channel_info <- channel_info_of answer ;;
  get channel_info k.


End WithHost.

(** the value [d.get(k)] of a dict *)
Definition find (d : dict) (k : string) : value :=
  match lookup k d with
  | Some v => v
  | None => VNone
  end.

Fixpoint ends_with (suffix s : string) : bool :=
  (s =? suffix)
  || match s with
     | EmptyString => false
     | String _ r => ends_with suffix r
     end.

(** a request of the quality loop: the access-token request carries
    [type=aid] in its form, the CDN-assignment request goes to
    [broad_stream_assign.html] *)
Definition is_tier_request (rq : request) : bool :=
  match rq_data rq with
  | Some form => str_eq (find form "type") "aid"
  | None => false
  end
  || ends_with "/broad_stream_assign.html" (rq_url rq).

(** an exception that is not an [ExtractorError] of the extractor *)
Definition foreign (e : exn) : Prop :=
  match e with
  | ExtractorError _ _ => False
  | _ => True
  end.

(** a str made of decimal digits *)
Fixpoint all_digits (s : string) : bool :=
  match s with
  | EmptyString => true
  | String c r => AfreecaTVIE.is_digit c && all_digits r
  end.


End Obs.

Import Obs.

(** ** A concrete host, to run the resolvers on examples *)

Module Sample.

(** The i-th request of a run gets the i-th answer of the script. *)
Definition scripted (script : list (option value)) (history : list request)
  (rq : request) : option value :=
  nth (List.length history) script None.

(** Modelled from the spec: [repr] of a str is Python's own; single quotes
    around the text, which is what it prints for a str without quotes or
    escapes. *)
Definition repr_str (s : string) : string := "'" ++ s ++ "'".

(** number written by a string of decimal digits *)
Fixpoint num_go (acc : Z) (s : string) : Z :=
  match s with
  | EmptyString => acc
  | String c r => num_go (10 * acc + Z.of_nat (nat_of_ascii c - 48))%Z r
  end.

Definition num (s : string) : Z := num_go 0 s.

Fixpoint trailing_digits (s : string) : string :=
  match s with
  | EmptyString => EmptyString
  | String c r =>
      if all_digits s then s else trailing_digits r
  end.

(** Modelled from the spec: [InfoExtractor._match_id] is missing; the
    identifier is the run of digits that ends the URL. *)
Definition match_id (url : string) : string := trailing_digits url.

(** Modelled from the spec: [InfoExtractor._match_valid_url] is missing; the
    handle is the first path segment of the URL and the broadcast number the
    second one, when it is there and made of digits. *)
Definition match_valid_url_live (url : string) : string * option string :=
  match split "/" url with
  | _ :: _ :: _ :: id :: bno :: _ =>
      (id, if all_digits bno && negb (bno =? "") then Some bno else None)
  | _ :: _ :: _ :: id :: _ => (id, None)
  | _ => (EmptyString, None)
  end.

(** Modelled from the spec: [traverse_obj(obj, (key, {int}))] is missing;
    the int under [key] of a dict, nothing otherwise. *)
Definition traverse_obj_int (o : value) (key : string) : option Z :=
  match o with
  | VDict d =>
      match lookup key d with
      | Some (VInt z) => Some z
      | _ => None
      end
  | _ => None
  end.

(** Modelled from the spec: [traverse_obj(obj, path)] is missing; the value
    at a path of dict keys, [None] when the path leaves the dicts. *)
Fixpoint traverse_obj (o : value) (path : list string) : value :=
  match path with
  | [] => o
  | k :: rest =>
      match o with
      | VDict d =>
          match lookup k d with
          | Some v => traverse_obj v rest
          | None => VNone
          end
      | _ => VNone
      end
  end.

Definition URL_SCHEMES : list string :=
  ["http:"; "https:"; "rtmp:"; "rtmpt:"; "rtmpe:"; "rtmps:"; "rtmpte:"; "rtmpts:";
   "rtmfp:"; "rtsp:"; "rtsps:"; "rtspu:"; "mms:"; "ftp:"; "ftps:"; ""].

(** Modelled from the spec: [url_or_none] is missing; a valid URL is a str
    that, stripped, starts with [//] after an optional known scheme. *)
Definition url_or_none (v : value) : option string :=
  match v with
  | VStr s =>
      let u := strip s in
      if existsb (fun scheme => prefix (scheme ++ "//") u) URL_SCHEMES
      then Some u else None
  | _ => None
  end.

Fixpoint before_query (s : string) : string :=
  match s with
  | EmptyString => EmptyString
  | String c r => if Ascii.eqb c "?" then EmptyString else String c (before_query r)
  end.

(** the text after the last dot, [None] without a dot *)
Fixpoint after_last_dot (s : string) : option string :=
  match s with
  | EmptyString => None
  | String c r =>
      match after_last_dot r with
      | Some t => Some t
      | None => if Ascii.eqb c "." then Some r else None
      end
  end.

Definition is_alnum (c : ascii) : bool :=
  let n := nat_of_ascii c in
  (Nat.leb 48 n && Nat.leb n 57) || (Nat.leb 65 n && Nat.leb n 90)
  || (Nat.leb 97 n && Nat.leb n 122).

Fixpoint all_alnum (s : string) : bool :=
  match s with
  | EmptyString => true
  | String c r => is_alnum c && all_alnum r
  end.

(** Modelled from the spec: [determine_ext] is missing; the alphanumeric
    text after the last dot of the URL without its query, and
    ['unknown_video'] when there is none. *)
Definition determine_ext (url : string) : string :=
  match after_last_dot (before_query url) with
  | Some ext => if all_alnum ext && negb (ext =? "") then ext else "unknown_video"
  | None => "unknown_video"
  end.

(** Modelled from the spec: [_search_regex] is missing; on [None] it finds
    nothing, on another value that is not a str the [re] module raises. *)
Definition search_regex_nonstr (v : value) : option (option string) :=
  match v with
  | VNone => Some None
  | _ => None
  end.

(** Modelled from the spec: [unified_strdate] is missing; eight digits that
    read as year, month 1..12 and day 1..31 are a date, kept as they are. *)
Definition unified_strdate (o : option string) : option string :=
  match o with
  | None => None
  | Some d =>
      let month := num (substring 4 2 d) in
      let day := num (substring 6 2 d) in
      if all_digits d && Nat.eqb (String.length d) 8
         && (1 <=? month)%Z && (month <=? 12)%Z && (1 <=? day)%Z && (day <=? 31)%Z
      then Some d else None
  end.

(** Modelled from the spec: [date_from_str(d).year] is missing; the first
    four digits of a [YYYYMMDD] date. *)
Definition date_from_str_year (d : string) : option Z :=
  if all_digits d && Nat.eqb (String.length d) 8
  then Some (num (substring 0 4 d)) else None.

(** Modelled from the spec: [int_or_none] is missing; an int, or a str of
    digits, and nothing otherwise. *)
Definition int_or_none (v : value) : option Z :=
  match v with
  | VInt z => Some z
  | VStr s => if all_digits s && negb (s =? "") then Some (num s) else None
  | _ => None
  end.

Fixpoint index_of (q : string) (l : list string) (i : Z) : Z :=
  match l with
  | [] => (-1)%Z
  | x :: r => if x =? q then i else index_of q r (i + 1)%Z
  end.

(** Modelled from the spec: [qualities] is missing; the rank of a tier is
    its position in the list, [-1] outside it. *)
Definition qualities (ids : list string) (q : string) : Z := index_of q ids 0%Z.

Fixpoint has_char (c : ascii) (s : string) : bool :=
  match s with
  | EmptyString => false
  | String c' r => Ascii.eqb c c' || has_char c r
  end.

Fixpoint encode_query (q : dict) : string :=
  match q with
  | [] => EmptyString
  | (k, VStr v) :: [] => k ++ "=" ++ v
  | (k, _) :: [] => k ++ "="
  | (k, VStr v) :: r => k ++ "=" ++ v ++ "&" ++ encode_query r
  | (k, _) :: r => k ++ "=&" ++ encode_query r
  end.

(** Modelled from the spec: [update_url_query] is missing; the parameters
    are appended to the URL's query. *)
Definition update_url_query (url : value) (q : dict) : option string :=
  match url with
  | VStr u => Some (u ++ (if has_char "?" u then "&" else "?") ++ encode_query q)
  | _ => None
  end.

(** Modelled from the spec: [unified_timestamp] is missing; an int is taken
    as the timestamp, anything else gives none. *)
Definition unified_timestamp (v : value) : option Z :=
  match v with
  | VInt z => Some z
  | _ => None
  end.

(** The host of a run: the answers of the network in order, the option
    [ignore_no_formats], the option [videopassword] and the manifest
    expander. *)
Definition host (script : list (option value)) (permissive : bool)
  (password : option string) (expand : string -> option (list value)) : Host :=
  Build_Host repr_str match_id match_valid_url_live traverse_obj_int traverse_obj
    url_or_none determine_ext search_regex_nonstr unified_strdate date_from_str_year
    int_or_none (fun url _ _ => expand url) qualities update_url_query
    unified_timestamp permissive password (scripted script).

(** a manifest expander that finds one variant *)
Definition one_variant (url : string) : option (list value) :=
  Some [VDict [("url", VStr url); ("format_id", VStr "hls-0")]].

(** one that finds none behind a URL of [empty.example], one elsewhere *)
Definition some_empty (url : string) : option (list value) :=
  if prefix "http://empty.example/" url then Some [] else one_variant url.

(** a view-info answer: [{'data': {...}}] with the fields the resolver reads *)
Definition view_fields (flag : string) (files : list value) : value :=
  VDict [("code", VInt 0);
         ("station_no", VInt 16711924);
         ("bbs_no", VInt 18605867);
         ("flag", VStr flag);
         ("files", VList files);
         ("title", VStr "clip");
         ("writer_nick", VStr "april");
         ("bj_id", VStr "dailyapril");
         ("total_file_duration", VInt 213);
         ("thumb", VStr "http://videoimg.afreecatv.com/t.jpg")].

Definition view_data (flag : string) (files : list value) : value :=
  VDict [("data", view_fields flag files)].

Definition file_element (file key : value) (duration : Z) : value :=
  VDict [("file", file); ("file_info_key", key); ("duration", VInt duration)].

Definition VOD_URL : string := "https://vod.afreecatv.com/player/96753363".

Definition LIVE_URL : string := "https://play.afreecatv.com/pyh3646/237852185".

Definition LIVE_URL_NO_BNO : string := "https://play.afreecatv.com/pyh3646".

(** runs of the live resolver: the channel lookup fails; after it, the
    token of the tier [sd] and its assignment arrive, nothing else does *)
Definition lookup_fails : Host :=
  host [None;
        Some (VDict [("CHANNEL", VDict [("AID", VStr "token")])]);
        Some (VDict [("view_url", VStr "http://cdn.example/live.m3u8")])]
    false None one_variant.

(** the channel answers without a broadcast number *)
Definition offline : Host :=
  host [Some (VDict [("CHANNEL", VDict [("RESULT", VInt 0); ("BNO", VNone)])])]
    false None one_variant.

(** runs of the VOD resolver: the answers of the network, in order *)
Definition adult_twice : Host :=
  host [Some (view_data "ADULT" []); Some (view_data "ADULT" [])]
    false None one_variant.

Definition partial_twice : Host :=
  host [Some (view_data "PARTIAL_ADULT" []); Some (view_data "PARTIAL_ADULT" [])]
    false None one_variant.

(** one file behind a plain HTTP URL *)
Definition http_file : value :=
  file_element (VStr "http://v.afreecatv.com/a.mp4")
    (VStr "20170411_BE689A0E_190960999_1_2_h") 213.

Definition single_http : Host :=
  host [Some (view_data "SUCCEED" [http_file])] false None one_variant.

(** one file whose [file] field is null *)
Definition null_file : value := file_element VNone (VStr "") 0.

Definition no_url_file : Host :=
  host [Some (view_data "SUCCEED" [null_file])] false None one_variant.

(** one file behind a push-stream URL *)
Definition push_file : value :=
  file_element (VStr "rtmp://media.afreecatv.com/vod/mp4:clip") (VStr "") 213.

Definition push_stream : Host :=
  host [Some (view_data "SUCCEED" [push_file])] false None one_variant.

(** a manifest that expands to nothing, and a key whose digits read as a
    date of 1999 *)
Definition empty_manifest_file : value :=
  file_element (VStr "http://empty.example/a.m3u8") (VStr "20230108_AA_1") 10.

Definition old_file : value :=
  file_element (VStr "http://v.afreecatv.com/b.m3u8") (VStr "19991231_BB_2") 20.

Definition mixed_files : list value :=
  [null_file; empty_manifest_file; old_file; http_file].

Definition mixed (permissive : bool) : Host :=
  host [Some (view_data "SUCCEED" mixed_files)] permissive None some_empty.

Definition mixed_strict : Host := mixed false.

Definition mixed_permissive : Host := mixed true.

(** a file element without the [file] field *)
Definition fileless : value :=
  VDict [("file_info_key", VStr "20230108_9FF5BEE1_244432674_1"); ("duration", VInt 1)].

Definition missing_file : Host :=
  host [Some (view_data "SUCCEED" [fileless])] true None one_variant.

Definition partial_then_succeed : Host :=
  host [Some (view_data "PARTIAL_ADULT" []);
        Some (view_data "SUCCEED"
                [file_element (VStr "http://v.afreecatv.com/a.mp4")
                   (VStr "20230108_9FF5BEE1_244432674_1") 213])]
    false None one_variant.

End Sample.

(** ** The other functions of the module *)

(** *** AfreecaTVIE.parse_video_key

    The pattern [^(?P<upload_date>\d{8})_\w+_(?P<part>\d+)$], with the
    classes [\d] and [\w] as they are on ASCII text (Python's take
    letters and digits of other scripts too: a key with such characters is
    outside what is stated here).  [\w] takes digits and
    underscores too and [\d] takes no underscore, so the underscore before
    the part is the last one of the key; [$] holds at the end of the key and
    before a newline that ends it. *)

Module VideoKey.

Definition is_word (c : ascii) : bool :=
  let n := nat_of_ascii c in
  (Nat.leb 48 n && Nat.leb n 57) || (Nat.leb 65 n && Nat.leb n 90)
  || (Nat.leb 97 n && Nat.leb n 122) || Nat.eqb n 95.

Fixpoint all_word (s : string) : bool :=
  match s with
  | EmptyString => true
  | String c r => is_word c && all_word r
  end.

Definition newline : ascii := ascii_of_nat 10.

Definition nl_text : string := String newline EmptyString.

(** the key without the newline that ends it, when there is one *)
Fixpoint chomp (s : string) : string :=
  match s with
  | EmptyString => EmptyString
  | String c EmptyString => if Ascii.eqb c newline then EmptyString else s
  | String c r => String c (chomp r)
  end.

(** the text before the last underscore and the text after it *)
Fixpoint rsplit_underscore (s : string) : option (string * string) :=
  match s with
  | EmptyString => None
  | String c r =>
      match rsplit_underscore r with
      | Some (before, after) => Some (String c before, after)
      | None => if Ascii.eqb c "_" then Some (EmptyString, r) else None
      end
  end.

(** the groups [upload_date] and [part] of [re.match(pattern, key)] *)
Definition re_match (key : string) : option (string * string) :=
  match AfreecaTVIE.take_digits 8 key with
  | Some (upload_date, String "_" t) =>
      match rsplit_underscore (chomp t) with
      | Some (tag, part) =>
          if negb (tag =? "") && all_word tag && negb (part =? "") && all_digits part
          then Some (upload_date, part)
          else None
      | None => None
      end
  | _ => None
  end.

(** the number that a str of decimal digits writes *)
Fixpoint int_digits (acc : Z) (s : string) : Z :=
  match s with
  | EmptyString => acc
  | String c r => int_digits (10 * acc + Z.of_nat (nat_of_ascii c - 48))%Z r
  end.

(** the default of [sys.int_max_str_digits] *)
Definition INT_MAX_STR_DIGITS : nat := 4300.

(** [int(s)] for a str of decimal digits: CPython refuses a str of more
    digits than the limit with a [ValueError] *)
Definition py_int (s : string) : result Z :=
  if Nat.ltb INT_MAX_STR_DIGITS (String.length s) then Raise ValueError
  else Ok (int_digits 0 s).

Definition parse_video_key (key : value) : result dict :=
  match key with
  | VStr s =>
      let video_key := [] in
      match re_match s with
      | Some (upload_date, part) =>
          let video_key := dict_set "upload_date" (VStr upload_date) video_key in
          part_no <- py_int part ;;
          Ok (dict_set "part" (VInt part_no) video_key)
      | None => Ok video_key
      end
  | _ => Raise TypeError
  end.

End VideoKey.

(** *** AfreecaTVIE._perform_login *)

Module Login.

Definition LOGIN_URL : string := "https://login.afreecatv.com/app/LoginAction.php".

Definition login_form (username password : string) : dict :=
  [("szWork", VStr "login");
   ("szType", VStr "json");
   ("szUid", VStr username);
   ("szPassword", VStr password);
   ("isSaveId", VStr "false");
   ("szScriptVar", VStr "oLoginRet");
   ("szAction", VStr "")].

Definition login_request (username password : string) : request :=
  mkRequest LOGIN_URL [] (Some (login_form username password)) [].

Definition nl : string := String (ascii_of_nat 10) EmptyString.

Definition _ERRORS : list (Z * string) :=
  [(-4, "Your account has been suspended due to a violation of our terms and policies.");
   (-5, "https://member.afreecatv.com/app/user_delete_progress.php");
   (-6, "https://login.afreecatv.com/membership/changeMember.php");
   (-8, "Hello! AfreecaTV here." ++ nl
        ++ "The username you have entered belongs to " ++ nl
        ++ " an account that requires a legal guardian's consent. " ++ nl
        ++ "If you wish to use our services without restriction, " ++ nl
        ++ "please make sure to go through the necessary verification process.");
   (-9, "https://member.afreecatv.com/app/pop_login_block.php");
   (-11, "https://login.afreecatv.com/afreeca/second_login.php");
   (-12, "https://member.afreecatv.com/app/user_security.php");
   (0, "The username does not exist or you have entered the wrong password.");
   (-1, "The username does not exist or you have entered the wrong password.");
   (-3, "You have entered your username/password incorrectly.");
   (-7, "You cannot use your Global AfreecaTV account to access Korean AfreecaTV.");
   (-10, "Sorry for the inconvenience. " ++ nl
         ++ "Your account has been blocked due to an unauthorized access. " ++ nl
         ++ "Please contact our Help Center for assistance.");
   (-32008, "You have failed to log in. Please contact our Help Center.")]%Z.

Definition DEFAULT_ERROR : string := "You have failed to log in.".

Fixpoint table_get (code : Z) (table : list (Z * string)) : option string :=
  match table with
  | [] => None
  | (k, msg) :: rest => if (k =? code)%Z then Some msg else table_get code rest
  end.

(** [_ERRORS.get(result, 'You have failed to log in.')]; [None] is no key
    of the table *)
Definition error_of (result : option Z) : string :=
  match result with
  | Some code =>
      match table_get code _ERRORS with
      | Some msg => msg
      | None => DEFAULT_ERROR
      end
  | None => DEFAULT_ERROR
  end.

(** ['Unable to login: %s said: %s' % (self.IE_NAME, error)], expected *)
Definition login_error (ie_name error : string) : exn :=
  ExtractorError ("Unable to login: " ++ ie_name ++ " said: " ++ error) true.

Section WithHost.
Context {H : Host}.

(** [ie_name] is [self.IE_NAME]: the method is inherited by the live
    extractor, whose name is another. *)
Definition _perform_login (ie_name username password : string) : M unit :=
  response <- _download_json (login_request username password) true ;;
  r <- lift (get response "RESULT") ;;
  let result := int_or_none r in
  if negb (AfreecaTVIE.opt_int_eq result 1)
  then raise (login_error ie_name (error_of result))
  else ret tt.

End WithHost.

End Login.

(** *** AfreecaTVUserIE *)

(** What the user extractor takes from the framework besides the host:
    [self.url_result(url, AfreecaTVIE, video_id)] and the groups [id] and
    [slug_type] of [self._match_valid_url(url)]. *)
Class Catalog : Type := {
  url_result : string -> value -> value;
  match_valid_url_user : string -> string * option string
}.

Module AfreecaTVUserIE.

Definition _PER_PAGE : Z := 60.

Definition page_request (user_id user_type : string) (page : Z) : request :=
  mkRequest ("https://bjapi.afreecatv.com/api/" ++ user_id ++ "/vods/" ++ user_type)
    [] None
    [("page", VInt page); ("per_page", VInt _PER_PAGE); ("orderby", VStr "reg_date")].

(** A generator run to its end: what it has yielded, in order, and the
    exception that ended it, if one did. *)
Definition generated : Type := (list value * option exn)%type.

(** What [OnDemandPagedList] and [playlist_result] are given: the page
    function and the page size, the id and the title of the playlist. *)
Record playlist : Type := mkPlaylist {
  pagefunc : Z -> world -> generated * world;
  pagesize : Z;
  playlist_id : string;
  playlist_title : string
}.

(** [user_type or 'all'] for the str or [None] of the group *)
Definition or_all (slug_type : option string) : string :=
  match slug_type with
  | Some EmptyString => "all"
  | Some user_type => user_type
  | None => "all"
  end.

Section WithHost.
Context {H : Host} {C : Catalog}.

Definition player_url (title_no : value) : string :=
  "https://vod.afreecatv.com/player/" ++ py_str title_no ++ "/".

(** [for item in info['data']: yield self.url_result(...)] *)
Fixpoint yield_items (items : list value) : generated :=
  match items with
  | [] => ([], None)
  | item :: rest =>
      match getitem item "title_no" with
      | Raise e => ([], Some e)
      | Ok title_no =>
          let (yielded, e) := yield_items rest in
          (url_result (player_url title_no) title_no :: yielded, e)
      end
  end.

Definition _fetch_page (user_id user_type : string) (page : Z)
  : world -> generated * world :=
  fun w =>
    let page := (page + 1)%Z in
    match _download_json (page_request user_id user_type page) true w with
    | (Raise e, w1) => (([], Some e), w1)
    | (Ok info, w1) =>
        match (data <- getitem info "data" ;; py_iter data) with
        | Raise e => (([], Some e), w1)
        | Ok items => (yield_items items, w1)
        end
    end.

Definition _real_extract (url : string) : playlist :=
  let (user_id, slug_type) := match_valid_url_user url in
  let user_type := or_all slug_type in
  mkPlaylist (_fetch_page user_id user_type) _PER_PAGE user_id
    (user_id ++ " - " ++ user_type).

End WithHost.

End AfreecaTVUserIE.

(** *** More observations on a run *)

(** a str of ASCII characters: there the classes [\d] and [\w] of
    Python's [re] are the ones of [is_digit] and [VideoKey.is_word] *)
Definition is_ascii (c : ascii) : bool := Nat.ltb (nat_of_ascii c) 128.

Fixpoint all_ascii (s : string) : bool :=
  match s with
  | EmptyString => true
  | String c r => is_ascii c && all_ascii r
  end.

(** the flag asks the VOD loop for another turn *)
Definition asks_retry (flag : value) : bool :=
  str_eq flag "PARTIAL_ADULT" || str_eq flag "ADULT".

Section MoreObs.
Context {H : Host}.

(** [entry] is what the loop over the files builds for the element [snd p]
    at position [fst p] *)
Definition built_from (video_id : string) (title : value) (common_entry : dict)
  (one : bool) (p : nat * value) (entry : value) : Prop :=
  exists file_url key upload_date d formats,
    file_url_of (snd p) = Some file_url /\
    getitem (snd p) "file_info_key" = Ok key /\
    AfreecaTVIE.part_upload_date key = Ok upload_date /\
    getitem (snd p) "duration" = Ok d /\
    AfreecaTVIE.part_formats video_id (fst p) file_url = Ok formats /\
    (formats <> [] \/ ignore_no_formats = true) /\
    entry = AfreecaTVIE.make_file_info common_entry (part_id video_id (fst p) key)
              title one (fst p) upload_date (int_or_none d) formats.

(** the title of the part at a position, in a list of [n] files *)
Definition part_title (title : value) (n file_num : nat) : value :=
  if Nat.eqb n 1 then title
  else VStr (py_str title ++ " (part " ++ dec (Z.of_nat file_num) ++ ")").

End MoreObs.

(** what [_download_json(..., fatal=False)] returns for an answer *)
Definition nonfatal (answer : option value) : value :=
  match answer with
  | Some v => v
  | None => VBool false
  end.

(** an access-token request: its form carries [type=aid] *)
Definition is_aid_request (rq : request) : bool :=
  match rq_data rq with
  | Some form => str_eq (find form "type") "aid"
  | None => false
  end.

(** [s] is [l] with some elements left out *)
Inductive subseq {A : Type} : list A -> list A -> Prop :=
| subseq_nil : forall l, subseq [] l
| subseq_skip : forall x s l, subseq s l -> subseq s (x :: l)
| subseq_take : forall x s l, subseq s l -> subseq (x :: s) (x :: l).

Section LiveObs.
Context {H : Host}.

(** the format the quality loop appends for a tier and its view URL *)
Definition tier_format (p : string * string) : value :=
  VDict [("format_id", VStr (fst p));
         ("url", VStr (snd p));
         ("ext", VStr "mp4");
         ("protocol", VStr "m3u8");
         ("quality", VInt (qualities AfreecaTVLiveIE._QUALITIES (fst p)))].

(** what a run of the quality loop over [tiers] from the state [w], with
    [formats] collected before it, has done when it ends with the result
    [r] in the state [w'] *)
Definition loop_outcome (broadcast_no : value) (password : option string)
  (tiers : list string) (formats : list value) (w : world)
  (r : result (list value)) (w' : world) : Prop :=
  exists added,
    w' = mkWorld (issued w ++ added) (warnings w) /\
    Forall (fun rq => is_tier_request rq = true) added /\
    List.length added <= 2 * List.length tiers /\
    forall out, r = Ok out ->
      filter is_aid_request added
        = map (AfreecaTVLiveIE.aid_request broadcast_no password) tiers /\
      List.length tiers <= List.length added /\
      exists picked,
        out = (formats ++ map tier_format picked)%list /\
        subseq (map fst picked) tiers.

End LiveObs.

Section CatalogObs.
Context {H : Host} {C : Catalog}.

(** [yielded] is the forwarding result for [item]: the player URL of its
    [title_no], handed to the VOD extractor with the [title_no] as id *)
Definition forwards_to (item yielded : value) : Prop :=
  exists title_no,
    getitem item "title_no" = Ok title_no /\
    yielded = url_result ("https://vod.afreecatv.com/player/" ++ py_str title_no ++ "/")
                title_no.

End CatalogObs.

(** *** More concrete runs *)

Module Cases.

(** the answer of a deleted recording *)
Definition gone : Host :=
  Sample.host [Some (VDict [("data", VDict [("code", VInt (-6221))])])]
    false None Sample.one_variant.

(** an answer with a flag the resolver does not know *)
Definition odd_flag : Host :=
  Sample.host [Some (Sample.view_data "BLIND" [])] false None Sample.one_variant.

(** answers of the login endpoint *)
Definition login_ok : Host :=
  Sample.host [Some (VDict [("RESULT", VInt 1)])] false None Sample.one_variant.

Definition login_wrong : Host :=
  Sample.host [Some (VDict [("RESULT", VInt (-1))])] false None Sample.one_variant.

Definition login_blank : Host :=
  Sample.host [Some (VDict [])] false None Sample.one_variant.

(** a broadcast behind a password, and nothing from the network after the
    channel lookup *)
Definition protected_channel : dict :=
  [("BNO", VStr "237852185"); ("BJID", VStr "pyh3646"); ("BPWD", VStr "Y");
   ("TITLE", VStr "on air")].

Definition protected : Host :=
  Sample.host [Some (VDict [("CHANNEL", VDict protected_channel)])]
    false None Sample.one_variant.

Definition protected_with_password : Host :=
  Sample.host [Some (VDict [("CHANNEL", VDict protected_channel)])]
    false (Some "secret") Sample.one_variant.

(** pages of a user's listing *)
Definition item (title_no : Z) : value := VDict [("title_no", VInt title_no)].

Definition page_of_two : Host :=
  Sample.host [Some (VDict [("data", VList [item 101; item 102])])]
    false None Sample.one_variant.

Definition untitled : value := VDict [("station_no", VInt 7)].

Definition page_with_bad_item : Host :=
  Sample.host [Some (VDict [("data", VList [item 101; untitled; item 102])])]
    false None Sample.one_variant.

Definition page_without_data : Host :=
  Sample.host [Some (VDict [("total", VInt 0)])] false None Sample.one_variant.

(** Modelled from the spec: [unified_strdate] is missing; it parses the
    eight digits and prints the date back with [strftime('%Y%m%d')], which
    writes the year without the zeros before it, so that the year 1 comes
    out as '1'; there is no year 0. *)
Definition unified_strdate_printed (o : option string) : option string :=
  match Sample.unified_strdate o with
  | Some d =>
      let year := Sample.num (substring 0 4 d) in
      if (year =? 0)%Z then None else Some (dec year ++ substring 4 4 d)
  | None => None
  end.

(** one file whose key starts with the digits of the first of January of
    the year 1 *)
Definition year_one_file : value :=
  Sample.file_element (VStr "http://v.afreecatv.com/a.mp4")
    (VStr "00010101_AB_1") 213.

Definition year_one : Host :=
  Build_Host Sample.repr_str Sample.match_id Sample.match_valid_url_live
    Sample.traverse_obj_int Sample.traverse_obj Sample.url_or_none
    Sample.determine_ext Sample.search_regex_nonstr unified_strdate_printed
    Sample.date_from_str_year Sample.int_or_none
    (fun url _ _ => Sample.one_variant url) Sample.qualities
    Sample.update_url_query Sample.unified_timestamp false None
    (Sample.scripted [Some (Sample.view_data "SUCCEED" [year_one_file])]).

(** Modelled from the spec: [InfoExtractor.url_result] is missing; the
    forwarding reference of a URL to the VOD extractor, with the id. *)
Definition url_result (url : string) (video_id : value) : value :=
  VDict [("ie_key", VStr "AfreecaTV"); ("id", video_id);
         ("_type", VStr "url"); ("url", VStr url)].

(** Modelled from the spec: [InfoExtractor._match_valid_url] is missing; the
    user is the first path segment of the URL and the category the third
    one, when it is there. *)
Definition match_valid_url_user (url : string) : string * option string :=
  match split "/" url with
  | _ :: _ :: _ :: id :: _ :: EmptyString :: _ => (id, None)
  | _ :: _ :: _ :: id :: _ :: slug :: _ => (id, Some slug)
  | _ :: _ :: _ :: id :: _ => (id, None)
  | _ => (EmptyString, None)
  end.

Definition catalog : Catalog := Build_Catalog url_result match_valid_url_user.

Definition USER_URL : string := "https://bj.afreecatv.com/ryuryu24/vods".

End Cases.

(** ** Dicts and strings *)

Section PyFacts.

Lemma lookup_dict_set_eq (k : string) (v : value) (d : dict) :
  lookup k (dict_set k v d) = Some v.
Proof.
  induction d as [|[k' v'] d IH]; simpl.
  - now rewrite String.eqb_refl.
  - destruct (k' =? k) eqn:E; simpl.
    + now rewrite String.eqb_refl.
    + now rewrite E.
Qed.

Lemma lookup_dict_set_neq (k k' : string) (v : value) (d : dict) :
  k <> k' -> lookup k (dict_set k' v d) = lookup k d.
Proof.
  intros Hne. induction d as [|[k0 v0] d IH]; simpl.
  - destruct (k' =? k) eqn:E; [|reflexivity].
    apply String.eqb_eq in E. congruence.
  - destruct (k0 =? k') eqn:E; simpl.
    + apply String.eqb_eq in E. subst k0.
      destruct (k' =? k) eqn:E'; [|reflexivity].
      apply String.eqb_eq in E'. congruence.
    + destruct (k0 =? k); [reflexivity | exact IH].
Qed.

Lemma lstrip_blank_or_head (s : string) :
  lstrip s = EmptyString \/
  exists c r, lstrip s = String c r /\ is_space c = false.
Proof.
  induction s as [|c r IH]; simpl.
  - now left.
  - destruct (is_space c) eqn:E; [exact IH|].
    right. now exists c, r.
Qed.



End PyFacts.

(** ** The negotiation loop of the VOD resolver *)

Section VodLoop.
Context {H : Host}.

(** One turn of the loop, by what it reads from the answer. *)
Lemma negotiate_turn (url video_id : string) (n : nat) (partial_view adult_view : bool)
  (w : world) :
  AfreecaTVIE.negotiate url video_id (S n) partial_view adult_view w =
  let rq := AfreecaTVIE.view_request url video_id in
  match read_answer (network (issued w) rq) with
  | Raise e => (Raise e, sent w rq)
  | Ok (data, flag) =>
      if truthy flag && str_eq flag "SUCCEED" then (Ok data, sent w rq)
      else if str_eq flag "PARTIAL_ADULT" then
        AfreecaTVIE.negotiate url video_id n true adult_view
          (warned (sent w rq) AfreecaTVIE.partial_adult_warning)
      else if str_eq flag "ADULT" then
        if negb adult_view then AfreecaTVIE.negotiate url video_id n partial_view true (sent w rq)
        else (Raise (ExtractorError (AfreecaTVIE.said AfreecaTVIE.adult_error) true), sent w rq)
      else (Raise (ExtractorError (AfreecaTVIE.said (py_str flag)) true), sent w rq)
  end.
Proof.
  cbn -[AfreecaTVIE.view_request truthy str_eq getitem AfreecaTVIE.said AfreecaTVIE.partial_adult_warning
        AfreecaTVIE.adult_error py_str AfreecaTVIE.opt_int_eq].
  unfold _download_json, read_answer, sent, warned, lift, raise, report_warning.
  destruct (network (issued w) (AfreecaTVIE.view_request url video_id)) as [response|];
    cbn -[AfreecaTVIE.view_request truthy str_eq getitem AfreecaTVIE.said AfreecaTVIE.partial_adult_warning
          AfreecaTVIE.adult_error py_str AfreecaTVIE.opt_int_eq]; [|reflexivity].
  destruct (getitem response "data") as [data|e]; [|reflexivity].
  destruct (AfreecaTVIE.opt_int_eq (traverse_obj_int data "code") (-6221)); [reflexivity|].
  destruct (getitem data "station_no"); [|reflexivity].
  destruct (getitem data "bbs_no"); [|reflexivity].
  destruct (getitem data "flag") as [flag|]; [|reflexivity].
  destruct (truthy flag && str_eq flag "SUCCEED"); [reflexivity|].
  destruct (str_eq flag "PARTIAL_ADULT"); [reflexivity|].
  destruct (str_eq flag "ADULT"); [|reflexivity].
  destruct adult_view; reflexivity.
Qed.


Lemma answer_flag_read (answer : option value) (flag : value) :
  answer_flag answer = Some flag -> exists data, read_answer answer = Ok (data, flag).
Proof.
  unfold answer_flag. destruct (read_answer answer) as [[data f]|e]; [|discriminate].
  intros E. injection E as ->. now exists data.
Qed.

Lemma flag_is_read (answer : option value) (lit : string) :
  flag_is answer lit = true ->
  exists data, read_answer answer = Ok (data, VStr lit).
Proof.
  unfold flag_is. destruct (answer_flag answer) as [flag|] eqn:E; [|discriminate].
  intros F. destruct flag; try discriminate F.
  apply String.eqb_eq in F. subst. now apply answer_flag_read.
Qed.

(** The record is built without touching the network: the state of a
    resolution is the state the loop leaves. *)
Lemma real_extract_world (url : string) (w : world) :
  snd (AfreecaTVIE._real_extract url w) = snd (AfreecaTVIE.negotiate url (match_id url) 2 false false w).
Proof.
  unfold AfreecaTVIE._real_extract. cbn [bind M_monad].
  destruct (AfreecaTVIE.negotiate url (match_id url) 2 false false w) as [[data|e] w1];
    reflexivity.
Qed.

Lemma real_extract_raise (url : string) (w w1 : world) (e : exn) :
  AfreecaTVIE.negotiate url (match_id url) 2 false false w = (Raise e, w1) ->
  AfreecaTVIE._real_extract url w = (Raise e, w1).
Proof.
  intros E. unfold AfreecaTVIE._real_extract. cbn [bind M_monad]. now rewrite E.
Qed.

(** C1 (amended).  When the flag of the answer is "ADULT" on both turns (and
    the sentinel -6221 is in neither answer), the resolver issues exactly two
    view-info requests and fails with the Restricted failure: the expected
    error that asks for account credentials. *)
Theorem adult_twice_fails_restricted (url : string) :
  flag_is (network [] (vod_request url)) "ADULT" = true ->
  flag_is (network [vod_request url] (vod_request url)) "ADULT" = true ->
  AfreecaTVIE._real_extract url init =
    (Raise (ExtractorError (AfreecaTVIE.said AfreecaTVIE.adult_error) true),
     mkWorld [vod_request url; vod_request url] [])
  /\ classify (ExtractorError (AfreecaTVIE.said AfreecaTVIE.adult_error) true) = Some Restricted.
Proof.
  intros F1 F2.
  apply flag_is_read in F1 as [d1 R1]. apply flag_is_read in F2 as [d2 R2].
  split; [|reflexivity].
  apply real_extract_raise.
  rewrite negotiate_turn. cbv zeta. fold (vod_request url).
  change (issued init) with (@nil request). rewrite R1.
  cbn [truthy str_eq String.eqb Ascii.eqb Bool.eqb andb negb].
  rewrite negotiate_turn. cbv zeta. fold (vod_request url).
  change (issued (sent init (vod_request url))) with [vod_request url].
  rewrite R2. reflexivity.
Qed.

Lemma str_eq_true (v : value) (lit : string) :
  str_eq v lit = true -> v = VStr lit.
Proof.
  destruct v; try discriminate. simpl. intros E.
  apply String.eqb_eq in E. now subst.
Qed.

(** The loop sends the same request at every turn: the dict [query], where
    the modifiers [partialView] and [adultView] are set, reaches no request. *)
Lemma negotiate_requests (url video_id : string) (n : nat)
  (partial_view adult_view : bool) (w : world) :
  exists k, k <= n /\
    issued (snd (AfreecaTVIE.negotiate url video_id n partial_view adult_view w)) =
    (issued w ++ repeat (AfreecaTVIE.view_request url video_id) k)%list.
Proof.
  revert partial_view adult_view w.
  induction n as [|n IH]; intros partial_view adult_view w.
  - exists 0. split; [lia|]. simpl. now rewrite app_nil_r.
  - assert (Hone : issued (sent w (AfreecaTVIE.view_request url video_id)) =
                   (issued w ++ repeat (AfreecaTVIE.view_request url video_id) 1)%list)
      by reflexivity.
    assert (Hmore : forall pv av w1,
               issued w1 = (issued w ++ [AfreecaTVIE.view_request url video_id])%list ->
               exists k, k <= S n /\
                 issued (snd (AfreecaTVIE.negotiate url video_id n pv av w1)) =
                 (issued w ++ repeat (AfreecaTVIE.view_request url video_id) k)%list).
    { intros pv av w1 E. destruct (IH pv av w1) as [k [Hk Ek]].
      exists (S k). split; [lia|]. rewrite Ek, E, <- app_assoc. reflexivity. }
    rewrite negotiate_turn. cbv zeta.
    destruct (read_answer _) as [[data flag]|e].
    + destruct (truthy flag && str_eq flag "SUCCEED").
      { exists 1. split; [lia | exact Hone]. }
      destruct (str_eq flag "PARTIAL_ADULT"); [now apply Hmore|].
      destruct (str_eq flag "ADULT").
      * destruct (negb adult_view); [now apply Hmore|].
        exists 1. split; [lia | exact Hone].
      * exists 1. split; [lia | exact Hone].
    + exists 1. split; [lia | exact Hone].
Qed.

(** C3 (amended).  When the flag of the first answer is "PARTIAL_ADULT", the
    resolver reports the warning for it and asks for the view info once
    more, two requests in all; it reports the warning a second time exactly
    when the flag of the second answer is "PARTIAL_ADULT" again, and the
    resolution then fails with "Unable to download video info". *)
Theorem partial_adult_warns_and_retries_once (url : string) :
  flag_is (network [] (vod_request url)) "PARTIAL_ADULT" = true ->
  List.length (issued (snd (AfreecaTVIE._real_extract url init))) = 2 /\
  warnings (snd (AfreecaTVIE._real_extract url init)) =
    (if flag_is (network [vod_request url] (vod_request url)) "PARTIAL_ADULT"
     then [AfreecaTVIE.partial_adult_warning; AfreecaTVIE.partial_adult_warning]
     else [AfreecaTVIE.partial_adult_warning]) /\
  (flag_is (network [vod_request url] (vod_request url)) "PARTIAL_ADULT" = true ->
   fst (AfreecaTVIE._real_extract url init) = Raise AfreecaTVIE.unable_to_download).
Proof.
  intros F1. apply flag_is_read in F1 as [d1 R1].
  assert (E : AfreecaTVIE.negotiate url (match_id url) 2 false false init =
              AfreecaTVIE.negotiate url (match_id url) 1 true false
                (warned (sent init (vod_request url)) AfreecaTVIE.partial_adult_warning)).
  { rewrite negotiate_turn. cbv zeta. fold (vod_request url).
    change (issued init) with (@nil request). now rewrite R1. }
  rewrite (negotiate_turn url (match_id url) 0) in E. cbv zeta in E. fold (vod_request url) in E.
  change (issued (warned (sent init (vod_request url)) AfreecaTVIE.partial_adult_warning))
    with [vod_request url] in E.
  unfold flag_is, answer_flag.
  destruct (read_answer (network [vod_request url] (vod_request url)))
    as [[data flag]|e].
  - destruct (truthy flag && str_eq flag "SUCCEED") eqn:S1.
    { apply andb_prop in S1 as [_ S1]. apply str_eq_true in S1. subst flag.
      rewrite !real_extract_world, E. repeat split; try reflexivity.
      discriminate. }
    destruct (str_eq flag "PARTIAL_ADULT") eqn:S2.
    { rewrite !real_extract_world, (real_extract_raise _ _ _ _ E), E.
      repeat split; reflexivity. }
    destruct (str_eq flag "ADULT") eqn:S3;
      rewrite !real_extract_world, E; repeat split; try reflexivity; discriminate.
  - rewrite !real_extract_world, E. repeat split; try reflexivity; discriminate.
Qed.

End VodLoop.

(** ** The record of the VOD resolver *)

Section VodRecord.
Context {H : Host}.



(** An element without a valid URL is skipped: no entry and no error,
    whatever [ignore_no_formats] says. *)
Lemma file_entry_no_url (video_id : string) (title : value) (common_entry : dict)
  (one : bool) (file_num : nat) (file_element f : value) :
  getitem file_element "file" = Ok f ->
  file_url_of file_element = None ->
  AfreecaTVIE.file_entry video_id title common_entry one file_num file_element = Ok None.
Proof.
  unfold file_url_of, AfreecaTVIE.file_entry. intros -> E. cbn [bind result_monad].
  destruct (url_or_none f) as [[|c r]|]; try reflexivity. discriminate E.
Qed.

(** An element with a valid URL, when its fields can be read. *)
Lemma file_entry_url (video_id : string) (title : value) (common_entry : dict)
  (one : bool) (file_num : nat) (file_element key d : value) (file_url : string)
  (upload_date : option string) (formats : list value) :
  file_url_of file_element = Some file_url ->
  getitem file_element "file_info_key" = Ok key ->
  AfreecaTVIE.part_upload_date key = Ok upload_date ->
  getitem file_element "duration" = Ok d ->
  AfreecaTVIE.part_formats video_id file_num file_url = Ok formats ->
  AfreecaTVIE.file_entry video_id title common_entry one file_num file_element =
  Ok (if negb (truthy (VList formats)) && negb ignore_no_formats then None
      else Some (AfreecaTVIE.make_file_info common_entry (part_id video_id file_num key)
                   title one file_num upload_date (int_or_none d) formats)).
Proof.
  unfold file_url_of, AfreecaTVIE.file_entry. intros U K D L F.
  destruct (getitem file_element "file") as [f|]; [|discriminate U].
  cbn [bind result_monad].
  destruct (url_or_none f) as [[|c r]|]; try discriminate U.
  injection U as <-. rewrite K. cbn [bind result_monad].
  rewrite D. cbn [bind result_monad]. rewrite L. cbn [bind result_monad].
  rewrite F. cbn [bind result_monad].
  destruct (negb (truthy (VList formats)) && negb ignore_no_formats); reflexivity.
Qed.

(** What a turn that does not raise has read. *)
Lemma file_entry_ok (video_id : string) (title : value) (common_entry : dict)
  (one : bool) (file_num : nat) (file_element : value) (o : option value) :
  AfreecaTVIE.file_entry video_id title common_entry one file_num file_element = Ok o ->
  (exists f, getitem file_element "file" = Ok f /\
             file_url_of file_element = None /\ o = None)
  \/
  (exists file_url key upload_date d formats,
     file_url_of file_element = Some file_url /\
     getitem file_element "file_info_key" = Ok key /\
     AfreecaTVIE.part_upload_date key = Ok upload_date /\
     getitem file_element "duration" = Ok d /\
     AfreecaTVIE.part_formats video_id file_num file_url = Ok formats /\
     o = if negb (truthy (VList formats)) && negb ignore_no_formats then None
         else Some (AfreecaTVIE.make_file_info common_entry (part_id video_id file_num key)
                      title one file_num upload_date (int_or_none d) formats)).
Proof.
  intros E.
  destruct (getitem file_element "file") as [f|e] eqn:G.
  2:{ unfold AfreecaTVIE.file_entry in E. rewrite G in E. discriminate E. }
  destruct (file_url_of file_element) as [file_url|] eqn:U.
  2:{ left. exists f. rewrite (file_entry_no_url _ _ _ _ _ _ _ G U) in E.
      injection E as <-. auto. }
  right.
  assert (E' := E). unfold AfreecaTVIE.file_entry in E'. rewrite G in E'.
  unfold file_url_of in U. rewrite G in U.
  cbn [bind result_monad] in E'.
  destruct (url_or_none f) as [[|c r]|]; try discriminate U.
  injection U as <-.
  destruct (getitem file_element "file_info_key") as [key|] eqn:K;
    [|discriminate E']. cbn [bind result_monad] in E'.
  destruct (AfreecaTVIE.part_upload_date key) as [upload_date|] eqn:D;
    [|discriminate E']. cbn [bind result_monad] in E'.
  destruct (getitem file_element "duration") as [d|] eqn:L;
    [|discriminate E']. cbn [bind result_monad] in E'.
  destruct (AfreecaTVIE.part_formats video_id file_num (String c r)) as [formats|] eqn:F;
    [|discriminate E']. cbn [bind result_monad] in E'.
  exists (String c r), key, upload_date, d, formats.
  repeat split; try reflexivity; try assumption.
  unfold part_id.
  destruct (negb (truthy (VList formats)) && negb ignore_no_formats);
    now injection E' as <-.
Qed.


Ltac dict_lookup :=
  unfold AfreecaTVIE.make_file_info, getitem, dict_update; cbn [fold_left fst snd];
  repeat (rewrite lookup_dict_set_neq by discriminate);
  rewrite ?lookup_dict_set_eq.

Lemma make_file_info_id (common_entry : dict) (format_id title : value) (one : bool)
  (file_num : nat) (upload_date : option string) (file_duration : option Z)
  (formats : list value) :
  getitem (AfreecaTVIE.make_file_info common_entry format_id title one file_num upload_date
             file_duration formats) "id" = Ok format_id.
Proof. now dict_lookup. Qed.

Lemma make_file_info_upload_date (common_entry : dict) (format_id title : value)
  (one : bool) (file_num : nat) (upload_date : option string)
  (file_duration : option Z) (formats : list value) :
  getitem (AfreecaTVIE.make_file_info common_entry format_id title one file_num upload_date
             file_duration formats) "upload_date" = Ok (AfreecaTVIE.of_opt_str upload_date).
Proof. now dict_lookup. Qed.

Lemma make_file_info_formats (common_entry : dict) (format_id title : value)
  (one : bool) (file_num : nat) (upload_date : option string)
  (file_duration : option Z) (formats : list value) :
  getitem (AfreecaTVIE.make_file_info common_entry format_id title one file_num upload_date
             file_duration formats) "formats" = Ok (VList formats).
Proof. now dict_lookup. Qed.

(** A turn that does not raise appends an entry exactly for a kept element. *)
Lemma file_entry_kept (video_id : string) (title : value) (common_entry : dict)
  (one : bool) (file_num : nat) (file_element : value) (o : option value) :
  AfreecaTVIE.file_entry video_id title common_entry one file_num file_element = Ok o ->
  (o = None /\ kept video_id file_num file_element = false)
  \/
  (exists entry, o = Some entry /\ kept video_id file_num file_element = true /\
                 entry_of video_id (file_num, file_element) entry).
Proof.
  intros E. apply file_entry_ok in E as [[f [G [U ->]]]|E].
  - left. split; [reflexivity|]. unfold kept. now rewrite U.
  - destruct E as [file_url [key [upload_date [d [formats [U [K [D [L [F ->]]]]]]]]]].
    unfold kept, zero_formats. rewrite U, F.
    destruct formats as [|x formats]; cbn [truthy negb andb orb].
    + destruct ignore_no_formats; cbn [negb].
      * right. eexists. repeat split. exists key. split; [exact K|].
        apply make_file_info_id.
      * now left.
    + right. eexists. repeat split. exists key. split; [exact K|].
      apply make_file_info_id.
Qed.

Lemma file_entries_cons (video_id : string) (title : value) (common_entry : dict)
  (one : bool) (file_num : nat) (file_element : value) (rest entries : list value) :
  AfreecaTVIE.file_entries video_id title common_entry one file_num (file_element :: rest)
    = Ok entries ->
  exists o tail,
    AfreecaTVIE.file_entry video_id title common_entry one file_num file_element = Ok o /\
    AfreecaTVIE.file_entries video_id title common_entry one (S file_num) rest = Ok tail /\
    entries = match o with Some entry => entry :: tail | None => tail end.
Proof.
  cbn [AfreecaTVIE.file_entries bind result_monad]. intros E.
  destruct (AfreecaTVIE.file_entry video_id title common_entry one file_num file_element)
    as [o|]; [|discriminate E].
  destruct (AfreecaTVIE.file_entries video_id title common_entry one (S file_num) rest)
    as [tail|]; [|discriminate E].
  injection E as <-. now exists o, tail.
Qed.

(** The entries of the loop are the entries of the kept elements, in order. *)
Lemma file_entries_kept (video_id : string) (title : value) (common_entry : dict)
  (one : bool) (file_elements : list value) :
  forall (file_num : nat) (entries : list value),
  AfreecaTVIE.file_entries video_id title common_entry one file_num file_elements
    = Ok entries ->
  Forall2 (entry_of video_id) (kept_files video_id file_num file_elements) entries.
Proof.
  induction file_elements as [|file_element rest IH]; intros file_num entries E.
  - injection E as <-. constructor.
  - apply file_entries_cons in E as [o [tail [E1 [E2 ->]]]].
    apply IH in E2. cbn [kept_files].
    apply file_entry_kept in E1 as [[-> K]|[entry [-> [K R]]]]; rewrite K.
    + exact E2.
    + now constructor.
Qed.

(** Every element is kept, or has no valid URL, or (without the permissive
    option) has a valid URL and no format. *)
Lemma kept_count (video_id : string) (file_elements : list value) :
  forall file_num : nat,
  List.length (kept_files video_id file_num file_elements)
  + count_from no_url file_num file_elements
  + (if ignore_no_formats then 0
     else count_from (zero_formats video_id) file_num file_elements)
  = List.length file_elements.
Proof.
  induction file_elements as [|file_element rest IH]; intros file_num.
  - now destruct ignore_no_formats.
  - specialize (IH (S file_num)). cbn [kept_files count_from List.length].
    assert (N : no_url file_num file_element =
                match file_url_of file_element with
                | Some _ => false
                | None => true
                end) by reflexivity.
    assert (K : kept video_id file_num file_element =
                match file_url_of file_element with
                | Some _ => negb (zero_formats video_id file_num file_element)
                            || ignore_no_formats
                | None => false
                end) by reflexivity.
    rewrite N, K. clear N K.
    destruct (zero_formats video_id file_num file_element) eqn:Z.
    + unfold zero_formats in Z.
      destruct (file_url_of file_element); [|discriminate Z].
      destruct ignore_no_formats; cbn [negb orb List.length]; lia.
    + destruct (file_url_of file_element);
        destruct ignore_no_formats; cbn [negb orb List.length]; lia.
Qed.

(** The single-item path after [if video_url:] runs on an empty
    [video_url] only, and cannot return: [''.split('mp4:')] has one part. *)
Lemma build_record_ok (video_id : string) (data record : value) :
  determine_ext "" <> "m3u8" ->
  AfreecaTVIE.build_record video_id data = Ok record ->
  exists files title uploader uploader_id duration thumbnail n items entries,
    getitem data "files" = Ok files /\
    getitem data "title" = Ok title /\
    getitem data "writer_nick" = Ok uploader /\
    getitem data "bj_id" = Ok uploader_id /\
    getitem data "total_file_duration" = Ok duration /\
    getitem data "thumb" = Ok thumbnail /\
    py_len files = Ok n /\
    py_iter files = Ok items /\
    AfreecaTVIE.file_entries video_id title
      [("uploader", uploader); ("uploader_id", uploader_id); ("thumbnail", thumbnail)]
      (Nat.eqb n 1) 1 items = Ok entries /\
    record =
      VDict [("uploader", uploader); ("uploader_id", uploader_id);
             ("thumbnail", thumbnail); ("id", VStr video_id); ("title", title);
             ("duration", duration); ("_type", VStr "multi_video");
             ("entries", VList entries)].
Proof.
  intros Hext E. unfold AfreecaTVIE.build_record in E.
  destruct (getitem data "files") as [files|] eqn:G; [|discriminate E].
  cbn [bind result_monad] in E.
  destruct (getitem_last files) as [video_element|]; [|discriminate E].
  cbn [bind result_monad] in E.
  destruct (is_none video_element); [discriminate E|].
  destruct (getitem data "title") as [title|]; [|discriminate E].
  cbn [bind result_monad] in E.
  destruct (getitem data "writer_nick") as [uploader|]; [|discriminate E].
  cbn [bind result_monad] in E.
  destruct (getitem data "bj_id") as [uploader_id|]; [|discriminate E].
  cbn [bind result_monad] in E.
  destruct (getitem data "total_file_duration") as [duration|]; [|discriminate E].
  cbn [bind result_monad] in E.
  destruct (getitem data "thumb") as [thumbnail|]; [|discriminate E].
  cbn [bind result_monad] in E.
  destruct (strip (py_str video_element) =? "") eqn:B; cbn [negb] in E.
  - exfalso. apply String.eqb_eq in B. rewrite B in E.
    destruct (determine_ext "" =? "m3u8") eqn:X.
    + apply String.eqb_eq in X. contradiction.
    + discriminate E.
  - destruct (py_len files) as [n|] eqn:L; [|discriminate E].
    cbn [bind result_monad] in E.
    destruct (py_iter files) as [items|] eqn:I; [|discriminate E].
    cbn [bind result_monad] in E.
    destruct (AfreecaTVIE.file_entries video_id title _ (Nat.eqb n 1) 1 items)
      as [entries|] eqn:F; [|discriminate E].
    cbn [bind result_monad] in E. injection E as <-.
    exists files, title, uploader, uploader_id, duration, thumbnail, n, items, entries.
    repeat split; try reflexivity; assumption.
Qed.



Lemma take_digits_app (d rest : string) :
  all_digits d = true ->
  AfreecaTVIE.take_digits (String.length d) (d ++ rest) = Some (d, rest).
Proof.
  induction d as [|c d IH]; intros A.
  - reflexivity.
  - cbn [all_digits] in A. apply andb_prop in A as [A1 A2].
    cbn [String.length append AfreecaTVIE.take_digits]. now rewrite A1, (IH A2).
Qed.

(** A key that starts with eight digits and an underscore matches the
    pattern, and the digits are the match. *)
Lemma match_upload_date_prefix (d rest : string) :
  String.length d = 8 -> all_digits d = true ->
  AfreecaTVIE.match_upload_date (d ++ "_" ++ rest) = Some d.
Proof.
  intros L A. unfold AfreecaTVIE.match_upload_date.
  rewrite <- L, (take_digits_app d ("_" ++ rest) A). reflexivity.
Qed.





(** C6 (amended).  In the record built from a file list, the entries are
    the elements of the list less those without a valid URL and, unless the
    permissive option is set, less those with a valid URL and no format; the
    entries follow the order of the list, and the identifier of each is the
    key of its element when the key is not empty, and otherwise the video
    id, an underscore and the 1-based position of the element in the list. *)
Theorem multi_part_entries (video_id : string) (data record : value)
  (files : list value) :
  determine_ext "" <> "m3u8" ->
  AfreecaTVIE.build_record video_id data = Ok record ->
  getitem data "files" = Ok (VList files) ->
  exists entries,
    getitem record "entries" = Ok (VList entries) /\
    List.length entries + count_from no_url 1 files
    + (if ignore_no_formats then 0 else count_from (zero_formats video_id) 1 files)
    = List.length files /\
    Forall2 (entry_of video_id) (kept_files video_id 1 files) entries.
Proof.
  intros Hext B G.
  apply (build_record_ok _ _ _ Hext) in B
    as (files' & title & uploader & uploader_id & duration & thumbnail & n & items
        & entries & G' & _ & _ & _ & _ & _ & L & I & F & ->).
  rewrite G in G'. injection G' as <-. injection I as <-.
  exists entries. apply file_entries_kept in F.
  split; [reflexivity|]. split; [|exact F].
  rewrite <- (Forall2_length F). apply kept_count.
Qed.

(** C10 (amended).  In the loop over the files, an element whose [file]
    field is there but is not a valid URL is skipped: the loop goes on as if
    the element were not in the list, with no entry and no error, whatever
    the permissive option says; the option decides only for an element with
    a valid URL and no format, which is kept when it is set and skipped when
    it is not. *)
Theorem invalid_url_is_skipped (video_id : string) (title : value)
  (common_entry : dict) (one : bool) (file_num : nat) (file_element f : value) :
  getitem file_element "file" = Ok f ->
  (file_url_of file_element = None ->
   forall rest,
     AfreecaTVIE.file_entries video_id title common_entry one file_num (file_element :: rest)
     = AfreecaTVIE.file_entries video_id title common_entry one (S file_num) rest)
  /\
  (forall file_url key d upload_date,
     file_url_of file_element = Some file_url ->
     getitem file_element "file_info_key" = Ok key ->
     AfreecaTVIE.part_upload_date key = Ok upload_date ->
     getitem file_element "duration" = Ok d ->
     AfreecaTVIE.part_formats video_id file_num file_url = Ok [] ->
     AfreecaTVIE.file_entry video_id title common_entry one file_num file_element =
     Ok (if ignore_no_formats
         then Some (AfreecaTVIE.make_file_info common_entry (part_id video_id file_num key)
                      title one file_num upload_date (int_or_none d) [])
         else None)).
Proof.
  intros G. split.
  - intros U rest. cbn [AfreecaTVIE.file_entries bind result_monad].
    rewrite (file_entry_no_url _ _ _ _ _ _ _ G U).
    now destruct (AfreecaTVIE.file_entries video_id title common_entry one (S file_num) rest).
  - intros file_url key d upload_date U K D L F.
    rewrite (file_entry_url _ _ _ _ _ _ _ _ _ _ _ U K D L F).
    cbn [truthy negb andb]. now destruct ignore_no_formats.
Qed.

End VodRecord.

(** ** The live resolver *)

Section LiveFacts.
Context {H : Host}.

Lemma get_dict (d : dict) (k : string) : get (VDict d) k = Ok (find d k).
Proof. unfold get, get_default, find. now destruct (lookup k d). Qed.

Lemma get_foreign (o : value) (k : string) (default : value) (e : exn) :
  get_default o k default = Raise e -> foreign e.
Proof.
  destruct o; cbn [get_default]; try (intros E; injection E as <-; exact I).
  destruct (lookup k kv); discriminate.
Qed.

Lemma getitem_foreign (o : value) (k : string) (e : exn) :
  getitem o k = Raise e -> foreign e.
Proof.
  destruct o; cbn [getitem]; try (intros E; injection E as <-; exact I).
  destruct (lookup k kv); [discriminate|]. intros E. injection E as <-. exact I.
Qed.

Lemma host_call_foreign {A : Type} (what : string) (o : option A) (e : exn) :
  host_call what o = Raise e -> foreign e.
Proof.
  destruct o; cbn [host_call]; [discriminate|]. intros E. injection E as <-. exact I.
Qed.

(** The lookup, the gate and the hand-over to the quality loop, by what the
    channel answer holds. *)
Lemma live_real_extract_cases (url : string) (w : world) :
  AfreecaTVLiveIE._real_extract url w =
  let url_id := fst (match_valid_url_live url) in
  let url_bno := snd (match_valid_url_live url) in
  let w1 := sent w (AfreecaTVLiveIE.channel_request url_id) in
  match channel_info_of (network (issued w) (AfreecaTVLiveIE.channel_request url_id)) with
  | Raise e => (Raise e, w1)
  | Ok (VDict d) =>
      let broadcaster_id := py_or (find d "BJID") (VStr url_id) in
      let broadcast_no := py_or (find d "BNO") (AfreecaTVIE.of_opt_str url_bno) in
      if negb (truthy broadcast_no) then (Raise (AfreecaTVLiveIE.not_live broadcaster_id), w1)
      else if str_eq (find d "BPWD") "Y"
              && match videopassword with None => true | Some _ => false end
      then (Raise AfreecaTVLiveIE.password_required, w1)
      else AfreecaTVLiveIE.resolve_streams (VDict d) broadcaster_id broadcast_no videopassword w1
  | Ok _ => (Raise AttributeError, w1)
  end.
Proof.
  unfold AfreecaTVLiveIE._real_extract, channel_info_of.
  destruct (match_valid_url_live url) as [url_id url_bno]. cbv zeta. cbn [fst snd].
  unfold _download_json. cbn [bind M_monad].
  set (fetched := match network (issued w) (AfreecaTVLiveIE.channel_request url_id) with
                  | Some v => v
                  | None => VBool false
                  end).
  assert (F : match network (issued w) (AfreecaTVLiveIE.channel_request url_id) with
              | Some v => Ok v
              | None => Ok (VBool false)
              end = Ok fetched)
    by (subst fetched; now destruct (network _ _)).
  rewrite F. clear F. unfold lift, sent.
  destruct (get (py_or fetched (VDict [])) "CHANNEL") as [channel|e];
    cbn [bind result_monad]; [|reflexivity].
  destruct (py_or channel (VDict [])) as [| | | | |d]; try reflexivity.
  rewrite !get_dict.
  destruct (negb (truthy (py_or (find d "BNO") (AfreecaTVIE.of_opt_str url_bno))));
    [reflexivity|].
  destruct (str_eq (find d "BPWD") "Y"
            && match videopassword with None => true | Some _ => false end);
    reflexivity.
Qed.


Lemma not_live_class (broadcaster_id : value) :
  classify (AfreecaTVLiveIE.not_live broadcaster_id) = Some NotLive.
Proof.
  unfold classify, AfreecaTVLiveIE.not_live. cbn.
  now destruct (py_str broadcaster_id ++ " may not be live)").
Qed.

(** The quality loop raises no [ExtractorError]: what it can raise comes
    from a [.get] on a value that is not a dict, or from the host. *)
Lemma quality_loop_foreign (channel_info broadcast_no : value)
  (password : option string) (tiers : list string) :
  forall (formats : list value) (w w' : world) (e : exn),
  AfreecaTVLiveIE.quality_loop channel_info broadcast_no password tiers formats w = (Raise e, w') ->
  foreign e.
Proof.
  induction tiers as [|quality_str rest IH]; intros formats w w' e E.
  - discriminate E.
  - cbn [AfreecaTVLiveIE.quality_loop bind M_monad] in E.
    unfold _download_json, lift in E.
    destruct (network (issued w) (AfreecaTVLiveIE.aid_request broadcast_no password quality_str))
      as [aid_response|].
    all: match type of E with
         | context [negb (truthy ?aid)] => destruct (negb (truthy aid))
         end; [now apply IH in E|].
    all: destruct (get channel_info "RMD") as [rmd|e1] eqn:G1;
           [|injection E as <- _; now apply get_foreign in G1].
    all: destruct (get_default channel_info "CDN" (VStr "gcp_cdn")) as [cdn|e2] eqn:G2;
           [|injection E as <- _; now apply get_foreign in G2].
    all: match type of E with
         | context [network ?h ?rq] => destruct (network h rq) as [assigned|]
         end.
    all: match type of E with
         | context [get ?o "view_url"] =>
             destruct (get o "view_url") as [view_url|e3] eqn:G3;
               [|injection E as <- _; now apply get_foreign in G3];
             destruct (truthy view_url); [|now apply IH in E];
             destruct (getitem o "view_url") as [view_url'|e4] eqn:G4;
               [|injection E as <- _; now apply getitem_foreign in G4]
         end.
    all: match type of E with
         | context [host_call ?what ?o] =>
             destruct (host_call what o) as [u|e5] eqn:G5;
               [now apply IH in E|injection E as <- _; now apply host_call_foreign in G5]
         end.
Qed.

Lemma get_or_get_foreign (a b : value) (ka kb : string) (e : exn) :
  AfreecaTVLiveIE.get_or_get a ka b kb = Raise e -> foreign e.
Proof.
  unfold AfreecaTVLiveIE.get_or_get. cbn [bind result_monad].
  destruct (get a ka) as [x|e1] eqn:G1.
  - destruct (truthy x); [discriminate|]. apply get_foreign.
  - intros E. injection E as <-. now apply get_foreign in G1.
Qed.

Lemma resolve_streams_foreign (channel_info broadcaster_id broadcast_no : value)
  (password : option string) (w w' : world) (e : exn) :
  AfreecaTVLiveIE.resolve_streams channel_info broadcaster_id broadcast_no password w
    = (Raise e, w') ->
  foreign e.
Proof.
  unfold AfreecaTVLiveIE.resolve_streams. cbn [bind M_monad]. intros E.
  destruct (AfreecaTVLiveIE.quality_loop channel_info broadcast_no password AfreecaTVLiveIE._QUALITIES [] w)
    as [[formats|e0] w0] eqn:Q.
  2:{ injection E as <- _. now apply quality_loop_foreign in Q. }
  unfold _download_json, lift in E.
  destruct (network (issued w0) (AfreecaTVLiveIE.station_request broadcaster_id)) as [fetched|].
  all: match type of E with
       | context [AfreecaTVLiveIE.get_or_get ?a "TITLE" ?b ?kb] =>
           destruct (AfreecaTVLiveIE.get_or_get a "TITLE" b kb) as [title|e1] eqn:G1;
             [|injection E as <- _; now apply get_or_get_foreign in G1];
           destruct (AfreecaTVLiveIE.get_or_get a "BJNICK" b "station_name") as [uploader|e2] eqn:G2;
             [|injection E as <- _; now apply get_or_get_foreign in G2];
           destruct (get b "broad_start") as [broad_start|e3] eqn:G3;
             [discriminate E|injection E as <- _; now apply get_foreign in G3]
       end.
Qed.

Lemma channel_info_foreign (answer : option value) (e : exn) :
  channel_info_of answer = Raise e -> foreign e.
Proof.
  unfold channel_info_of. cbn [bind result_monad].
  destruct (get _ "CHANNEL") as [channel|e1] eqn:G; [discriminate|].
  intros E. injection E as <-. now apply get_foreign in G.
Qed.


(** C8.  When neither the channel answer nor the URL gives a broadcast
    number, the live resolver fails with the NotLive error, and the channel
    lookup is the only request it has issued: no access-token request and no
    CDN-assignment request of any quality tier. *)
Theorem no_broadcast_number_is_not_live (url : string) (bno : value) :
  snd (match_valid_url_live url) = None ->
  channel_field (network [] (AfreecaTVLiveIE.channel_request (fst (match_valid_url_live url))))
    "BNO" = Ok bno ->
  truthy bno = false ->
  exists broadcaster_id,
    AfreecaTVLiveIE._real_extract url init =
      (Raise (AfreecaTVLiveIE.not_live broadcaster_id),
       mkWorld [AfreecaTVLiveIE.channel_request (fst (match_valid_url_live url))] []) /\
    classify (AfreecaTVLiveIE.not_live broadcaster_id) = Some NotLive /\
    filter is_tier_request (issued (snd (AfreecaTVLiveIE._real_extract url init))) = [].
Proof.
  intros U B T. rewrite live_real_extract_cases. cbv zeta.
  change (issued init) with (@nil request).
  unfold channel_field in B. cbn [bind result_monad] in B.
  destruct (channel_info_of _) as [channel_info|e]; [|discriminate B].
  destruct channel_info as [| | | | |d]; try discriminate B.
  rewrite get_dict in B. injection B as B. rewrite B, U.
  unfold py_or. rewrite T. cbn [AfreecaTVIE.of_opt_str truthy negb].
  eexists. split; [reflexivity|]. split; [apply not_live_class|reflexivity].
Qed.

End LiveFacts.

Section TierRequests.
Context {H : Host}.

Lemma ends_with_app (suffix s : string) : ends_with suffix (s ++ suffix) = true.
Proof.
  induction s as [|c s IH].
  - destruct suffix; cbn [append ends_with]; now rewrite String.eqb_refl.
  - cbn [append ends_with]. rewrite IH. apply orb_true_r.
Qed.

(** The two requests of a quality tier are what [is_tier_request] holds. *)
Lemma aid_request_is_tier (broadcast_no : value) (password : option string)
  (quality_str : string) :
  is_tier_request (AfreecaTVLiveIE.aid_request broadcast_no password quality_str) = true.
Proof. now destruct password. Qed.

Lemma assign_request_is_tier (stream_base_url cdn broadcast_no : value)
  (quality_str : string) :
  is_tier_request (AfreecaTVLiveIE.assign_request stream_base_url cdn broadcast_no quality_str)
  = true.
Proof.
  unfold is_tier_request, AfreecaTVLiveIE.assign_request. cbn [rq_data rq_url orb].
  apply ends_with_app.
Qed.

End TierRequests.

Section PushStreamPath.
Context {H : Host}.

(** No record the resolver builds is a push-stream one: the single-item
    path is entered with an empty [video_url] only, where it expands a
    manifest or raises, so [play_path] and [rtmp_live] are never set. *)
Lemma push_stream_path_never_returns (video_id : string) (data record : value) :
  AfreecaTVIE.build_record video_id data = Ok record ->
  getitem record "rtmp_live" = Raise (KeyError "rtmp_live") /\
  getitem record "play_path" = Raise (KeyError "play_path").
Proof.
  intros E. unfold AfreecaTVIE.build_record in E.
  destruct (getitem data "files") as [files|]; [|discriminate E].
  cbn [bind result_monad] in E.
  destruct (getitem_last files) as [video_element|]; [|discriminate E].
  cbn [bind result_monad] in E.
  destruct (is_none video_element); [discriminate E|].
  destruct (getitem data "title") as [title|]; [|discriminate E].
  cbn [bind result_monad] in E.
  destruct (getitem data "writer_nick") as [uploader|]; [|discriminate E].
  cbn [bind result_monad] in E.
  destruct (getitem data "bj_id") as [uploader_id|]; [|discriminate E].
  cbn [bind result_monad] in E.
  destruct (getitem data "total_file_duration") as [duration|]; [|discriminate E].
  cbn [bind result_monad] in E.
  destruct (getitem data "thumb") as [thumbnail|]; [|discriminate E].
  cbn [bind result_monad] in E.
  destruct (strip (py_str video_element) =? "") eqn:B; cbn [negb] in E.
  - apply String.eqb_eq in B. rewrite B in E.
    destruct (determine_ext "" =? "m3u8"); [|discriminate E].
    destruct (host_call _ _) as [formats|]; [|discriminate E].
    cbn [bind result_monad] in E. injection E as <-. split; reflexivity.
  - destruct (py_len files) as [n|]; [|discriminate E].
    cbn [bind result_monad] in E.
    destruct (py_iter files) as [items|]; [|discriminate E].
    cbn [bind result_monad] in E.
    destruct (AfreecaTVIE.file_entries video_id title _ (Nat.eqb n 1) 1 items)
      as [entries|]; [|discriminate E].
    cbn [bind result_monad] in E. injection E as <-. split; reflexivity.
Qed.

End PushStreamPath.

(** ** The resolvers on concrete runs *)


Section AdultTwice.
#[local] Existing Instance Sample.adult_twice.

(** C1, as stated, fails: with the flag "ADULT" on both turns the failure
    of the resolver is not of the class Unresolvable. *)
Lemma adult_twice_is_not_unresolvable :
  flag_is (network [] (vod_request Sample.VOD_URL)) "ADULT" = true /\
  flag_is
    (network [vod_request Sample.VOD_URL] (vod_request Sample.VOD_URL)) "ADULT" = true /\
  ~ exists e,
      fst (AfreecaTVIE._real_extract Sample.VOD_URL init) = Raise e /\
      classify e = Some Unresolvable.
Proof.
  split; [reflexivity|]. split; [reflexivity|].
  intros [e [E C]]. vm_compute in E. injection E as <-. discriminate C.
Qed.

Lemma adult_twice_fails_restricted_witness :
  AfreecaTVIE._real_extract Sample.VOD_URL init =
    (Raise (ExtractorError (AfreecaTVIE.said AfreecaTVIE.adult_error) true),
     mkWorld [vod_request Sample.VOD_URL;
              vod_request Sample.VOD_URL] [])
  /\ classify (ExtractorError (AfreecaTVIE.said AfreecaTVIE.adult_error) true) = Some Restricted.
Proof.
  apply (adult_twice_fails_restricted Sample.VOD_URL); reflexivity.
Defined.

End AdultTwice.

Section PartialTwice.
#[local] Existing Instance Sample.partial_twice.

(** C3, as stated, fails: the first flag is "PARTIAL_ADULT" and the
    resolver reports two warnings, not one. *)
Lemma partial_twice_warns_twice :
  flag_is (network [] (vod_request Sample.VOD_URL)) "PARTIAL_ADULT"
    = true /\
  warnings (snd (AfreecaTVIE._real_extract Sample.VOD_URL init)) =
    [AfreecaTVIE.partial_adult_warning; AfreecaTVIE.partial_adult_warning].
Proof. split; reflexivity. Qed.

End PartialTwice.

Section PartialThenSucceed.
#[local] Existing Instance Sample.partial_then_succeed.

Lemma partial_adult_warns_and_retries_once_witness :
  List.length (issued (snd (AfreecaTVIE._real_extract Sample.VOD_URL init)))
    = 2 /\
  warnings (snd (AfreecaTVIE._real_extract Sample.VOD_URL init)) =
    (if flag_is
          (network [vod_request Sample.VOD_URL] (vod_request Sample.VOD_URL)) "PARTIAL_ADULT"
     then [AfreecaTVIE.partial_adult_warning; AfreecaTVIE.partial_adult_warning]
     else [AfreecaTVIE.partial_adult_warning]) /\
  (flag_is
     (network [vod_request Sample.VOD_URL] (vod_request Sample.VOD_URL)) "PARTIAL_ADULT" = true ->
   fst (AfreecaTVIE._real_extract Sample.VOD_URL init)
   = Raise AfreecaTVIE.unable_to_download).
Proof.
  apply (partial_adult_warns_and_retries_once Sample.VOD_URL).
  reflexivity.
Defined.

(** The request of the second turn is the request of the first one: its
    query is empty and its form has no [partialView]. *)
Lemma retry_repeats_the_request :
  issued (snd (AfreecaTVIE._real_extract Sample.VOD_URL init)) =
    [vod_request Sample.VOD_URL;
     vod_request Sample.VOD_URL] /\
  rq_query (vod_request Sample.VOD_URL) = [] /\
  rq_data (vod_request Sample.VOD_URL) =
    Some [("nTitleNo", VStr "96753363"); ("nApiLevel", VInt 10)].
Proof. repeat split; reflexivity. Qed.

End PartialThenSucceed.

Section SingleHttp.
#[local] Existing Instance Sample.single_http.



End SingleHttp.

Section NoUrlFile.
#[local] Existing Instance Sample.no_url_file.



End NoUrlFile.

Section PushStream.
#[local] Existing Instance Sample.push_stream.

(** C5 on the push-stream file: the URL holds [mp4:], and the resolver
    returns a multi-part record whose entry has the whole URL as an 'http'
    source; nothing is split and nothing is marked [rtmp_live]. *)
Lemma push_stream_url_is_not_split :
  AfreecaTVIE._real_extract Sample.VOD_URL init =
    (Ok (VDict
           [("uploader", VStr "april"); ("uploader_id", VStr "dailyapril");
            ("thumbnail", VStr "http://videoimg.afreecatv.com/t.jpg");
            ("id", VStr "96753363"); ("title", VStr "clip");
            ("duration", VInt 213); ("_type", VStr "multi_video");
            ("entries",
             VList
               [VDict
                  [("uploader", VStr "april"); ("uploader_id", VStr "dailyapril");
                   ("thumbnail", VStr "http://videoimg.afreecatv.com/t.jpg");
                   ("id", VStr "96753363_1"); ("title", VStr "clip");
                   ("upload_date", VNone); ("duration", VInt 213);
                   ("formats",
                    VList
                      [VDict
                         [("url", VStr "rtmp://media.afreecatv.com/vod/mp4:clip");
                          ("format_id", VStr "http")]])]])]),
     mkWorld [vod_request Sample.VOD_URL] []).
Proof. reflexivity. Qed.

(** The split of the single-item path asks for exactly one marker: a URL
    with two of them has three parts, and the assignment to two names
    raises. *)
Lemma split_needs_one_marker :
  unpack2 (split "mp4:" "rtmp://media.afreecatv.com/vod/mp4:clip")
    = Ok ("rtmp://media.afreecatv.com/vod/", "clip") /\
  unpack2 (split "mp4:" "rtmp://media.afreecatv.com/mp4:a/mp4:b") = Raise ValueError /\
  unpack2 (split "mp4:" "") = Raise ValueError.
Proof. repeat split; reflexivity. Qed.

End PushStream.

Section MixedPermissive.
#[local] Existing Instance Sample.mixed_permissive.

(** C6, as stated, fails: with the permissive option set, the element
    without a valid URL is still dropped, and four files give three
    entries. *)
Lemma permissive_run_drops_invalid_url :
  ignore_no_formats = true /\
  exists record entries,
    fst (AfreecaTVIE._real_extract Sample.VOD_URL init) = Ok record /\
    getitem record "entries" = Ok (VList entries) /\
    List.length Sample.mixed_files = 4 /\
    List.length entries = 3.
Proof. split; [reflexivity|]. eexists. eexists. repeat split; reflexivity. Qed.

End MixedPermissive.

Section MixedStrict.
#[local] Existing Instance Sample.mixed_strict.

Lemma multi_part_entries_witness :
  exists record,
    AfreecaTVIE.build_record "96753363"
      (Sample.view_fields "SUCCEED" Sample.mixed_files) = Ok record /\
    exists entries,
      getitem record "entries" = Ok (VList entries) /\
      List.length entries + count_from (no_url) 1 Sample.mixed_files
      + (if ignore_no_formats then 0
         else count_from (zero_formats "96753363") 1 Sample.mixed_files)
      = List.length Sample.mixed_files /\
      Forall2 (entry_of "96753363")
        (kept_files "96753363" 1 Sample.mixed_files) entries.
Proof.
  eexists. split; [reflexivity|].
  apply (multi_part_entries "96753363"
           (Sample.view_fields "SUCCEED" Sample.mixed_files)).
  - discriminate.
  - reflexivity.
  - reflexivity.
Defined.

End MixedStrict.

Section MissingFile.
#[local] Existing Instance Sample.missing_file.

(** C10, as stated, fails: a file element without the [file] field raises
    a [KeyError], permissive option or not. *)
Lemma missing_file_field_raises :
  ignore_no_formats = true /\
  getitem Sample.fileless "file" = Raise (KeyError "file") /\
  fst (AfreecaTVIE._real_extract Sample.VOD_URL init) = Raise (KeyError "file").
Proof. repeat split; reflexivity. Qed.

End MissingFile.

Section MixedPermissiveSkips.
#[local] Existing Instance Sample.mixed_permissive.

Lemma invalid_url_is_skipped_witness :
  ignore_no_formats = true /\
  (forall rest,
     AfreecaTVIE.file_entries "96753363" (VStr "clip") [] false 1 (Sample.null_file :: rest)
     = AfreecaTVIE.file_entries "96753363" (VStr "clip") [] false 2 rest) /\
  AfreecaTVIE.file_entry "96753363" (VStr "clip") [] false 2 Sample.empty_manifest_file =
    Ok (Some (AfreecaTVIE.make_file_info [] (VStr "20230108_AA_1") (VStr "clip") false 2
                (Some "20230108") (Some 10%Z) [])).
Proof.
  split; [reflexivity|]. split.
  - destruct (invalid_url_is_skipped "96753363" (VStr "clip") [] false 1
                Sample.null_file VNone eq_refl) as [P _].
    exact (P eq_refl).
  - destruct (invalid_url_is_skipped "96753363" (VStr "clip") [] false 2
                Sample.empty_manifest_file (VStr "http://empty.example/a.m3u8")
                eq_refl) as [_ Q].
    exact (Q "http://empty.example/a.m3u8" (VStr "20230108_AA_1") (VInt 10)
             (Some "20230108") eq_refl eq_refl eq_refl eq_refl eq_refl).
Defined.

End MixedPermissiveSkips.

Section Offline.
#[local] Existing Instance Sample.offline.

Lemma no_broadcast_number_is_not_live_witness :
  exists broadcaster_id,
    AfreecaTVLiveIE._real_extract Sample.LIVE_URL_NO_BNO init =
      (Raise (AfreecaTVLiveIE.not_live broadcaster_id),
       mkWorld [AfreecaTVLiveIE.channel_request
                  (fst (match_valid_url_live Sample.LIVE_URL_NO_BNO))] []) /\
    classify (AfreecaTVLiveIE.not_live broadcaster_id) = Some NotLive /\
    filter is_tier_request (issued (snd (AfreecaTVLiveIE._real_extract Sample.LIVE_URL_NO_BNO init)))
    = [].
Proof.
  apply (no_broadcast_number_is_not_live Sample.LIVE_URL_NO_BNO VNone); reflexivity.
Defined.

End Offline.

Section LookupFails.
#[local] Existing Instance Sample.lookup_fails.

(** The run after the failed lookup: the record carries the broadcast
    number and the handle of the URL, and the one tier that got a token and
    an assignment. *)
Lemma lookup_fails_run :
  fst (AfreecaTVLiveIE._real_extract Sample.LIVE_URL init) =
    Ok (VDict
          [("id", VStr "237852185"); ("title", VNone); ("uploader", VNone);
           ("uploader_id", VStr "pyh3646"); ("timestamp", VNone);
           ("formats",
            VList
              [VDict
                 [("format_id", VStr "sd");
                  ("url", VStr "http://cdn.example/live.m3u8?aid=token");
                  ("ext", VStr "mp4"); ("protocol", VStr "m3u8");
                  ("quality", VInt 0)]]);
           ("is_live", VBool true)]) /\
  List.length (issued (snd (AfreecaTVLiveIE._real_extract Sample.LIVE_URL init))) = 7.
Proof. split; reflexivity. Qed.

End LookupFails.

(** ** More on the negotiation loop *)

Section VodLoopMore.
Context {H : Host}.

Lemma succeed_test (flag : value) :
  truthy flag && str_eq flag "SUCCEED" = str_eq flag "SUCCEED".
Proof.
  destruct (str_eq flag "SUCCEED") eqn:E; [|apply andb_false_r].
  apply str_eq_true in E. now subst.
Qed.

Lemma read_answer_raise (answer : option value) (e : exn) :
  read_answer answer = Raise e -> foreign e \/ e = AfreecaTVIE.vod_gone.
Proof.
  unfold read_answer. cbn [bind result_monad].
  destruct answer as [response|]; cbn [host_call];
    [|intros E; injection E as <-; now left].
  destruct (getitem response "data") as [data|e0] eqn:G0;
    [|intros E; injection E as <-; left; now apply getitem_foreign in G0].
  destruct (AfreecaTVIE.opt_int_eq _ _); [intros E; injection E as <-; now right|].
  destruct (getitem data "station_no") as [?|e1] eqn:G1;
    [|intros E; injection E as <-; left; now apply getitem_foreign in G1].
  destruct (getitem data "bbs_no") as [?|e2] eqn:G2;
    [|intros E; injection E as <-; left; now apply getitem_foreign in G2].
  destruct (getitem data "flag") as [?|e3] eqn:G3; [discriminate|].
  intros E; injection E as <-; left; now apply getitem_foreign in G3.
Qed.

(** What the loop leaves in the state: some view-info requests, all the
    same, and as many warnings at most. *)
Lemma negotiate_world (url video_id : string) (n : nat) :
  forall (partial_view adult_view : bool) (w : world),
  exists k j,
    k <= n /\ j <= k /\ (0 < n -> 0 < k) /\
    snd (AfreecaTVIE.negotiate url video_id n partial_view adult_view w) =
    mkWorld (issued w ++ repeat (AfreecaTVIE.view_request url video_id) k)
            (warnings w ++ repeat AfreecaTVIE.partial_adult_warning j).
Proof.
  induction n as [|n IH]; intros partial_view adult_view w.
  - exists 0, 0. repeat split; try lia. cbn. rewrite !app_nil_r. now destruct w.
  - assert (One : exists k j, k <= S n /\ j <= k /\ (0 < S n -> 0 < k) /\
              sent w (AfreecaTVIE.view_request url video_id) =
              mkWorld (issued w ++ repeat (AfreecaTVIE.view_request url video_id) k)
                      (warnings w ++ repeat AfreecaTVIE.partial_adult_warning j)).
    { exists 1, 0. repeat split; try lia. unfold sent. cbn [repeat].
      now rewrite app_nil_r. }
    rewrite negotiate_turn. cbv zeta.
    destruct (read_answer _) as [[data flag]|e]; [|exact One].
    destruct (truthy flag && str_eq flag "SUCCEED"); [exact One|].
    destruct (str_eq flag "PARTIAL_ADULT").
    { destruct (IH true adult_view
                  (warned (sent w (AfreecaTVIE.view_request url video_id))
                     AfreecaTVIE.partial_adult_warning))
        as (k & j & Hk & Hj & _ & E).
      exists (S k), (S j). repeat split; try lia. rewrite E.
      cbn [issued warnings sent warned repeat]. now rewrite <- !app_assoc. }
    destruct (str_eq flag "ADULT"); [|exact One].
    destruct (negb adult_view); [|exact One].
    destruct (IH partial_view true (sent w (AfreecaTVIE.view_request url video_id)))
      as (k & j & Hk & Hj & _ & E).
    exists (S k), j. repeat split; try lia. rewrite E.
    cbn [issued warnings sent repeat]. now rewrite <- !app_assoc.
Qed.

(** X1.  Whatever the network answers, the negotiation loop of the VOD
    resolver issues one or two requests, all of them the same view-info
    request, and no third one; it reports at most as many warnings, all of
    them the age-restriction warning. *)
Theorem vod_loop_footprint (url : string) :
  exists k j,
    1 <= k <= 2 /\ j <= k /\
    issued (snd (AfreecaTVIE.negotiate url (match_id url) 2 false false init))
      = repeat (vod_request url) k /\
    warnings (snd (AfreecaTVIE.negotiate url (match_id url) 2 false false init))
      = repeat AfreecaTVIE.partial_adult_warning j.
Proof.
  destruct (negotiate_world url (match_id url) 2 false false init)
    as (k & j & Hk & Hj & Hpos & E).
  exists k, j. rewrite E. cbn [issued warnings init app]. repeat split; lia.
Qed.

(** X2.  When the [data] of the first answer carries the code -6221, the
    resolution fails with the expected error 'The VOD does not exist' after
    that one request, whatever else the answer holds. *)
Theorem vod_sentinel_is_not_found (url : string) (response data : value) :
  network [] (vod_request url) = Some response ->
  getitem response "data" = Ok data ->
  traverse_obj_int data "code" = Some (-6221)%Z ->
  AfreecaTVIE._real_extract url init =
    (Raise (ExtractorError "The VOD does not exist" true),
     mkWorld [vod_request url] [])
  /\ classify (ExtractorError "The VOD does not exist" true) = Some NotFound.
Proof.
  intros N G C. split; [|reflexivity].
  apply real_extract_raise. rewrite negotiate_turn. cbv zeta.
  fold (vod_request url). change (issued init) with (@nil request).
  unfold read_answer. rewrite N. cbn [host_call bind result_monad].
  rewrite G, C. reflexivity.
Qed.

(** X3.  When the flag of the first answer is none of 'SUCCEED',
    'PARTIAL_ADULT' and 'ADULT', the resolution fails after that one request
    with the expected error '<IE_NAME> said: <flag>', the flag printed as
    [str] prints it. *)
Theorem vod_unknown_flag_is_surfaced (url : string) (flag : value) :
  answer_flag (network [] (vod_request url)) = Some flag ->
  str_eq flag "SUCCEED" = false ->
  asks_retry flag = false ->
  AfreecaTVIE._real_extract url init =
    (Raise (ExtractorError ("afreecatv said: " ++ py_str flag) true),
     mkWorld [vod_request url] []).
Proof.
  intros A S R. apply answer_flag_read in A as [data A].
  apply orb_false_elim in R as [R1 R2].
  apply real_extract_raise. rewrite negotiate_turn. cbv zeta.
  fold (vod_request url). change (issued init) with (@nil request).
  rewrite A, succeed_test, S, R1, R2. reflexivity.
Qed.

(** X5.  When the first answer says 'SUCCEED', the record is built from the
    data of that answer, after one request and without a warning. *)
Theorem vod_first_answer_succeeds (url : string) (data : value) :
  read_answer (network [] (vod_request url)) = Ok (data, VStr "SUCCEED") ->
  AfreecaTVIE._real_extract url init =
    (AfreecaTVIE.build_record (match_id url) data, mkWorld [vod_request url] []).
Proof.
  intros A. unfold AfreecaTVIE._real_extract. cbn [bind M_monad].
  rewrite negotiate_turn. cbv zeta. fold (vod_request url).
  change (issued init) with (@nil request). rewrite A. reflexivity.
Qed.

(** X6.  When the first answer asks for another turn and the second one
    says 'SUCCEED', the record is built from the data of the second answer
    alone, after two requests; the warning is reported when the first flag
    was 'PARTIAL_ADULT' and not when it was 'ADULT'. *)
Theorem vod_second_answer_succeeds (url : string) (first flag data : value) :
  read_answer (network [] (vod_request url)) = Ok (first, flag) ->
  asks_retry flag = true ->
  read_answer (network [vod_request url] (vod_request url))
    = Ok (data, VStr "SUCCEED") ->
  AfreecaTVIE._real_extract url init =
    (AfreecaTVIE.build_record (match_id url) data,
     mkWorld [vod_request url; vod_request url]
       (if str_eq flag "PARTIAL_ADULT" then [AfreecaTVIE.partial_adult_warning]
        else [])).
Proof.
  intros A1 R A2. unfold AfreecaTVIE._real_extract. cbn [bind M_monad].
  rewrite negotiate_turn. cbv zeta. fold (vod_request url).
  change (issued init) with (@nil request). rewrite A1, succeed_test.
  unfold asks_retry in R.
  destruct (str_eq flag "SUCCEED") eqn:S.
  { apply str_eq_true in S. subst flag. discriminate R. }
  destruct (str_eq flag "PARTIAL_ADULT") eqn:P.
  - rewrite negotiate_turn. cbv zeta. fold (vod_request url).
    change (issued (warned (sent init (vod_request url))
                      AfreecaTVIE.partial_adult_warning))
      with [vod_request url].
    rewrite A2. reflexivity.
  - cbn [orb] in R. rewrite R. cbn [negb].
    rewrite negotiate_turn. cbv zeta. fold (vod_request url).
    change (issued (sent init (vod_request url))) with [vod_request url].
    rewrite A2. reflexivity.
Qed.

End VodLoopMore.

Section VodErrors.
Context {H : Host}.

Lemma part_upload_date_foreign (key : value) (e : exn) :
  AfreecaTVIE.part_upload_date key = Raise e -> foreign e.
Proof.
  unfold AfreecaTVIE.part_upload_date. cbn [bind result_monad].
  destruct (AfreecaTVIE.search_upload_date key) as [m|e0] eqn:S.
  - destruct (unified_strdate m) as [d|]; [|discriminate].
    destruct (host_call "date_from_str" (date_from_str_year d)) as [y|e1] eqn:Y.
    + destruct ((y <? 2000) || (y >=? 2100))%Z; discriminate.
    + intros E. injection E as <-. now apply host_call_foreign in Y.
  - intros E. injection E as <-. unfold AfreecaTVIE.search_upload_date in S.
    destruct key; try (now apply host_call_foreign in S). discriminate S.
Qed.

Lemma part_formats_foreign (video_id : string) (file_num : nat) (file_url : string)
  (e : exn) :
  AfreecaTVIE.part_formats video_id file_num file_url = Raise e -> foreign e.
Proof.
  unfold AfreecaTVIE.part_formats.
  destruct (determine_ext file_url =? "m3u8"); [apply host_call_foreign|discriminate].
Qed.

Lemma file_entry_foreign (video_id : string) (title : value) (common_entry : dict)
  (one : bool) (file_num : nat) (file_element : value) (e : exn) :
  AfreecaTVIE.file_entry video_id title common_entry one file_num file_element
    = Raise e -> foreign e.
Proof.
  unfold AfreecaTVIE.file_entry. cbn [bind result_monad].
  destruct (getitem file_element "file") as [f|e0] eqn:G0;
    [|intros E; injection E as <-; now apply getitem_foreign in G0].
  destruct (url_or_none f) as [[|c r]|]; try discriminate.
  destruct (getitem file_element "file_info_key") as [key|e1] eqn:G1;
    [|intros E; injection E as <-; now apply getitem_foreign in G1].
  destruct (AfreecaTVIE.part_upload_date key) as [d|e2] eqn:G2;
    [|intros E; injection E as <-; now apply part_upload_date_foreign in G2].
  destruct (getitem file_element "duration") as [dur|e3] eqn:G3;
    [|intros E; injection E as <-; now apply getitem_foreign in G3].
  destruct (AfreecaTVIE.part_formats video_id file_num (String c r))
    as [formats|e4] eqn:G4;
    [|intros E; injection E as <-; now apply part_formats_foreign in G4].
  destruct (negb (truthy (VList formats)) && negb ignore_no_formats); discriminate.
Qed.

Lemma file_entries_foreign (video_id : string) (title : value) (common_entry : dict)
  (one : bool) (file_elements : list value) :
  forall (file_num : nat) (e : exn),
  AfreecaTVIE.file_entries video_id title common_entry one file_num file_elements
    = Raise e -> foreign e.
Proof.
  induction file_elements as [|file_element rest IH]; intros file_num e.
  - discriminate.
  - cbn [AfreecaTVIE.file_entries bind result_monad].
    destruct (AfreecaTVIE.file_entry _ _ _ _ _ file_element) as [o|e0] eqn:E0;
      [|intros E; injection E as <-; now apply file_entry_foreign in E0].
    destruct (AfreecaTVIE.file_entries _ _ _ _ (S file_num) rest) as [es|e1] eqn:E1;
      [discriminate|].
    intros E; injection E as <-. now apply IH in E1.
Qed.

Lemma getitem_last_foreign (o : value) (e : exn) :
  getitem_last o = Raise e -> foreign e.
Proof.
  destruct o as [| | |s|l|d]; cbn [getitem_last];
    try (intros E; injection E as <-; exact I).
  - destruct (last_char s); [discriminate|]. intros E; injection E as <-; exact I.
  - destruct (rev l); [|discriminate]. intros E; injection E as <-; exact I.
Qed.

Lemma py_len_foreign (o : value) (e : exn) : py_len o = Raise e -> foreign e.
Proof.
  destruct o; cbn [py_len]; try discriminate;
    intros E; injection E as <-; exact I.
Qed.

Lemma py_iter_foreign (o : value) (e : exn) : py_iter o = Raise e -> foreign e.
Proof.
  destruct o; cbn [py_iter]; try discriminate;
    intros E; injection E as <-; exact I.
Qed.

(** The only [ExtractorError] of the part after the loop is the one for a
    null last file. *)
Lemma build_record_raise (video_id : string) (data : value) (e : exn) :
  AfreecaTVIE.build_record video_id data = Raise e ->
  foreign e \/ e = AfreecaTVIE.video_missing video_id.
Proof.
  unfold AfreecaTVIE.build_record. cbn [bind result_monad].
  destruct (getitem data "files") as [files|e0] eqn:G0;
    [|intros E; injection E as <-; left; now apply getitem_foreign in G0].
  destruct (getitem_last files) as [video_element|e1] eqn:G1;
    [|intros E; injection E as <-; left; now apply getitem_last_foreign in G1].
  destruct (is_none video_element); [intros E; injection E as <-; now right|].
  destruct (getitem data "title") as [title|e2] eqn:G2;
    [|intros E; injection E as <-; left; now apply getitem_foreign in G2].
  destruct (getitem data "writer_nick") as [uploader|e3] eqn:G3;
    [|intros E; injection E as <-; left; now apply getitem_foreign in G3].
  destruct (getitem data "bj_id") as [uploader_id|e4] eqn:G4;
    [|intros E; injection E as <-; left; now apply getitem_foreign in G4].
  destruct (getitem data "total_file_duration") as [duration|e5] eqn:G5;
    [|intros E; injection E as <-; left; now apply getitem_foreign in G5].
  destruct (getitem data "thumb") as [thumbnail|e6] eqn:G6;
    [|intros E; injection E as <-; left; now apply getitem_foreign in G6].
  destruct (negb (strip (py_str video_element) =? "")).
  - destruct (py_len files) as [n|e7] eqn:G7;
      [|intros E; injection E as <-; left; now apply py_len_foreign in G7].
    destruct (py_iter files) as [items|e8] eqn:G8;
      [|intros E; injection E as <-; left; now apply py_iter_foreign in G8].
    destruct (AfreecaTVIE.file_entries video_id title _ (Nat.eqb n 1) 1 items)
      as [entries|e9] eqn:G9; [discriminate|].
    intros E; injection E as <-; left; now apply file_entries_foreign in G9.
  - destruct (determine_ext _ =? "m3u8").
    + destruct (host_call _ _) as [formats|e7] eqn:G7; [discriminate|].
      intros E; injection E as <-; left; now apply host_call_foreign in G7.
    + destruct (unpack2 _) as [[app playpath]|e7] eqn:G7; [discriminate|].
      intros E; injection E as <-. left.
      destruct (split "mp4:" _) as [|a [|b [|c l]]]; cbn [unpack2] in G7;
        try discriminate G7; now injection G7 as <-.
Qed.

(** The [ExtractorError]s of the loop, and when the one after its last
    turn is raised. *)
Lemma negotiate_raise (url video_id : string) (n : nat) :
  forall (partial_view adult_view : bool) (w w' : world) (msg : string) (b : bool),
  AfreecaTVIE.negotiate url video_id n partial_view adult_view w
    = (Raise (ExtractorError msg b), w') ->
  b = true \/ ExtractorError msg b = AfreecaTVIE.unable_to_download.
Proof.
  induction n as [|n IH]; intros partial_view adult_view w w' msg b.
  - intros E. injection E as <- <- _. now right.
  - rewrite negotiate_turn. cbv zeta.
    destruct (read_answer _) as [[data flag]|e] eqn:R.
    + destruct (truthy flag && str_eq flag "SUCCEED"); [discriminate|].
      destruct (str_eq flag "PARTIAL_ADULT"); [apply IH|].
      destruct (str_eq flag "ADULT").
      * destruct (negb adult_view); [apply IH|].
        intros E. injection E as <- <- _. now left.
      * intros E. injection E as <- <- _. now left.
    + intros E. injection E as -> _.
      apply read_answer_raise in R as [F|F]; [destruct F|].
      injection F as Hm Hb. now left.
Qed.

(** X4.  A VOD resolution fails with 'Unable to download video info'
    exactly when both answers ask for another turn and are not both
    'ADULT': two 'PARTIAL_ADULT', or one 'PARTIAL_ADULT' and one 'ADULT' in
    either order. *)
Theorem vod_loop_exhaustion (url : string) :
  fst (AfreecaTVIE._real_extract url init) = Raise AfreecaTVIE.unable_to_download
  <->
  exists first second,
    answer_flag (network [] (vod_request url)) = Some first /\
    answer_flag (network [vod_request url] (vod_request url)) = Some second /\
    asks_retry first = true /\ asks_retry second = true /\
    str_eq first "ADULT" && str_eq second "ADULT" = false.
Proof.
  unfold AfreecaTVIE._real_extract. cbn [bind M_monad]. unfold lift.
  rewrite negotiate_turn. cbv zeta. fold (vod_request url).
  change (issued init) with (@nil request).
  unfold answer_flag at 1.
  destruct (read_answer (network [] (vod_request url))) as [[d1 f1]|e1] eqn:R1.
  2:{ cbn [fst]. split.
      - intros E. injection E as ->.
        apply read_answer_raise in R1 as [F|F]; [destruct F|discriminate F].
      - intros (first & second & A & _). discriminate A. }
  rewrite succeed_test. unfold asks_retry.
  destruct (str_eq f1 "SUCCEED") eqn:S1.
  { apply str_eq_true in S1. subst f1. cbn [fst]. split.
    - intros E. apply build_record_raise in E as [F|F]; [destruct F|discriminate F].
    - intros (first & second & A & _ & R & _). injection A as <-. discriminate R. }
  assert (Second : forall pv w1,
    issued w1 = [vod_request url] ->
    (fst (let (r, w2) := AfreecaTVIE.negotiate url (match_id url) 1 pv
                       (negb pv) w1 in
          match r with
          | Ok a => (AfreecaTVIE.build_record (match_id url) a, w2)
          | Raise e => (Raise e, w2)
          end) = Raise AfreecaTVIE.unable_to_download
     <->
     exists second,
       answer_flag (network [vod_request url] (vod_request url)) = Some second /\
       str_eq second "PARTIAL_ADULT" || str_eq second "ADULT" = true /\
       negb pv && str_eq second "ADULT" = false)).
  { intros pv w1 I1. rewrite negotiate_turn. cbv zeta. fold (vod_request url).
    rewrite I1. unfold answer_flag.
    destruct (read_answer (network [vod_request url] (vod_request url)))
      as [[d2 f2]|e2] eqn:R2.
    2:{ cbn [fst]. split.
        - intros E. injection E as ->.
          apply read_answer_raise in R2 as [F|F]; [destruct F|discriminate F].
        - intros (second & A & _). discriminate A. }
    rewrite succeed_test.
    destruct (str_eq f2 "SUCCEED") eqn:S2.
    { apply str_eq_true in S2. subst f2. cbn [fst]. split.
      - intros E. apply build_record_raise in E as [F|F];
          [destruct F|discriminate F].
      - intros (second & A & R & _). injection A as <-. discriminate R. }
    destruct (str_eq f2 "PARTIAL_ADULT") eqn:P2.
    { apply str_eq_true in P2. subst f2. cbn. split; [|reflexivity].
      intros _. exists (VStr "PARTIAL_ADULT"). repeat split.
      now rewrite andb_false_r. }
    destruct (str_eq f2 "ADULT") eqn:A2.
    - rewrite negb_involutive. destruct pv; cbn.
      + split; [|reflexivity]. intros _. exists f2. now rewrite P2, A2.
      + split; [discriminate|].
        intros (second & A & _ & F). injection A as <-. rewrite A2 in F.
        discriminate F.
    - cbn. split; [discriminate|].
      intros (second & A & R & _). injection A as <-. rewrite P2, A2 in R.
      discriminate R. }
  destruct (str_eq f1 "PARTIAL_ADULT") eqn:P1.
  - rewrite (Second true (warned (sent init (vod_request url))
                             AfreecaTVIE.partial_adult_warning) eq_refl).
    split.
    + intros (second & A & R & _).
      assert (F1 : f1 = VStr "PARTIAL_ADULT") by now apply str_eq_true.
      subst f1. exists (VStr "PARTIAL_ADULT"), second. now repeat split.
    + intros (first & second & A1 & A2 & _ & R & _). injection A1 as <-.
      exists second. now repeat split.
  - destruct (str_eq f1 "ADULT") eqn:A1.
    + cbn [negb]. rewrite (Second false (sent init (vod_request url)) eq_refl).
      split.
      * intros (second & A & R & F). exists f1, second. rewrite P1, A1.
        cbn [negb andb orb] in *. now repeat split.
      * intros (first & second & A & A2 & _ & R & F). injection A as <-.
        rewrite A1 in F. exists second. cbn [negb andb orb] in *.
        now repeat split.
    + cbn [fst]. split; [discriminate|].
      intros (first & second & A & _ & R & _). injection A as <-.
      rewrite P1, A1 in R. discriminate R.
Qed.

End VodErrors.

(** ** More on the record of the VOD resolver *)

Section VodRecordMore.
Context {H : Host}.

Lemma file_entry_built (video_id : string) (title : value) (common_entry : dict)
  (one : bool) (file_num : nat) (file_element : value) (o : option value) :
  AfreecaTVIE.file_entry video_id title common_entry one file_num file_element = Ok o ->
  (o = None /\ kept video_id file_num file_element = false)
  \/
  (exists entry, o = Some entry /\ kept video_id file_num file_element = true /\
                 built_from video_id title common_entry one (file_num, file_element)
                   entry).
Proof.
  intros E. apply file_entry_ok in E as [[f [G [U ->]]]|E].
  - left. split; [reflexivity|]. unfold kept. now rewrite U.
  - destruct E as (file_url & key & upload_date & d & formats & U & K & D & L & F & ->).
    unfold kept, zero_formats. rewrite U, F.
    destruct formats as [|x formats]; cbn [truthy negb andb orb].
    + destruct ignore_no_formats eqn:P; cbn [negb].
      * right. eexists. repeat split.
        exists file_url, key, upload_date, d, []. cbn [fst snd].
        repeat split; try assumption. now right.
      * now left.
    + right. eexists. repeat split.
      exists file_url, key, upload_date, d, (x :: formats). cbn [fst snd].
      repeat split; try assumption. now left.
Qed.

(** The entries of the loop, one for each kept element and in their order,
    each built from its element. *)
Lemma file_entries_built (video_id : string) (title : value) (common_entry : dict)
  (one : bool) (file_elements : list value) :
  forall (file_num : nat) (entries : list value),
  AfreecaTVIE.file_entries video_id title common_entry one file_num file_elements
    = Ok entries ->
  Forall2 (built_from video_id title common_entry one)
    (kept_files video_id file_num file_elements) entries.
Proof.
  induction file_elements as [|file_element rest IH]; intros file_num entries E.
  - injection E as <-. constructor.
  - apply file_entries_cons in E as [o [tail [E1 [E2 ->]]]].
    apply IH in E2. cbn [kept_files].
    apply file_entry_built in E1 as [[-> K]|[entry [-> [K R]]]]; rewrite K.
    + exact E2.
    + now constructor.
Qed.

Ltac entry_field :=
  unfold AfreecaTVIE.make_file_info, getitem, dict_update; cbn [fold_left fst snd];
  repeat (rewrite lookup_dict_set_neq by discriminate);
  rewrite ?lookup_dict_set_eq.

Lemma make_file_info_title (common_entry : dict) (format_id title : value) (one : bool)
  (file_num : nat) (upload_date : option string) (file_duration : option Z)
  (formats : list value) :
  getitem (AfreecaTVIE.make_file_info common_entry format_id title one file_num
             upload_date file_duration formats) "title"
  = Ok (if one then title
        else VStr (py_str title ++ " (part " ++ dec (Z.of_nat file_num) ++ ")")).
Proof. now entry_field. Qed.

Lemma make_file_info_other (common_entry : dict) (format_id title : value) (one : bool)
  (file_num : nat) (upload_date : option string) (file_duration : option Z)
  (formats : list value) (k : string) :
  ~ In k ["id"; "title"; "upload_date"; "duration"; "formats"] ->
  getitem (AfreecaTVIE.make_file_info common_entry format_id title one file_num
             upload_date file_duration formats) k
  = getitem (VDict common_entry) k.
Proof.
  intros N. unfold AfreecaTVIE.make_file_info, getitem, dict_update.
  cbn [fold_left fst snd].
  rewrite !lookup_dict_set_neq; [reflexivity|..];
    intros ->; apply N; cbn; tauto.
Qed.

(** X8.  An empty list of files is not reported as a missing video: the
    resolver reads the last file of the list first, and the record
    construction raises [IndexError]. *)
Theorem empty_file_list_raises_index_error (video_id : string) (data : value) :
  getitem data "files" = Ok (VList []) ->
  AfreecaTVIE.build_record video_id data = Raise IndexError.
Proof.
  intros G. unfold AfreecaTVIE.build_record. now rewrite G.
Qed.

(** X9.  The check for a video that does not exist looks at the last
    element of the file list only: a list that ends with a null fails with
    the expected error 'Video <id> does not exist', whatever the elements
    before it and whatever the other fields of the answer. *)
Theorem null_last_file_is_missing_video (video_id : string) (data : value)
  (earlier : list value) :
  getitem data "files" = Ok (VList (earlier ++ [VNone])) ->
  AfreecaTVIE.build_record video_id data =
    Raise (ExtractorError ("Video " ++ video_id ++ " does not exist") true).
Proof.
  intros G. unfold AfreecaTVIE.build_record. rewrite G.
  cbn [bind result_monad getitem_last]. rewrite rev_app_distr. reflexivity.
Qed.

(** X10.  In a record built from a list of files, the entries carry the
    uploader, the uploader id and the thumbnail of the answer, and the title
    of the answer: as it is when the list has one file, and followed by
    ' (part N)' otherwise, N being the 1-based position of the file in the
    list, so that a skipped file leaves a gap in the numbers. *)
Theorem entries_titles_and_common_fields (video_id : string) (data record : value)
  (files : list value) (title : value) :
  determine_ext "" <> "m3u8" ->
  AfreecaTVIE.build_record video_id data = Ok record ->
  getitem data "files" = Ok (VList files) ->
  getitem data "title" = Ok title ->
  exists entries,
    getitem record "entries" = Ok (VList entries) /\
    Forall2 (fun p entry =>
               getitem entry "title"
               = Ok (part_title title (List.length files) (fst p)) /\
               getitem entry "uploader" = getitem data "writer_nick" /\
               getitem entry "uploader_id" = getitem data "bj_id" /\
               getitem entry "thumbnail" = getitem data "thumb")
      (kept_files video_id 1 files) entries.
Proof.
  intros Hext B G T.
  apply (build_record_ok _ _ _ Hext) in B
    as (files' & title' & uploader & uploader_id & duration & thumbnail & n & items
        & entries & G' & T' & Gu & Gi & _ & Gh & L & I & F & ->).
  rewrite G in G'. injection G' as <-. rewrite T in T'. injection T' as <-.
  injection I as <-. injection L as <-.
  exists entries. split; [reflexivity|].
  apply file_entries_built in F. rewrite Gu, Gi, Gh.
  eapply Forall2_impl; [|exact F].
  intros p entry (file_url & key & upload_date & d & formats & _ & _ & _ & _ & _ & _ & ->).
  rewrite make_file_info_title.
  rewrite !make_file_info_other by (cbn; intuition discriminate).
  repeat split.
Qed.

(** X11.  Without the option [ignore_no_formats], every entry of a record
    has at least one format. *)
Theorem entries_have_formats (video_id : string) (data record : value) :
  determine_ext "" <> "m3u8" ->
  ignore_no_formats = false ->
  AfreecaTVIE.build_record video_id data = Ok record ->
  exists entries,
    getitem record "entries" = Ok (VList entries) /\
    Forall (fun entry => exists format formats,
              getitem entry "formats" = Ok (VList (format :: formats))) entries.
Proof.
  intros Hext P B.
  apply (build_record_ok _ _ _ Hext) in B
    as (files & title & uploader & uploader_id & duration & thumbnail & n & items
        & entries & _ & _ & _ & _ & _ & _ & _ & _ & F & ->).
  exists entries. split; [reflexivity|].
  apply file_entries_built in F.
  induction F as [|p entry ps es R _ IH]; constructor; [|exact IH].
  destruct R as (file_url & key & upload_date & d & formats & _ & _ & _ & _ & _ & N & ->).
  rewrite make_file_info_formats.
  destruct formats as [|format formats].
  - destruct N as [N|N]; [now destruct N | congruence].
  - now exists format, formats.
Qed.

Lemma take_digits_inv (n : nat) :
  forall (s d rest : string),
  AfreecaTVIE.take_digits n s = Some (d, rest) ->
  s = d ++ rest /\ String.length d = n /\ all_digits d = true.
Proof.
  induction n as [|n IH]; intros s d rest E.
  - injection E as <- <-. now repeat split.
  - cbn [AfreecaTVIE.take_digits] in E. destruct s as [|c s]; [discriminate E|].
    destruct (AfreecaTVIE.is_digit c) eqn:D; [|discriminate E].
    destruct (AfreecaTVIE.take_digits n s) as [[d' rest']|] eqn:T; [|discriminate E].
    injection E as <- <-. apply IH in T as (-> & L & A).
    cbn [append String.length all_digits]. rewrite D, L, A. now repeat split.
Qed.

(** The pattern [^(\d{8})_] finds a date in a key exactly when the key
    starts with eight digits and an underscore. *)
Lemma match_upload_date_iff (key d : string) :
  AfreecaTVIE.match_upload_date key = Some d <->
  exists rest, key = d ++ "_" ++ rest /\ String.length d = 8 /\ all_digits d = true.
Proof.
  split.
  - unfold AfreecaTVIE.match_upload_date.
    destruct (AfreecaTVIE.take_digits 8 key) as [[d' rest]|] eqn:T; [|discriminate].
    destruct rest as [|c rest]; [discriminate|].
    destruct c as [[] [] [] [] [] [] [] []]; try discriminate.
    intros E. injection E as <-. apply take_digits_inv in T as (-> & L & A).
    now exists rest.
  - intros (rest & -> & L & A). now apply match_upload_date_prefix.
Qed.

(** X12.  An entry whose key is an ASCII str that does not start with eight
    digits and an underscore has no upload date, when [unified_strdate] of
    nothing is nothing. *)
Theorem upload_date_absent_without_prefix (video_id : string) (title : value)
  (common_entry : dict) (one : bool) (file_num : nat) (file_element entry : value)
  (key : string) :
  unified_strdate None = None ->
  AfreecaTVIE.file_entry video_id title common_entry one file_num file_element
    = Ok (Some entry) ->
  getitem file_element "file_info_key" = Ok (VStr key) ->
  all_ascii key = true ->
  (forall d rest, String.length d = 8 -> all_digits d = true ->
                  key <> d ++ "_" ++ rest) ->
  getitem entry "upload_date" = Ok VNone.
Proof.
  intros U E K _ N.
  apply file_entry_ok in E as [[f [_ [_ E]]]|E]; [discriminate E|].
  destruct E as (u & key' & date & dur & formats & _ & K' & D & _ & _ & E).
  rewrite K in K'. injection K' as <-.
  assert (M : AfreecaTVIE.match_upload_date key = None).
  { destruct (AfreecaTVIE.match_upload_date key) as [d|] eqn:M; [|reflexivity].
    apply match_upload_date_iff in M as (rest & -> & L & A).
    now destruct (N d rest L A). }
  unfold AfreecaTVIE.part_upload_date, AfreecaTVIE.search_upload_date in D.
  cbn [bind result_monad] in D. rewrite M, U in D. injection D as <-.
  destruct (negb (truthy (VList formats)) && negb ignore_no_formats);
    [discriminate E|].
  injection E as ->. apply make_file_info_upload_date.
Qed.

(** A loop over the files that does not raise has computed the upload
    date of every element with a valid URL. *)
Lemma file_entries_dates (video_id : string) (title : value) (common_entry : dict)
  (one : bool) (file_elements : list value) :
  forall (file_num : nat) (entries : list value),
  AfreecaTVIE.file_entries video_id title common_entry one file_num file_elements
    = Ok entries ->
  forall file_element file_url key,
    In file_element file_elements ->
    file_url_of file_element = Some file_url ->
    getitem file_element "file_info_key" = Ok key ->
    exists upload_date, AfreecaTVIE.part_upload_date key = Ok upload_date.
Proof.
  induction file_elements as [|x rest IH]; intros file_num entries E f u key Hin U K.
  - destruct Hin.
  - apply file_entries_cons in E as [o [tail [E1 [E2 _]]]].
    destruct Hin as [->|Hin]; [|exact (IH _ _ E2 f u key Hin U K)].
    apply file_entry_ok in E1 as [[v [_ [U' _]]]|E1]; [congruence|].
    destruct E1 as (u' & key' & upload_date & _ & _ & _ & K' & D & _).
    rewrite K in K'. injection K' as <-. now exists upload_date.
Qed.

(** The date of a key that starts with eight digits and an underscore. *)
Lemma part_upload_date_prefix (d rest upload_date : string) :
  String.length d = 8 -> all_digits d = true ->
  unified_strdate (Some d) = Some upload_date ->
  AfreecaTVIE.part_upload_date (VStr (d ++ "_" ++ rest)) =
    match date_from_str_year upload_date with
    | Some year =>
        Ok (if ((year <? 2000) || (year >=? 2100))%Z then None else Some upload_date)
    | None => Raise (HostError "date_from_str")
    end.
Proof.
  intros L A U.
  unfold AfreecaTVIE.part_upload_date, AfreecaTVIE.search_upload_date.
  cbn [bind result_monad].
  rewrite (match_upload_date_prefix d rest L A), U.
  destruct (date_from_str_year upload_date) as [year|]; [|reflexivity].
  cbn [host_call bind result_monad].
  now destruct ((year <? 2000) || (year >=? 2100))%Z.
Qed.

(** X30.  In every record the resolver builds, the entries are those of the
    kept files, in order, and the entry of a file whose key starts with
    eight digits and an underscore that [unified_strdate] reads as a date
    has that date as upload date when [date_from_str] finds its year within
    2000 to 2099, and no upload date when the year is below 2000 or at least
    2100.  When [date_from_str] cannot read the date of such a key, for a
    file with a valid URL, no record is built: the exception of
    [date_from_str] ends the resolution. *)
Theorem upload_date_year_window (video_id : string) (data : value)
  (files : list value) :
  determine_ext "" <> "m3u8" ->
  getitem data "files" = Ok (VList files) ->
  (forall record,
     AfreecaTVIE.build_record video_id data = Ok record ->
     exists entries,
       getitem record "entries" = Ok (VList entries) /\
       Forall2 (fun p entry =>
                  forall d rest upload_date,
                    getitem (snd p) "file_info_key" = Ok (VStr (d ++ "_" ++ rest)) ->
                    String.length d = 8 -> all_digits d = true ->
                    unified_strdate (Some d) = Some upload_date ->
                    exists year,
                      date_from_str_year upload_date = Some year /\
                      getitem entry "upload_date" =
                        Ok (if ((year <? 2000) || (year >=? 2100))%Z
                            then VNone else VStr upload_date))
         (kept_files video_id 1 files) entries)
  /\
  (forall file_element file_url d rest upload_date,
     In file_element files ->
     file_url_of file_element = Some file_url ->
     getitem file_element "file_info_key" = Ok (VStr (d ++ "_" ++ rest)) ->
     String.length d = 8 -> all_digits d = true ->
     unified_strdate (Some d) = Some upload_date ->
     date_from_str_year upload_date = None ->
     forall record, AfreecaTVIE.build_record video_id data <> Ok record).
Proof.
  intros Hext G. split.
  - intros record B.
    apply (build_record_ok _ _ _ Hext) in B
      as (files' & title & uploader & uploader_id & duration & thumbnail & n & items
          & entries & G' & _ & _ & _ & _ & _ & _ & I & F & ->).
    rewrite G in G'. injection G' as <-. injection I as <-.
    exists entries. split; [reflexivity|].
    apply file_entries_built in F.
    eapply Forall2_impl; [|exact F].
    intros p entry (file_url & key & date & dur & formats & _ & K & D & _ & _ & _ & ->)
           d rest upload_date K' L A U.
    rewrite K in K'. injection K' as ->.
    pose proof (part_upload_date_prefix d rest upload_date L A U) as P.
    cbn [append] in P. rewrite P in D. clear P.
    destruct (date_from_str_year upload_date) as [year|]; [|discriminate D].
    exists year. split; [reflexivity|].
    rewrite make_file_info_upload_date. injection D as <-.
    now destruct ((year <? 2000) || (year >=? 2100))%Z.
  - intros f u d rest upload_date Hin U K L A S Y record B.
    apply (build_record_ok _ _ _ Hext) in B
      as (files' & title & uploader & uploader_id & duration & thumbnail & n & items
          & entries & G' & _ & _ & _ & _ & _ & _ & I & F & _).
    rewrite G in G'. injection G' as <-. injection I as <-.
    destruct (file_entries_dates _ _ _ _ _ _ _ F f u _ Hin U K) as [date D].
    rewrite (part_upload_date_prefix d rest upload_date L A S), Y in D.
    discriminate D.
Qed.

End VodRecordMore.

(** ** parse_video_key *)

Section VideoKeyFacts.

Lemma append_assoc (a b c : string) : (a ++ b) ++ c = a ++ b ++ c.
Proof. induction a as [|x a IH]; [reflexivity|]. cbn [append]. now rewrite IH. Qed.

Lemma digit_not_underscore (c : ascii) :
  AfreecaTVIE.is_digit c = true -> Ascii.eqb c "_" = false.
Proof.
  destruct c as [[] [] [] [] [] [] [] []]; try reflexivity; discriminate.
Qed.

Lemma digit_not_newline (c : ascii) :
  AfreecaTVIE.is_digit c = true -> Ascii.eqb c VideoKey.newline = false.
Proof.
  destruct c as [[] [] [] [] [] [] [] []]; try reflexivity; discriminate.
Qed.

Lemma rsplit_digits (part : string) :
  all_digits part = true -> VideoKey.rsplit_underscore part = None.
Proof.
  induction part as [|c part IH]; [reflexivity|].
  cbn [all_digits VideoKey.rsplit_underscore]. intros A.
  apply andb_prop in A as [A1 A2].
  now rewrite (IH A2), (digit_not_underscore c A1).
Qed.

Lemma rsplit_app (tag part : string) :
  VideoKey.rsplit_underscore part = None ->
  VideoKey.rsplit_underscore (tag ++ "_" ++ part) = Some (tag, part).
Proof.
  intros N. induction tag as [|c tag IH].
  - cbn. now rewrite N.
  - cbn [append VideoKey.rsplit_underscore]. cbn [append] in IH. now rewrite IH.
Qed.

Lemma rsplit_inv (s : string) :
  forall before after,
  VideoKey.rsplit_underscore s = Some (before, after) ->
  s = before ++ "_" ++ after.
Proof.
  induction s as [|c s IH]; intros before after; [discriminate|].
  cbn [VideoKey.rsplit_underscore].
  destruct (VideoKey.rsplit_underscore s) as [[b a]|].
  - intros E. injection E as <- <-. cbn [append]. f_equal. now apply IH.
  - destruct (Ascii.eqb c "_") eqn:U; [|discriminate].
    apply Ascii.eqb_eq in U. subst c. intros E. now injection E as <- <-.
Qed.

(** [chomp] takes off nothing, or the one newline at the end *)
Lemma chomp_inv (s : string) :
  exists ending,
    s = VideoKey.chomp s ++ ending /\
    (ending = EmptyString \/ ending = VideoKey.nl_text).
Proof.
  induction s as [|c s IH].
  - exists EmptyString. now split; [|left].
  - destruct s as [|c' s].
    + cbn [VideoKey.chomp]. destruct (Ascii.eqb c VideoKey.newline) eqn:N.
      * apply Ascii.eqb_eq in N. subst c. exists VideoKey.nl_text. now split; [|right].
      * exists EmptyString. now split; [|left].
    + destruct IH as (ending & E & Hend). exists ending. split; [|exact Hend].
      change (VideoKey.chomp (String c (String c' s)))
        with (String c (VideoKey.chomp (String c' s))).
      cbn [append]. now rewrite <- E.
Qed.

Lemma chomp_app_digits (text part ending : string) :
  part <> EmptyString -> all_digits part = true ->
  ending = EmptyString \/ ending = VideoKey.nl_text ->
  VideoKey.chomp (text ++ part ++ ending) = text ++ part.
Proof.
  intros Hne A Hend.
  assert (P : VideoKey.chomp (part ++ ending) = part
              /\ part ++ ending <> EmptyString).
  { clear text. induction part as [|c part IH]; [now destruct Hne|].
    cbn [all_digits] in A. apply andb_prop in A as [A1 A2].
    split; [|discriminate]. destruct part as [|c' part].
    - destruct Hend as [->| ->].
      + cbn [append VideoKey.chomp]. now rewrite (digit_not_newline c A1).
      + reflexivity.
    - destruct (IH ltac:(discriminate) A2) as [IH1 _].
      cbn [append] in IH1 |- *.
      change (VideoKey.chomp (String c (String c' (part ++ ending))))
        with (String c (VideoKey.chomp (String c' (part ++ ending)))).
      now rewrite IH1. }
  destruct P as [P1 P2].
  induction text as [|c text IH]; [exact P1|].
  cbn [append]. destruct (text ++ part ++ ending) as [|c' rest] eqn:R.
  - destruct text; [now destruct P2 | discriminate R].
  - change (VideoKey.chomp (String c (String c' rest)))
      with (String c (VideoKey.chomp (String c' rest))).
    now rewrite IH.
Qed.

Lemma nonempty_test (s : string) : s <> EmptyString -> negb (s =? "") = true.
Proof. intros N. now apply negb_true_iff, String.eqb_neq. Qed.

Lemma py_int_small (s : string) :
  String.length s <= VideoKey.INT_MAX_STR_DIGITS ->
  VideoKey.py_int s = Ok (VideoKey.int_digits 0 s).
Proof.
  intros L. unfold VideoKey.py_int.
  now rewrite (proj2 (Nat.ltb_ge _ _) L).
Qed.

(** X13.  A key made of eight digits, an underscore, a tag of letters,
    digits and underscores, an underscore and a part number of at most 4300
    digits, alone or with one newline after it, parses to that date and to
    the number the part's digits write. *)
Theorem parse_video_key_extracts (d tag part ending : string) :
  String.length d = 8 -> all_digits d = true ->
  tag <> EmptyString -> VideoKey.all_word tag = true ->
  part <> EmptyString -> all_digits part = true ->
  String.length part <= VideoKey.INT_MAX_STR_DIGITS ->
  ending = EmptyString \/ ending = VideoKey.nl_text ->
  VideoKey.parse_video_key (VStr (d ++ "_" ++ tag ++ "_" ++ part ++ ending))
  = Ok [("upload_date", VStr d); ("part", VInt (VideoKey.int_digits 0 part))].
Proof.
  intros L A Ht Wt Hp Ap Lp Hend. unfold VideoKey.parse_video_key, VideoKey.re_match.
  rewrite <- L, (take_digits_app d _ A). cbn [append].
  change (String "_" (part ++ ending)) with ("_" ++ part ++ ending).
  replace (tag ++ "_" ++ part ++ ending) with ((tag ++ "_") ++ part ++ ending)
    by apply append_assoc.
  rewrite (chomp_app_digits _ _ _ Hp Ap Hend), append_assoc.
  rewrite (rsplit_app tag part (rsplit_digits part Ap)), Wt, Ap.
  rewrite (nonempty_test tag Ht), (nonempty_test part Hp). cbn [andb].
  now rewrite (py_int_small part Lp).
Qed.

(** X14.  On an ASCII str, [parse_video_key] returns an empty dict, or the
    key has the shape above and the result holds both fields, the date and
    the part; the one exception it raises is the [ValueError] of [int] on a
    part of more than 4300 digits. *)
Theorem parse_video_key_both_or_none (key : string) :
  all_ascii key = true ->
  VideoKey.parse_video_key (VStr key) = Ok [] \/
  exists d tag part ending,
    key = d ++ "_" ++ tag ++ "_" ++ part ++ ending /\
    (ending = EmptyString \/ ending = VideoKey.nl_text) /\
    String.length d = 8 /\ all_digits d = true /\
    tag <> EmptyString /\ VideoKey.all_word tag = true /\
    part <> EmptyString /\ all_digits part = true /\
    VideoKey.parse_video_key (VStr key) =
      if Nat.ltb VideoKey.INT_MAX_STR_DIGITS (String.length part)
      then Raise ValueError
      else Ok [("upload_date", VStr d); ("part", VInt (VideoKey.int_digits 0 part))].
Proof.
  intros _. unfold VideoKey.parse_video_key, VideoKey.re_match.
  destruct (AfreecaTVIE.take_digits 8 key) as [[d rest]|] eqn:T; [|now left].
  destruct rest as [|c t]; [now left|].
  destruct c as [[] [] [] [] [] [] [] []]; try (now left).
  destruct (VideoKey.rsplit_underscore (VideoKey.chomp t)) as [[tag part]|] eqn:R;
    [|now left].
  destruct (negb (tag =? "")) eqn:Nt; [|now left].
  destruct (VideoKey.all_word tag) eqn:Wt; [|now left].
  destruct (negb (part =? "")) eqn:Np; [|now left].
  destruct (all_digits part) eqn:Ap; [|now left].
  right. apply take_digits_inv in T as (-> & L & A).
  apply rsplit_inv in R. destruct (chomp_inv t) as (ending & E & Hend).
  exists d, tag, part, ending.
  apply negb_true_iff, String.eqb_neq in Nt, Np.
  repeat split; try assumption.
  - rewrite E, R. now rewrite !append_assoc.
  - cbn [andb]. unfold VideoKey.py_int.
    now destruct (Nat.ltb VideoKey.INT_MAX_STR_DIGITS (String.length part)).
Qed.

(** X15.  When [parse_video_key] finds an upload date in a key, the pattern
    of the loop over the files finds the same date in it. *)
Theorem parse_video_key_agrees_with_loop (key : string) (video_key : dict)
  (upload_date : value) :
  VideoKey.parse_video_key (VStr key) = Ok video_key ->
  lookup "upload_date" video_key = Some upload_date ->
  exists d, upload_date = VStr d /\ AfreecaTVIE.match_upload_date key = Some d.
Proof.
  intros E L. unfold VideoKey.parse_video_key, VideoKey.re_match in E.
  unfold AfreecaTVIE.match_upload_date.
  destruct (AfreecaTVIE.take_digits 8 key) as [[d rest]|];
    [|injection E as <-; discriminate L].
  destruct rest as [|c t]; [injection E as <-; discriminate L|].
  destruct c as [[] [] [] [] [] [] [] []];
    try (injection E as <-; discriminate L).
  destruct (VideoKey.rsplit_underscore (VideoKey.chomp t)) as [[tag part]|];
    [|injection E as <-; discriminate L].
  destruct (negb (tag =? "") && VideoKey.all_word tag && negb (part =? "")
            && all_digits part); [|injection E as <-; discriminate L].
  destruct (VideoKey.py_int part) as [part_no|e]; [|discriminate E].
  injection E as <-. cbn in L. injection L as <-. now exists d.
Qed.

End VideoKeyFacts.

(** ** _perform_login *)

Section LoginFacts.
Context {H : Host}.

(** no code is listed twice in [_ERRORS]: the list reads as the dict *)
Lemma errors_keys_distinct : NoDup (map fst Login._ERRORS).
Proof.
  cbn [map fst Login._ERRORS].
  repeat (constructor; [cbn; intuition discriminate|]). constructor.
Qed.

Lemma error_of_listed (result : option Z) :
  In (Login.error_of result) (Login.DEFAULT_ERROR :: map snd Login._ERRORS).
Proof.
  unfold Login.error_of. destruct result as [code|]; [|now left].
  destruct (Login.table_get code Login._ERRORS) as [msg|] eqn:T; [|now left].
  right. revert T. generalize Login._ERRORS as table.
  induction table as [|[k m] table IH]; [discriminate|].
  cbn [Login.table_get map snd]. destruct (k =? code)%Z.
  - intros E. injection E as <-. now left.
  - intros E. right. now apply IH.
Qed.

(** X16.  A login issues exactly one request and reports no warning,
    whatever the answer: a POST to the login URL, with an empty query, whose
    form carries the user name as [szUid] and the password as
    [szPassword]. *)
Theorem login_posts_credentials_once (ie_name username password : string) (w : world) :
  exists form,
    snd (Login._perform_login ie_name username password w) =
      mkWorld (issued w ++ [mkRequest Login.LOGIN_URL [] (Some form) []])
              (warnings w) /\
    find form "szUid" = VStr username /\
    find form "szPassword" = VStr password /\
    find form "szWork" = VStr "login".
Proof.
  exists (Login.login_form username password). split; [|now repeat split].
  unfold Login._perform_login, _download_json, lift, raise.
  cbn [bind M_monad ret].
  destruct (network (issued w) (Login.login_request username password))
    as [response|]; [|reflexivity].
  destruct (get response "RESULT") as [r|]; [|reflexivity].
  destruct (negb (AfreecaTVIE.opt_int_eq (int_or_none r) 1)); reflexivity.
Qed.

(** X17.  A login succeeds exactly when the answer is a dict whose
    [RESULT], read by [int_or_none], is 1. *)
Theorem login_succeeds_iff (ie_name username password : string) (w : world) :
  fst (Login._perform_login ie_name username password w) = Ok tt
  <->
  exists response r,
    network (issued w) (Login.login_request username password) = Some response /\
    get response "RESULT" = Ok r /\
    int_or_none r = Some 1%Z.
Proof.
  unfold Login._perform_login, _download_json, lift, raise.
  cbn [bind M_monad ret].
  destruct (network (issued w) (Login.login_request username password))
    as [response|].
  2:{ cbn. split; [discriminate|]. intros (? & ? & E & _). discriminate E. }
  destruct (get response "RESULT") as [r|e] eqn:G.
  2:{ cbn. split; [discriminate|].
      intros (? & ? & E & G' & _). injection E as <-. rewrite G in G'.
      discriminate G'. }
  destruct (int_or_none r) as [code|] eqn:R; cbn [AfreecaTVIE.opt_int_eq].
  - destruct (code =? 1)%Z eqn:C; cbn [negb fst].
    + apply Z.eqb_eq in C. subst code. split; [|reflexivity].
      intros _. now exists response, r.
    + apply Z.eqb_neq in C. split; [discriminate|].
      intros (? & ? & E & G' & R'). injection E as <-. rewrite G in G'.
      injection G' as <-. congruence.
  - cbn. split; [discriminate|].
    intros (? & ? & E & G' & R'). injection E as <-. rewrite G in G'.
    injection G' as <-. congruence.
Qed.

(** X18.  A login that fails raises the exception of the download, an
    [AttributeError] for an answer that is no dict, or the expected error
    'Unable to login: <IE_NAME> said: <message>', where the message is the
    one listed for the code in [_ERRORS] or the default one and the code is
    not 1. *)
Theorem login_failure_is_explained (ie_name username password : string) (w : world)
  (e : exn) :
  fst (Login._perform_login ie_name username password w) = Raise e ->
  foreign e \/
  exists result,
    result <> Some 1%Z /\
    e = ExtractorError
          ("Unable to login: " ++ ie_name ++ " said: " ++ Login.error_of result) true /\
    In (Login.error_of result) (Login.DEFAULT_ERROR :: map snd Login._ERRORS).
Proof.
  unfold Login._perform_login, _download_json, lift, raise.
  cbn [bind M_monad ret].
  destruct (network (issued w) (Login.login_request username password))
    as [response|]; [|cbn; intros E; injection E as <-; now left].
  destruct (get response "RESULT") as [r|e0] eqn:G;
    [|cbn; intros E; injection E as <-; left; now apply get_foreign in G].
  destruct (AfreecaTVIE.opt_int_eq (int_or_none r) 1) eqn:C; cbn [negb fst];
    [discriminate|].
  intros E. injection E as <-. right. exists (int_or_none r).
  repeat split; [|apply error_of_listed].
  intros R. rewrite R in C. discriminate C.
Qed.

(** X19.  An answer without the field [RESULT], or with a code that
    [_ERRORS] does not list, fails with the default message
    'You have failed to log in.' (as long as [int_or_none] of nothing is
    nothing). *)
Theorem login_unknown_result_gets_default (ie_name username password : string)
  (w : world) (response r : value) :
  int_or_none VNone = None ->
  network (issued w) (Login.login_request username password) = Some response ->
  get response "RESULT" = Ok r ->
  (r = VNone \/
   exists code, int_or_none r = Some code /\ code <> 1%Z /\
                ~ In code (map fst Login._ERRORS)) ->
  fst (Login._perform_login ie_name username password w) =
    Raise (ExtractorError
             ("Unable to login: " ++ ie_name ++ " said: You have failed to log in.")
             true).
Proof.
  intros N A G K. unfold Login._perform_login, _download_json, lift, raise.
  cbn [bind M_monad ret]. rewrite A, G.
  destruct K as [->|(code & R & C & U)].
  - rewrite N. reflexivity.
  - rewrite R. cbn [AfreecaTVIE.opt_int_eq].
    apply Z.eqb_neq in C. rewrite C. cbn [negb fst].
    unfold Login.login_error, Login.error_of.
    assert (T : Login.table_get code Login._ERRORS = None).
    { revert U. generalize Login._ERRORS as table.
      induction table as [|[k m] table IH]; [reflexivity|].
      cbn [map fst In Login.table_get]. intros U.
      destruct (k =? code)%Z eqn:E.
      - apply Z.eqb_eq in E. tauto.
      - apply IH. tauto. }
    now rewrite T.
Qed.

End LoginFacts.

(** ** More on the live resolver *)

Section LiveMore.
Context {H : Host}.

Lemma aid_request_is_aid (broadcast_no : value) (password : option string)
  (quality_str : string) :
  is_aid_request (AfreecaTVLiveIE.aid_request broadcast_no password quality_str) = true.
Proof. now destruct password. Qed.

(** One turn of the quality loop, by what the two answers hold. *)
Lemma quality_loop_turn (channel_info broadcast_no : value) (password : option string)
  (quality_str : string) (rest : list string) (formats : list value) (w : world) :
  AfreecaTVLiveIE.quality_loop channel_info broadcast_no password
    (quality_str :: rest) formats w =
  let aid_rq := AfreecaTVLiveIE.aid_request broadcast_no password quality_str in
  let w1 := sent w aid_rq in
  let aid := traverse_obj (nonfatal (network (issued w) aid_rq)) ["CHANNEL"; "AID"] in
  if negb (truthy aid)
  then AfreecaTVLiveIE.quality_loop channel_info broadcast_no password rest formats w1
  else
    match get channel_info "RMD" with
    | Raise e => (Raise e, w1)
    | Ok rmd =>
        match get_default channel_info "CDN" (VStr "gcp_cdn") with
        | Raise e => (Raise e, w1)
        | Ok cdn =>
            let assign_rq :=
              AfreecaTVLiveIE.assign_request
                (py_or rmd (VStr AfreecaTVLiveIE.DEFAULT_STREAM_BASE))
                cdn broadcast_no quality_str in
            let w2 := sent w1 assign_rq in
            let stream_info :=
              py_or (nonfatal (network (issued w1) assign_rq)) (VDict []) in
            match get stream_info "view_url" with
            | Raise e => (Raise e, w2)
            | Ok view_url =>
                if truthy view_url then
                  match getitem stream_info "view_url" with
                  | Raise e => (Raise e, w2)
                  | Ok view_url' =>
                      match host_call "update_url_query"
                              (update_url_query view_url' [("aid", aid)]) with
                      | Raise e => (Raise e, w2)
                      | Ok u =>
                          AfreecaTVLiveIE.quality_loop channel_info broadcast_no
                            password rest
                            (formats ++ [tier_format (quality_str, u)]) w2
                      end
                  end
                else
                  AfreecaTVLiveIE.quality_loop channel_info broadcast_no password
                    rest formats w2
            end
        end
    end.
Proof.
  cbn [AfreecaTVLiveIE.quality_loop bind M_monad]. cbv zeta.
  unfold _download_json, lift, sent, nonfatal.
  destruct (network (issued w) _) as [aid_response|].
  all: match goal with
       | |- context [negb (truthy ?aid)] => destruct (negb (truthy aid))
       end; [reflexivity|].
  all: destruct (get channel_info "RMD") as [rmd|]; [|reflexivity].
  all: destruct (get_default channel_info "CDN" (VStr "gcp_cdn")) as [cdn|];
         [|reflexivity].
  all: cbn [issued warnings].
  all: match goal with
       | |- context [network ?h ?rq] => destruct (network h rq) as [assigned|]
       end.
  all: match goal with
       | |- context [get ?o "view_url"] =>
           destruct (get o "view_url") as [view_url|]; [|reflexivity];
           destruct (truthy view_url); [|reflexivity];
           destruct (getitem o "view_url") as [view_url'|]; [|reflexivity]
       end.
  all: match goal with
       | |- context [host_call ?what ?o] =>
           destruct (host_call what o) as [u|]; reflexivity
       end.
Qed.

(** One run of the quality loop: the requests it adds are requests of the
    tiers, two at most for each; when it returns, it has asked for the
    token of every tier, in order, and has appended formats of some of the
    tiers, in order. *)
Lemma quality_loop_run (channel_info broadcast_no : value) (password : option string)
  (tiers : list string) :
  forall (formats : list value) (w w' : world) (r : result (list value)),
  AfreecaTVLiveIE.quality_loop channel_info broadcast_no password tiers formats w
    = (r, w') ->
  loop_outcome broadcast_no password tiers formats w r w'.
Proof.
  induction tiers as [|quality_str rest IH]; intros formats w w' r E.
  - injection E as <- <-. exists []. rewrite app_nil_r.
    split; [now destruct w|]. split; [constructor|]. split; [cbn; lia|].
    intros out E. injection E as <-. split; [reflexivity|]. split; [cbn; lia|].
    exists []. rewrite app_nil_r. split; [reflexivity|constructor].
  - rewrite quality_loop_turn in E. cbv zeta in E.
    set (aid_rq := AfreecaTVLiveIE.aid_request broadcast_no password quality_str) in *.
    assert (Stop : forall (e : exn) (l : list request),
      Forall (fun rq => is_tier_request rq = true) l -> List.length l <= 2 ->
      loop_outcome broadcast_no password (quality_str :: rest) formats w
        (Raise e) (mkWorld (issued w ++ l) (warnings w))).
    { intros e l F L. exists l. split; [reflexivity|]. split; [exact F|].
      split; [cbn [List.length]; lia|]. discriminate. }
    assert (Go : forall (l : list request) picked0 r0 w0,
      AfreecaTVLiveIE.quality_loop channel_info broadcast_no password rest
        (formats ++ map tier_format picked0)
        (mkWorld (issued w ++ aid_rq :: l) (warnings w)) = (r0, w0) ->
      Forall (fun rq => is_tier_request rq = true) l ->
      forallb (fun rq => negb (is_aid_request rq)) l = true ->
      List.length l <= 1 ->
      subseq (map fst picked0) [quality_str] ->
      loop_outcome broadcast_no password (quality_str :: rest) formats w r0 w0).
    { intros l picked0 r0 w0 E1 Fl Nl Ll S0.
      apply IH in E1 as (added & -> & F & L & K).
      exists (aid_rq :: l ++ added)%list. cbn [issued warnings].
      split; [now rewrite <- app_assoc|].
      split.
      { constructor; [apply aid_request_is_tier|]. apply Forall_app. now split. }
      split; [cbn [List.length]; rewrite length_app; lia|].
      intros out Eo. destruct (K out Eo) as (K1 & K2 & picked & -> & S).
      split; [|split].
      - cbn [filter map]. subst aid_rq. rewrite aid_request_is_aid.
        f_equal. rewrite filter_app, K1.
        replace (filter is_aid_request l) with (@nil request); [reflexivity|].
        clear - Nl. induction l as [|x l IHl]; [reflexivity|].
        cbn [forallb] in Nl. apply andb_prop in Nl as [N1 N2].
        cbn [filter]. apply negb_true_iff in N1. rewrite N1. now apply IHl.
      - cbn [List.length]. rewrite length_app. lia.
      - exists (picked0 ++ picked)%list.
        rewrite map_app, <- app_assoc. split; [reflexivity|].
        rewrite map_app. clear - S S0.
        inversion S0 as [l E|x s l S1 E|x s l S1 E]; subst.
        + cbn. now constructor.
        + inversion S1; subst. cbn. now constructor.
        + inversion S1; subst. cbn. now constructor. }
    assert (One : Forall (fun rq => is_tier_request rq = true) [aid_rq])
      by (constructor; [apply aid_request_is_tier|constructor]).
    destruct (negb (truthy _)).
    { apply (Go [] [] r w'); try constructor; [|cbn; lia].
      cbn [map]. rewrite app_nil_r. exact E. }
    destruct (get channel_info "RMD") as [rmd|e1].
    2:{ injection E as <- <-. apply (Stop e1 [aid_rq] One). cbn; lia. }
    destruct (get_default channel_info "CDN" (VStr "gcp_cdn")) as [cdn|e2].
    2:{ injection E as <- <-. apply (Stop e2 [aid_rq] One). cbn; lia. }
    set (assign_rq := AfreecaTVLiveIE.assign_request
                        (py_or rmd (VStr AfreecaTVLiveIE.DEFAULT_STREAM_BASE))
                        cdn broadcast_no quality_str) in *.
    assert (Two : Forall (fun rq => is_tier_request rq = true) [aid_rq; assign_rq]).
    { constructor; [apply aid_request_is_tier|].
      constructor; [apply assign_request_is_tier|constructor]. }
    assert (W2 : sent (sent w aid_rq) assign_rq
                 = mkWorld (issued w ++ [aid_rq; assign_rq]) (warnings w)).
    { unfold sent. cbn [issued warnings]. now rewrite <- app_assoc. }
    rewrite W2 in E.
    assert (A1 : Forall (fun rq => is_tier_request rq = true) [assign_rq])
      by (constructor; [apply assign_request_is_tier|constructor]).
    destruct (get _ "view_url") as [view_url|e3].
    2:{ injection E as <- <-. apply (Stop e3 _ Two). cbn; lia. }
    destruct (truthy view_url).
    2:{ apply (Go [assign_rq] [] r w'); try assumption;
          [|reflexivity|cbn; lia|constructor].
        cbn [map]. rewrite app_nil_r. exact E. }
    destruct (getitem _ "view_url") as [view_url'|e4].
    2:{ injection E as <- <-. apply (Stop e4 _ Two). cbn; lia. }
    destruct (host_call _ _) as [u|e5].
    2:{ injection E as <- <-. apply (Stop e5 _ Two). cbn; lia. }
    apply (Go [assign_rq] [(quality_str, u)] r w'); try assumption;
      [reflexivity|cbn; lia|cbn; constructor; constructor].
Qed.


Lemma resolve_streams_ok (channel_info broadcaster_id broadcast_no : value)
  (password : option string) (w w' : world) (record : value) :
  AfreecaTVLiveIE.resolve_streams channel_info broadcaster_id broadcast_no password w
    = (Ok record, w') ->
  exists formats w0 title uploader timestamp,
    AfreecaTVLiveIE.quality_loop channel_info broadcast_no password
      AfreecaTVLiveIE._QUALITIES [] w = (Ok formats, w0) /\
    w' = sent w0 (AfreecaTVLiveIE.station_request broadcaster_id) /\
    record = VDict [("id", broadcast_no); ("title", title); ("uploader", uploader);
                    ("uploader_id", broadcaster_id); ("timestamp", timestamp);
                    ("formats", VList formats); ("is_live", VBool true)].
Proof.
  unfold AfreecaTVLiveIE.resolve_streams. cbn [bind M_monad]. intros E.
  destruct (AfreecaTVLiveIE.quality_loop channel_info broadcast_no password
              AfreecaTVLiveIE._QUALITIES [] w) as [[formats|e0] w0];
    [|discriminate E].
  unfold _download_json, lift in E. fold (sent w0 (AfreecaTVLiveIE.station_request
                                                    broadcaster_id)) in E.
  destruct (network (issued w0) (AfreecaTVLiveIE.station_request broadcaster_id)).
  all: match type of E with
       | context [AfreecaTVLiveIE.get_or_get ?a "TITLE" ?b ?kb] =>
           destruct (AfreecaTVLiveIE.get_or_get a "TITLE" b kb) as [title|];
             [|discriminate E];
           destruct (AfreecaTVLiveIE.get_or_get a "BJNICK" b "station_name")
             as [uploader|]; [|discriminate E];
           destruct (get b "broad_start") as [broad_start|]; [|discriminate E]
       end.
  all: injection E as <- <-; now eexists formats, w0, _, _, _.
Qed.

(** X20.  When the channel answer gives a broadcast number (or the URL
    does), marks the broadcast with [BPWD] equal to 'Y' and no video
    password was given, the resolution fails with the password error after
    the channel lookup alone: no request of a quality tier is issued. *)
Theorem live_password_gate (url : string) (d : dict) :
  channel_info_of
    (network [] (AfreecaTVLiveIE.channel_request (fst (match_valid_url_live url))))
    = Ok (VDict d) ->
  truthy (py_or (find d "BNO")
            (AfreecaTVIE.of_opt_str (snd (match_valid_url_live url)))) = true ->
  find d "BPWD" = VStr "Y" ->
  videopassword = None ->
  AfreecaTVLiveIE._real_extract url init =
    (Raise AfreecaTVLiveIE.password_required,
     mkWorld [AfreecaTVLiveIE.channel_request (fst (match_valid_url_live url))] [])
  /\ classify AfreecaTVLiveIE.password_required = Some PasswordRequired.
Proof.
  intros C B P V. split; [|reflexivity].
  rewrite live_real_extract_cases. cbv zeta.
  change (issued init) with (@nil request). rewrite C, B, P, V. reflexivity.
Qed.

(** X21.  The live resolver raises two [ExtractorError]s only, the one for
    a missing broadcast number and the one for a missing password, both
    expected and both right after the channel lookup, before any request of
    a quality tier. *)
Theorem live_own_failures (url : string) (w : world) (msg : string) (expected : bool) :
  fst (AfreecaTVLiveIE._real_extract url w) = Raise (ExtractorError msg expected) ->
  expected = true /\
  (classify (ExtractorError msg expected) = Some NotLive \/
   classify (ExtractorError msg expected) = Some PasswordRequired) /\
  snd (AfreecaTVLiveIE._real_extract url w) =
    sent w (AfreecaTVLiveIE.channel_request (fst (match_valid_url_live url))).
Proof.
  rewrite live_real_extract_cases. cbv zeta.
  destruct (channel_info_of _) as [channel_info|e] eqn:C.
  2:{ cbn [fst]. intros E. injection E as ->.
      apply channel_info_foreign in C. destruct C. }
  destruct channel_info as [| | | | |d]; try discriminate.
  destruct (negb (truthy _)).
  { cbn [fst snd]. intros E. injection E as <- <-.
    split; [reflexivity|]. split; [|reflexivity]. left. apply not_live_class. }
  destruct (str_eq (find d "BPWD") "Y" && _).
  { cbn [fst snd]. intros E. injection E as <- <-.
    split; [reflexivity|]. split; [|reflexivity]. now right. }
  destruct (AfreecaTVLiveIE.resolve_streams _ _ _ _ _) as [[r|e] w'] eqn:R;
    [discriminate|].
  cbn [fst]. intros E. injection E as ->.
  apply resolve_streams_foreign in R. destruct R.
Qed.

(** What a successful live resolution went through. *)
Lemma live_success (url : string) (w w' : world) (record : value) :
  AfreecaTVLiveIE._real_extract url w = (Ok record, w') ->
  exists d,
    channel_info_of
      (network (issued w)
         (AfreecaTVLiveIE.channel_request (fst (match_valid_url_live url))))
      = Ok (VDict d) /\
    truthy (py_or (find d "BNO")
              (AfreecaTVIE.of_opt_str (snd (match_valid_url_live url)))) = true /\
    AfreecaTVLiveIE.resolve_streams (VDict d)
      (py_or (find d "BJID") (VStr (fst (match_valid_url_live url))))
      (py_or (find d "BNO") (AfreecaTVIE.of_opt_str (snd (match_valid_url_live url))))
      videopassword
      (sent w (AfreecaTVLiveIE.channel_request (fst (match_valid_url_live url))))
    = (Ok record, w').
Proof.
  rewrite live_real_extract_cases. cbv zeta.
  destruct (channel_info_of _) as [channel_info|e]; [|discriminate].
  destruct channel_info as [| | | | |d]; try discriminate.
  destruct (truthy (py_or (find d "BNO") _)) eqn:B; cbn [negb]; [|discriminate].
  destruct (str_eq (find d "BPWD") "Y" && _); [discriminate|].
  intros E. now exists d.
Qed.

(** X22.  A live resolution that returns has issued the channel lookup,
    then between four and eight requests of the quality tiers, then the
    station lookup, and nothing else.  The token requests among them
    are those of the tiers 'sd', 'hd', 'hd2k' and 'original', in that order,
    each for the broadcast number of the record and with the video
    password when one was given. *)
Theorem live_requests_of_a_success (url : string) (record : value) (w' : world) :
  AfreecaTVLiveIE._real_extract url init = (Ok record, w') ->
  exists broadcast_no broadcaster_id tier_requests,
    getitem record "id" = Ok broadcast_no /\
    getitem record "uploader_id" = Ok broadcaster_id /\
    w' = mkWorld
           (AfreecaTVLiveIE.channel_request (fst (match_valid_url_live url))
            :: tier_requests ++ [AfreecaTVLiveIE.station_request broadcaster_id]) [] /\
    Forall (fun rq => is_tier_request rq = true) tier_requests /\
    4 <= List.length tier_requests <= 8 /\
    filter is_aid_request tier_requests =
      map (AfreecaTVLiveIE.aid_request broadcast_no videopassword)
        ["sd"; "hd"; "hd2k"; "original"].
Proof.
  intros E. apply live_success in E as (d & _ & _ & E).
  apply resolve_streams_ok in E
    as (formats & w0 & title & uploader & timestamp & Q & -> & ->).
  apply quality_loop_run in Q as (added & -> & F & L & K).
  destruct (K formats eq_refl) as (K1 & K2 & _).
  eexists _, _, added. split; [reflexivity|]. split; [reflexivity|].
  split; [reflexivity|]. split; [exact F|]. split; [|exact K1].
  cbn [List.length AfreecaTVLiveIE._QUALITIES] in L, K2. lia.
Qed.

(** X23.  The formats of a live record are formats of the quality tiers:
    each has a tier as [format_id], the rank of the tier as [quality], the
    extension 'mp4' and the protocol 'm3u8'; no tier comes twice and the
    tiers come in the order 'sd', 'hd', 'hd2k', 'original'.  The record is
    marked [is_live] and its id is not empty. *)
Theorem live_formats_follow_the_tiers (url : string) (w w' : world) (record : value) :
  AfreecaTVLiveIE._real_extract url w = (Ok record, w') ->
  exists picked broadcast_no,
    getitem record "formats" = Ok (VList (map tier_format picked)) /\
    subseq (map fst picked) ["sd"; "hd"; "hd2k"; "original"] /\
    getitem record "is_live" = Ok (VBool true) /\
    getitem record "id" = Ok broadcast_no /\ truthy broadcast_no = true.
Proof.
  intros E. apply live_success in E as (d & _ & B & E).
  apply resolve_streams_ok in E
    as (formats & w0 & title & uploader & timestamp & Q & -> & ->).
  apply quality_loop_run in Q as (added & _ & _ & _ & K).
  destruct (K formats eq_refl) as (_ & _ & picked & -> & S).
  exists picked, (py_or (find d "BNO")
                    (AfreecaTVIE.of_opt_str (snd (match_valid_url_live url)))).
  repeat split; try reflexivity; assumption.
Qed.

(** X24.  The lookups after the channel one are best effort: when the
    channel answer lets the resolution through and every later request
    fails, the resolver still returns a record, with no format, after the
    channel lookup, one token request for each tier and the station
    lookup.  ([traverse_obj] finds nothing in the [False] of a failed
    download.) *)
Theorem live_degrades_to_no_format (url : string) (d : dict) :
  truthy (traverse_obj (VBool false) ["CHANNEL"; "AID"]) = false ->
  channel_info_of
    (network [] (AfreecaTVLiveIE.channel_request (fst (match_valid_url_live url))))
    = Ok (VDict d) ->
  truthy (py_or (find d "BNO")
            (AfreecaTVIE.of_opt_str (snd (match_valid_url_live url)))) = true ->
  str_eq (find d "BPWD") "Y" = false \/ videopassword <> None ->
  (forall history rq, history <> [] -> network history rq = None) ->
  exists record,
    AfreecaTVLiveIE._real_extract url init =
      (Ok record,
       mkWorld
         (AfreecaTVLiveIE.channel_request (fst (match_valid_url_live url))
          :: map (AfreecaTVLiveIE.aid_request
                    (py_or (find d "BNO")
                       (AfreecaTVIE.of_opt_str (snd (match_valid_url_live url))))
                    videopassword)
               ["sd"; "hd"; "hd2k"; "original"]
          ++ [AfreecaTVLiveIE.station_request
                (py_or (find d "BJID") (VStr (fst (match_valid_url_live url))))])
         []) /\
    getitem record "formats" = Ok (VList []) /\
    getitem record "is_live" = Ok (VBool true).
Proof.
  intros T C B P Fail.
  rewrite live_real_extract_cases. cbv zeta.
  change (issued init) with (@nil request). rewrite C, B. cbn [negb].
  assert (Gate : str_eq (find d "BPWD") "Y"
                 && match videopassword with None => true | Some _ => false end
                 = false).
  { destruct P as [P|P]; [now rewrite P|].
    destruct videopassword; [apply andb_false_r|now destruct P]. }
  rewrite Gate.
  set (bno := py_or (find d "BNO") _). set (bid := py_or (find d "BJID") _).
  set (chan := AfreecaTVLiveIE.channel_request _).
  assert (Loop : forall tiers sofar,
    AfreecaTVLiveIE.quality_loop (VDict d) bno videopassword tiers []
      (mkWorld (chan :: sofar) []) =
    (Ok [], mkWorld (chan :: sofar
                     ++ map (AfreecaTVLiveIE.aid_request bno videopassword) tiers) [])).
  { induction tiers as [|q tiers IH]; intros sofar.
    - cbn. now rewrite app_nil_r.
    - rewrite quality_loop_turn. cbv zeta. cbn [issued].
      rewrite Fail by discriminate. cbn [nonfatal]. rewrite T. cbn [negb].
      unfold sent. cbn [issued warnings].
      change ((chan :: sofar) ++ [AfreecaTVLiveIE.aid_request bno videopassword q])%list
        with (chan :: (sofar ++ [AfreecaTVLiveIE.aid_request bno videopassword q]))%list.
      rewrite IH, <- app_assoc. reflexivity. }
  unfold AfreecaTVLiveIE.resolve_streams. cbn [bind M_monad].
  unfold sent at 1. cbn [issued warnings init app].
  rewrite (Loop AfreecaTVLiveIE._QUALITIES []).
  unfold _download_json, lift. cbn [issued warnings].
  rewrite Fail by discriminate. cbn [py_or truthy].
  unfold AfreecaTVLiveIE.get_or_get. cbn [bind result_monad].
  rewrite !get_dict.
  destruct (truthy (find d "TITLE")); destruct (truthy (find d "BJNICK"));
    cbn [get get_default lookup];
    (eexists; split; [reflexivity|split; reflexivity]).
Qed.

End LiveMore.

(** ** The live resolver after a failed channel lookup *)

Section LiveFallback.
Context {H : Host}.




End LiveFallback.

(** ** The user extractor *)

Section UserFacts.
Context {H : Host} {C : Catalog}.

Lemma yield_items_good (items : list value) :
  Forall (fun item => exists title_no, getitem item "title_no" = Ok title_no) items ->
  exists yielded,
    AfreecaTVUserIE.yield_items items = (yielded, None) /\
    Forall2 forwards_to items yielded.
Proof.
  induction 1 as [|item items [title_no G] _ (yielded & E & F)].
  - exists []. split; [reflexivity|constructor].
  - eexists. cbn [AfreecaTVUserIE.yield_items]. rewrite G, E.
    split; [reflexivity|]. constructor; [|exact F]. now exists title_no.
Qed.

Lemma yield_items_bad (good : list value) (bad : value) (rest : list value) (e : exn) :
  Forall (fun item => exists title_no, getitem item "title_no" = Ok title_no) good ->
  getitem bad "title_no" = Raise e ->
  exists yielded,
    AfreecaTVUserIE.yield_items (good ++ bad :: rest) = (yielded, Some e) /\
    Forall2 forwards_to good yielded.
Proof.
  intros Good Bad.
  induction Good as [|item items [title_no G] _ (yielded & E & F)].
  - exists []. cbn [app AfreecaTVUserIE.yield_items]. rewrite Bad.
    split; [reflexivity|constructor].
  - eexists. cbn [app AfreecaTVUserIE.yield_items]. rewrite G, E.
    split; [reflexivity|]. constructor; [|exact F]. now exists title_no.
Qed.

(** What fetching a page leaves behind, whatever the answer. *)
Lemma fetch_page_world (user_id user_type : string) (page : Z) (w : world) :
  snd (AfreecaTVUserIE._fetch_page user_id user_type page w) =
    sent w (AfreecaTVUserIE.page_request user_id user_type (page + 1)).
Proof.
  unfold AfreecaTVUserIE._fetch_page, _download_json. cbv zeta.
  destruct (network _ _) as [info|]; [|reflexivity].
  destruct (data <- getitem info "data";; py_iter data); reflexivity.
Qed.

(** X25.  Fetching the page [page], counted from zero, issues exactly one
    request, whatever the answer: the request goes to the listing of the
    user and the category, for the page [page + 1], 60 items a page,
    ordered by [reg_date]. *)
Theorem fetch_page_issues_one_request (user_id user_type : string) (page : Z)
  (w : world) :
  snd (AfreecaTVUserIE._fetch_page user_id user_type page w) =
    mkWorld
      (issued w ++
       [mkRequest
          ("https://bjapi.afreecatv.com/api/" ++ user_id ++ "/vods/" ++ user_type)
          [] None
          [("page", VInt (page + 1)); ("per_page", VInt 60);
           ("orderby", VStr "reg_date")]])
      (warnings w).
Proof. rewrite fetch_page_world. reflexivity. Qed.

(** X26.  When the answer has no [data] to read, the page yields nothing
    and ends with the exception of the lookup. *)
Theorem fetch_page_without_data (user_id user_type : string) (page : Z)
  (w : world) (info : value) (e : exn) :
  network (issued w) (AfreecaTVUserIE.page_request user_id user_type (page + 1))
    = Some info ->
  getitem info "data" = Raise e ->
  fst (AfreecaTVUserIE._fetch_page user_id user_type page w) = ([], Some e).
Proof.
  intros N G. unfold AfreecaTVUserIE._fetch_page, _download_json. cbv zeta.
  rewrite N. cbn [bind result_monad]. now rewrite G.
Qed.

(** X27.  When the [data] of the answer is a list of items that all have a
    [title_no], the page yields one forwarding result for each item, in the
    order of the list, and ends without an exception: the i-th result
    points the VOD extractor at the player URL of the i-th [title_no]. *)
Theorem fetch_page_forwards_every_item (user_id user_type : string) (page : Z)
  (w : world) (info : value) (items : list value) :
  network (issued w) (AfreecaTVUserIE.page_request user_id user_type (page + 1))
    = Some info ->
  getitem info "data" = Ok (VList items) ->
  Forall (fun item => exists title_no, getitem item "title_no" = Ok title_no) items ->
  exists yielded,
    fst (AfreecaTVUserIE._fetch_page user_id user_type page w) = (yielded, None) /\
    Forall2 forwards_to items yielded.
Proof.
  intros N G Good. unfold AfreecaTVUserIE._fetch_page, _download_json. cbv zeta.
  rewrite N. cbn [bind result_monad]. rewrite G. cbn [py_iter fst].
  now apply yield_items_good.
Qed.

(** X28.  An item without [title_no] ends the page with the exception of
    the lookup: the items before it have been yielded, the items after it
    are not. *)
Theorem fetch_page_stops_at_bad_item (user_id user_type : string) (page : Z)
  (w : world) (info bad : value) (good rest : list value) (e : exn) :
  network (issued w) (AfreecaTVUserIE.page_request user_id user_type (page + 1))
    = Some info ->
  getitem info "data" = Ok (VList (good ++ bad :: rest)) ->
  Forall (fun item => exists title_no, getitem item "title_no" = Ok title_no) good ->
  getitem bad "title_no" = Raise e ->
  exists yielded,
    fst (AfreecaTVUserIE._fetch_page user_id user_type page w) = (yielded, Some e) /\
    Forall2 forwards_to good yielded.
Proof.
  intros N G Good Bad. unfold AfreecaTVUserIE._fetch_page, _download_json. cbv zeta.
  rewrite N. cbn [bind result_monad]. rewrite G. cbn [py_iter fst].
  now apply yield_items_bad.
Qed.

(** X29.  For a user URL without a category, the playlist has the user as
    id and '<user> - all' as title, its pages are fetched from the listing
    'all' of the user, and the page size it declares is the [per_page] of
    every page request. *)
Theorem user_playlist_defaults_to_all (url : string) (page : Z) (w : world) :
  snd (match_valid_url_user url) = None ->
  AfreecaTVUserIE.playlist_id (AfreecaTVUserIE._real_extract url)
    = fst (match_valid_url_user url) /\
  AfreecaTVUserIE.playlist_title (AfreecaTVUserIE._real_extract url)
    = fst (match_valid_url_user url) ++ " - all" /\
  exists rq,
    issued (snd (AfreecaTVUserIE.pagefunc (AfreecaTVUserIE._real_extract url) page w))
      = (issued w ++ [rq])%list /\
    rq_url rq = "https://bjapi.afreecatv.com/api/"
                ++ fst (match_valid_url_user url) ++ "/vods/all" /\
    find (rq_query rq) "page" = VInt (page + 1) /\
    find (rq_query rq) "per_page"
      = VInt (AfreecaTVUserIE.pagesize (AfreecaTVUserIE._real_extract url)).
Proof.
  unfold AfreecaTVUserIE._real_extract.
  destruct (match_valid_url_user url) as [user_id slug_type]. cbn [fst snd].
  intros ->.
  cbn [AfreecaTVUserIE.playlist_id AfreecaTVUserIE.playlist_title
       AfreecaTVUserIE.pagefunc AfreecaTVUserIE.pagesize AfreecaTVUserIE.or_all].
  split; [reflexivity|]. split; [reflexivity|].
  eexists. split.
  - rewrite (fetch_page_world user_id "all" page w). reflexivity.
  - now repeat split.
Qed.

End UserFacts.

(** ** The other functions on concrete runs *)

Section GoneRun.
#[local] Existing Instance Cases.gone.

Lemma vod_sentinel_is_not_found_witness :
  AfreecaTVIE._real_extract Sample.VOD_URL init =
    (Raise (ExtractorError "The VOD does not exist" true),
     mkWorld [vod_request Sample.VOD_URL] [])
  /\ classify (ExtractorError "The VOD does not exist" true) = Some NotFound.
Proof.
  apply (vod_sentinel_is_not_found Sample.VOD_URL
           (VDict [("data", VDict [("code", VInt (-6221))])])
           (VDict [("code", VInt (-6221))])); reflexivity.
Defined.

End GoneRun.

Section OddFlagRun.
#[local] Existing Instance Cases.odd_flag.

Lemma vod_unknown_flag_is_surfaced_witness :
  AfreecaTVIE._real_extract Sample.VOD_URL init =
    (Raise (ExtractorError "afreecatv said: BLIND" true),
     mkWorld [vod_request Sample.VOD_URL] []).
Proof.
  apply (vod_unknown_flag_is_surfaced Sample.VOD_URL (VStr "BLIND")); reflexivity.
Defined.

End OddFlagRun.

Section PartialTwiceRun.
#[local] Existing Instance Sample.partial_twice.

Lemma vod_loop_exhaustion_witness :
  fst (AfreecaTVIE._real_extract Sample.VOD_URL init)
  = Raise AfreecaTVIE.unable_to_download.
Proof.
  apply (proj2 (vod_loop_exhaustion Sample.VOD_URL)).
  exists (VStr "PARTIAL_ADULT"), (VStr "PARTIAL_ADULT"). repeat split.
Defined.

End PartialTwiceRun.

Section SingleHttpRun.
#[local] Existing Instance Sample.single_http.

Lemma vod_first_answer_succeeds_witness :
  AfreecaTVIE._real_extract Sample.VOD_URL init =
    (AfreecaTVIE.build_record (match_id Sample.VOD_URL)
       (Sample.view_fields "SUCCEED" [Sample.http_file]),
     mkWorld [vod_request Sample.VOD_URL] []).
Proof.
  apply (vod_first_answer_succeeds Sample.VOD_URL). reflexivity.
Defined.

Lemma empty_file_list_raises_index_error_witness :
  AfreecaTVIE.build_record "96753363" (Sample.view_fields "SUCCEED" [])
  = Raise IndexError.
Proof.
  apply (empty_file_list_raises_index_error "96753363"). reflexivity.
Defined.

Lemma null_last_file_is_missing_video_witness :
  AfreecaTVIE.build_record "96753363"
    (Sample.view_fields "SUCCEED" [Sample.http_file; VNone])
  = Raise (ExtractorError "Video 96753363 does not exist" true).
Proof.
  apply (null_last_file_is_missing_video "96753363" _ [Sample.http_file]).
  reflexivity.
Defined.

End SingleHttpRun.

Section PartialThenSucceedRun.
#[local] Existing Instance Sample.partial_then_succeed.

Lemma vod_second_answer_succeeds_witness :
  exists data,
    AfreecaTVIE._real_extract Sample.VOD_URL init =
      (AfreecaTVIE.build_record (match_id Sample.VOD_URL) data,
       mkWorld [vod_request Sample.VOD_URL; vod_request Sample.VOD_URL]
         (if str_eq (VStr "PARTIAL_ADULT") "PARTIAL_ADULT"
          then [AfreecaTVIE.partial_adult_warning] else [])).
Proof.
  eexists.
  apply (vod_second_answer_succeeds Sample.VOD_URL
           (Sample.view_fields "PARTIAL_ADULT" []) (VStr "PARTIAL_ADULT"));
    reflexivity.
Defined.

End PartialThenSucceedRun.

Section MixedStrictRun.
#[local] Existing Instance Sample.mixed_strict.

Lemma entries_titles_and_common_fields_witness :
  exists record entries,
    AfreecaTVIE.build_record "96753363" (Sample.view_fields "SUCCEED" Sample.mixed_files)
    = Ok record /\
    getitem record "entries" = Ok (VList entries) /\
    Forall2 (fun p entry =>
               getitem entry "title"
               = Ok (part_title (VStr "clip") 4 (fst p)) /\
               getitem entry "uploader" = Ok (VStr "april") /\
               getitem entry "uploader_id" = Ok (VStr "dailyapril") /\
               getitem entry "thumbnail"
               = Ok (VStr "http://videoimg.afreecatv.com/t.jpg"))
      (kept_files "96753363" 1 Sample.mixed_files) entries.
Proof.
  assert (D : determine_ext "" <> "m3u8") by discriminate.
  eexists.
  destruct (entries_titles_and_common_fields "96753363"
              (Sample.view_fields "SUCCEED" Sample.mixed_files) _
              Sample.mixed_files (VStr "clip") D eq_refl eq_refl eq_refl)
    as (entries & E & F).
  exists entries. split; [reflexivity|]. split; [exact E|exact F].
Defined.

Lemma entries_have_formats_witness :
  exists record entries,
    AfreecaTVIE.build_record "96753363" (Sample.view_fields "SUCCEED" Sample.mixed_files)
    = Ok record /\
    getitem record "entries" = Ok (VList entries) /\
    Forall (fun entry => exists format formats,
              getitem entry "formats" = Ok (VList (format :: formats))) entries.
Proof.
  assert (D : determine_ext "" <> "m3u8") by discriminate.
  eexists.
  destruct (entries_have_formats "96753363"
              (Sample.view_fields "SUCCEED" Sample.mixed_files) _ D eq_refl eq_refl)
    as (entries & E & F).
  exists entries. split; [reflexivity|]. split; [exact E|exact F].
Defined.

Lemma upload_date_absent_without_prefix_witness :
  exists entry,
    AfreecaTVIE.file_entry "96753363" (VStr "clip") [] true 1 Sample.push_file
    = Ok (Some entry) /\
    getitem entry "upload_date" = Ok VNone.
Proof.
  eexists. split; [reflexivity|].
  apply (upload_date_absent_without_prefix "96753363" (VStr "clip") [] true 1
           Sample.push_file _ ""); try reflexivity.
  intros d rest L _ E. destruct d; discriminate.
Defined.

Lemma upload_date_year_window_witness :
  exists record entries,
    AfreecaTVIE.build_record "96753363" (Sample.view_fields "SUCCEED" Sample.mixed_files)
    = Ok record /\
    getitem record "entries" = Ok (VList entries) /\
    Forall2 (fun p entry =>
               forall d rest upload_date,
                 getitem (snd p) "file_info_key" = Ok (VStr (d ++ "_" ++ rest)) ->
                 String.length d = 8 -> all_digits d = true ->
                 unified_strdate (Some d) = Some upload_date ->
                 exists year,
                   date_from_str_year upload_date = Some year /\
                   getitem entry "upload_date" =
                     Ok (if ((year <? 2000) || (year >=? 2100))%Z
                         then VNone else VStr upload_date))
      (kept_files "96753363" 1 Sample.mixed_files) entries.
Proof.
  assert (D : determine_ext "" <> "m3u8") by discriminate.
  eexists.
  destruct (upload_date_year_window "96753363"
              (Sample.view_fields "SUCCEED" Sample.mixed_files) Sample.mixed_files
              D eq_refl) as [W _].
  destruct (W _ eq_refl) as (entries & E & F).
  exists entries. split; [reflexivity|]. split; [exact E|exact F].
Defined.

(** the two entries of the run: the part of 1999 has no upload date, the
    part of 2017 has its own *)
Lemma mixed_strict_upload_dates :
  exists old_entry new_entry,
    AfreecaTVIE.build_record "96753363" (Sample.view_fields "SUCCEED" Sample.mixed_files)
    = Ok (VDict [("uploader", VStr "april"); ("uploader_id", VStr "dailyapril");
                 ("thumbnail", VStr "http://videoimg.afreecatv.com/t.jpg");
                 ("id", VStr "96753363"); ("title", VStr "clip");
                 ("duration", VInt 213); ("_type", VStr "multi_video");
                 ("entries", VList [old_entry; new_entry])]) /\
    getitem old_entry "id" = Ok (VStr "19991231_BB_2") /\
    getitem old_entry "upload_date" = Ok VNone /\
    getitem new_entry "id" = Ok (VStr "20170411_BE689A0E_190960999_1_2_h") /\
    getitem new_entry "upload_date" = Ok (VStr "20170411").
Proof. eexists. eexists. repeat split. Qed.

End MixedStrictRun.

Section VideoKeyRun.

Lemma parse_video_key_extracts_witness :
  VideoKey.parse_video_key (VStr "20230108_9FF5BEE1_244432674_1")
  = Ok [("upload_date", VStr "20230108"); ("part", VInt 1)].
Proof.
  apply (parse_video_key_extracts "20230108" "9FF5BEE1_244432674" "1" "");
    try reflexivity; try discriminate.
  - apply Nat.leb_le. vm_compute. reflexivity.
  - now left.
Defined.

Lemma parse_video_key_both_or_none_witness :
  VideoKey.parse_video_key (VStr "20230108_9FF5BEE1_244432674_1") = Ok [] \/
  exists d tag part ending,
    "20230108_9FF5BEE1_244432674_1" = d ++ "_" ++ tag ++ "_" ++ part ++ ending /\
    (ending = EmptyString \/ ending = VideoKey.nl_text) /\
    String.length d = 8 /\ all_digits d = true /\
    tag <> EmptyString /\ VideoKey.all_word tag = true /\
    part <> EmptyString /\ all_digits part = true /\
    VideoKey.parse_video_key (VStr "20230108_9FF5BEE1_244432674_1") =
      if Nat.ltb VideoKey.INT_MAX_STR_DIGITS (String.length part)
      then Raise ValueError
      else Ok [("upload_date", VStr d); ("part", VInt (VideoKey.int_digits 0 part))].
Proof.
  apply (parse_video_key_both_or_none "20230108_9FF5BEE1_244432674_1").
  reflexivity.
Defined.

Lemma parse_video_key_agrees_with_loop_witness :
  exists d, VStr "20230108" = VStr d /\
            AfreecaTVIE.match_upload_date "20230108_9FF5BEE1_244432674_1" = Some d.
Proof.
  apply (parse_video_key_agrees_with_loop "20230108_9FF5BEE1_244432674_1"
           [("upload_date", VStr "20230108"); ("part", VInt 1)]); reflexivity.
Defined.

(** The key of the module's test marked 'non standard key' ends with a
    letter: [parse_video_key] finds nothing in it, the pattern of the loop
    finds the date. *)
Lemma non_standard_key :
  VideoKey.parse_video_key (VStr "20170411_BE689A0E_190960999_1_2_h") = Ok [] /\
  AfreecaTVIE.match_upload_date "20170411_BE689A0E_190960999_1_2_h" = Some "20170411".
Proof. split; reflexivity. Qed.

End VideoKeyRun.

Section LoginOkRun.
#[local] Existing Instance Cases.login_ok.

Lemma login_succeeds_iff_witness :
  fst (Login._perform_login "afreecatv" "april" "secret" init) = Ok tt.
Proof.
  apply (proj2 (login_succeeds_iff "afreecatv" "april" "secret" init)).
  exists (VDict [("RESULT", VInt 1)]), (VInt 1). repeat split.
Defined.

End LoginOkRun.

Section LoginWrongRun.
#[local] Existing Instance Cases.login_wrong.

Lemma login_failure_is_explained_witness :
  foreign (Login.login_error "afreecatv:live" (Login.error_of (Some (-1)%Z))) \/
  exists result,
    result <> Some 1%Z /\
    Login.login_error "afreecatv:live" (Login.error_of (Some (-1)%Z))
    = ExtractorError
        ("Unable to login: " ++ "afreecatv:live" ++ " said: " ++ Login.error_of result)
        true /\
    In (Login.error_of result) (Login.DEFAULT_ERROR :: map snd Login._ERRORS).
Proof.
  apply (login_failure_is_explained "afreecatv:live" "april" "secret" init).
  reflexivity.
Defined.

End LoginWrongRun.

Section LoginBlankRun.
#[local] Existing Instance Cases.login_blank.

Lemma login_unknown_result_gets_default_witness :
  fst (Login._perform_login "afreecatv" "april" "secret" init) =
    Raise (ExtractorError
             ("Unable to login: " ++ "afreecatv" ++ " said: You have failed to log in.")
             true).
Proof.
  apply (login_unknown_result_gets_default "afreecatv" "april" "secret" init
           (VDict []) VNone); try reflexivity.
  now left.
Defined.

End LoginBlankRun.

Section ProtectedRun.
#[local] Existing Instance Cases.protected.

Lemma live_password_gate_witness :
  AfreecaTVLiveIE._real_extract Sample.LIVE_URL init =
    (Raise AfreecaTVLiveIE.password_required,
     mkWorld [AfreecaTVLiveIE.channel_request (fst (match_valid_url_live Sample.LIVE_URL))]
       [])
  /\ classify AfreecaTVLiveIE.password_required = Some PasswordRequired.
Proof.
  apply (live_password_gate Sample.LIVE_URL Cases.protected_channel); reflexivity.
Defined.

End ProtectedRun.

Section ProtectedWithPasswordRun.
#[local] Existing Instance Cases.protected_with_password.

Lemma live_degrades_to_no_format_witness :
  exists record,
    AfreecaTVLiveIE._real_extract Sample.LIVE_URL init =
      (Ok record,
       mkWorld
         (AfreecaTVLiveIE.channel_request "pyh3646"
          :: map (AfreecaTVLiveIE.aid_request (VStr "237852185") (Some "secret"))
               ["sd"; "hd"; "hd2k"; "original"]
          ++ [AfreecaTVLiveIE.station_request (VStr "pyh3646")])
         []) /\
    getitem record "formats" = Ok (VList []) /\
    getitem record "is_live" = Ok (VBool true).
Proof.
  assert (Fail : forall history rq, history <> [] -> network history rq = None).
  { intros [|rq history] rq' N; [now destruct N|]. destruct history; reflexivity. }
  assert (P : str_eq (find Cases.protected_channel "BPWD") "Y" = false
              \/ videopassword <> None) by (right; discriminate).
  exact (live_degrades_to_no_format Sample.LIVE_URL Cases.protected_channel
           eq_refl eq_refl eq_refl P Fail).
Defined.

End ProtectedWithPasswordRun.

Section OfflineRun.
#[local] Existing Instance Sample.offline.

Lemma live_own_failures_witness :
  fst (AfreecaTVLiveIE._real_extract Sample.LIVE_URL_NO_BNO init)
  = Raise (AfreecaTVLiveIE.not_live (VStr "pyh3646")) /\
  true = true /\
  (classify (AfreecaTVLiveIE.not_live (VStr "pyh3646")) = Some NotLive \/
   classify (AfreecaTVLiveIE.not_live (VStr "pyh3646")) = Some PasswordRequired) /\
  snd (AfreecaTVLiveIE._real_extract Sample.LIVE_URL_NO_BNO init) =
    sent init (AfreecaTVLiveIE.channel_request
                 (fst (match_valid_url_live Sample.LIVE_URL_NO_BNO))).
Proof.
  split; [reflexivity|].
  apply (live_own_failures Sample.LIVE_URL_NO_BNO init). reflexivity.
Defined.

End OfflineRun.

Section LookupFailsRun.
#[local] Existing Instance Sample.lookup_fails.

Lemma live_requests_of_a_success_witness :
  exists record w' broadcast_no broadcaster_id tier_requests,
    AfreecaTVLiveIE._real_extract Sample.LIVE_URL init = (Ok record, w') /\
    getitem record "id" = Ok broadcast_no /\
    getitem record "uploader_id" = Ok broadcaster_id /\
    w' = mkWorld
           (AfreecaTVLiveIE.channel_request (fst (match_valid_url_live Sample.LIVE_URL))
            :: tier_requests ++ [AfreecaTVLiveIE.station_request broadcaster_id]) [] /\
    Forall (fun rq => is_tier_request rq = true) tier_requests /\
    4 <= List.length tier_requests <= 8 /\
    filter is_aid_request tier_requests =
      map (AfreecaTVLiveIE.aid_request broadcast_no videopassword)
        ["sd"; "hd"; "hd2k"; "original"].
Proof.
  assert (E : exists record w',
             AfreecaTVLiveIE._real_extract Sample.LIVE_URL init = (Ok record, w')).
  { eexists. eexists. vm_compute. reflexivity. }
  destruct E as (record & w' & E).
  destruct (live_requests_of_a_success Sample.LIVE_URL record w' E)
    as (broadcast_no & broadcaster_id & tier_requests & P).
  exists record, w', broadcast_no, broadcaster_id, tier_requests.
  split; [exact E|exact P].
Defined.

Lemma live_formats_follow_the_tiers_witness :
  exists record picked broadcast_no,
    fst (AfreecaTVLiveIE._real_extract Sample.LIVE_URL init) = Ok record /\
    getitem record "formats" = Ok (VList (map tier_format picked)) /\
    subseq (map fst picked) ["sd"; "hd"; "hd2k"; "original"] /\
    getitem record "is_live" = Ok (VBool true) /\
    getitem record "id" = Ok broadcast_no /\ truthy broadcast_no = true.
Proof.
  assert (E : exists record w',
             AfreecaTVLiveIE._real_extract Sample.LIVE_URL init = (Ok record, w')).
  { eexists. eexists. vm_compute. reflexivity. }
  destruct E as (record & w' & E).
  destruct (live_formats_follow_the_tiers Sample.LIVE_URL init w' record E)
    as (picked & broadcast_no & P).
  exists record, picked, broadcast_no. split; [now rewrite E|exact P].
Defined.

End LookupFailsRun.

Section PageOfTwoRun.
#[local] Existing Instance Cases.page_of_two.
#[local] Existing Instance Cases.catalog.

Lemma fetch_page_forwards_every_item_witness :
  exists yielded,
    fst (AfreecaTVUserIE._fetch_page "ryuryu24" "review" 0 init) = (yielded, None) /\
    Forall2 forwards_to [Cases.item 101; Cases.item 102] yielded.
Proof.
  apply (fetch_page_forwards_every_item "ryuryu24" "review" 0 init
           (VDict [("data", VList [Cases.item 101; Cases.item 102])])).
  - reflexivity.
  - reflexivity.
  - repeat constructor; eexists; reflexivity.
Defined.

(** the page as it comes out *)
Lemma page_of_two_run :
  fst (AfreecaTVUserIE._fetch_page "ryuryu24" "review" 0 init) =
    ([Cases.url_result "https://vod.afreecatv.com/player/101/" (VInt 101);
      Cases.url_result "https://vod.afreecatv.com/player/102/" (VInt 102)], None).
Proof. reflexivity. Qed.

Lemma user_playlist_defaults_to_all_witness :
  AfreecaTVUserIE.playlist_id (AfreecaTVUserIE._real_extract Cases.USER_URL)
    = fst (match_valid_url_user Cases.USER_URL) /\
  AfreecaTVUserIE.playlist_title (AfreecaTVUserIE._real_extract Cases.USER_URL)
    = fst (match_valid_url_user Cases.USER_URL) ++ " - all" /\
  exists rq,
    issued (snd (AfreecaTVUserIE.pagefunc (AfreecaTVUserIE._real_extract Cases.USER_URL)
                   2 init))
      = (issued init ++ [rq])%list /\
    rq_url rq = "https://bjapi.afreecatv.com/api/"
                ++ fst (match_valid_url_user Cases.USER_URL) ++ "/vods/all" /\
    find (rq_query rq) "page" = VInt (2 + 1) /\
    find (rq_query rq) "per_page"
      = VInt (AfreecaTVUserIE.pagesize (AfreecaTVUserIE._real_extract Cases.USER_URL)).
Proof.
  apply (user_playlist_defaults_to_all Cases.USER_URL 2 init). reflexivity.
Defined.

End PageOfTwoRun.

Section PageWithBadItemRun.
#[local] Existing Instance Cases.page_with_bad_item.
#[local] Existing Instance Cases.catalog.

Lemma fetch_page_stops_at_bad_item_witness :
  exists yielded,
    fst (AfreecaTVUserIE._fetch_page "ryuryu24" "review" 0 init)
    = (yielded, Some (KeyError "title_no")) /\
    Forall2 forwards_to [Cases.item 101] yielded.
Proof.
  apply (fetch_page_stops_at_bad_item "ryuryu24" "review" 0 init
           (VDict [("data", VList [Cases.item 101; Cases.untitled; Cases.item 102])])
           Cases.untitled [Cases.item 101] [Cases.item 102]).
  - reflexivity.
  - reflexivity.
  - repeat constructor. eexists; reflexivity.
  - reflexivity.
Defined.

End PageWithBadItemRun.

Section PageWithoutDataRun.
#[local] Existing Instance Cases.page_without_data.
#[local] Existing Instance Cases.catalog.

Lemma fetch_page_without_data_witness :
  fst (AfreecaTVUserIE._fetch_page "ryuryu24" "review" 0 init)
  = ([], Some (KeyError "data")).
Proof.
  apply (fetch_page_without_data "ryuryu24" "review" 0 init
           (VDict [("total", VInt 0)])); reflexivity.
Defined.

End PageWithoutDataRun.

Section LookupFailsFallback.
#[local] Existing Instance Sample.lookup_fails.


End LookupFailsFallback.

Section YearOneRun.
#[local] Existing Instance Cases.year_one.

(** C7 (defect).  The key of the file starts with the digits 00010101 and
    an underscore: a date of the year 1, below 2000, so that the upload
    date of the entry is to be dropped.  The resolver raises instead and
    returns no record: [unified_strdate] prints the date as '10101', which
    [date_from_str] cannot read, and the loop over the files does not guard
    that call. *)
Lemma year_one_key_is_not_discarded :
  AfreecaTVIE.match_upload_date "00010101_AB_1" = Some "00010101" /\
  unified_strdate (Some "00010101") = Some "10101" /\
  date_from_str_year "10101" = None /\
  AfreecaTVIE._real_extract Sample.VOD_URL init =
    (Raise (HostError "date_from_str"), mkWorld [vod_request Sample.VOD_URL] []).
Proof. repeat split. Qed.

End YearOneRun.
